(** * Blood-Bank Management System: inventory and eligibility ledger

    A shallow embedding of the Express/Mongoose back end:

    - the Mongoose schemas [BloodInventory], [BloodRequest], [Donation] and
      [User] (models/*.js) as records, with their defaults and validators;
    - the route handlers of routes/requests.js, routes/blood.js and
      routes/inventory.js as functions from a database state to a response
      and a new database state;
    - [authenticate] of middleware/auth.js, the body filter and the
      activation switch of routes/users.js, and the dashboard of
      routes/admin.js.

    Conventions of the embedding.

    - A JavaScript [Number] is an integer of [Z]; a [Date] is its number of
      milliseconds since the epoch, also in [Z]. Sums and differences are
      those of [Z], which are the ones JavaScript computes on safe
      integers ([isSafeInteger]); a property that states the sum of
      numbers no validator bounds assumes them safe.
    - A field of a request body is either absent ([None], JavaScript's
      [undefined]) or a value of the type its schema path declares.
    - A collection is a finite map: documents by [_id], and the inventory by
      [bloodType], the path the schema declares [unique].
    - [await doc.save()] validates and then writes; a validation failure
      throws, and whatever was written before the throw stays written.
    - [authenticate] has run: a handler receives the user document it put in
      [req.user]. An identifier in a URL is a well-formed [ObjectId].
    - The identifier and the clock a handler consumes ([new Model(..)._id],
      [new Date()], [Date.now()]) are arguments of the handler.
    - The [createdAt] and [updatedAt] stamps of [timestamps: true] are
      left out, but for the [updatedAt] of a user, which every save of a
      user rewrites; the [populate] calls that only decorate a response
      are left out too. *)

From Stdlib Require Import ZArith Lia Sorted Permutation.
From stdpp Require Import gmap strings list fin_maps pretty.

Local Open Scope Z_scope.

Abbreviation ObjectId := string (only parsing).
Abbreviation Date := Z (only parsing).

(** [Array.prototype.includes] on an array of strings. *)
Definition includes (l : list string) (s : string) : bool :=
  existsb (String.eqb s) l.

Arguments includes _ _ : simpl never.

(** An [enum] validator accepts a missing value. *)
Definition enumValidator (values : list string) (v : option string) : bool :=
  match v with
  | None => true
  | Some s => includes values s
  end.

(** The [required] validator of a [String] path rejects the empty string. *)
Definition requiredString (v : option string) : option string :=
  match v with
  | Some s => if String.eqb s "" then None else Some s
  | None => None
  end.

(** Whether a path holds a value. *)
Definition present {A : Type} (v : option A) : bool :=
  match v with
  | Some _ => true
  | None => false
  end.

(** Truthiness of a string ([notes || request.notes]). *)
Definition orString (v : option string) (fallback : string) : string :=
  match v with
  | Some s => if String.eqb s "" then fallback else s
  | None => fallback
  end.

(** Truthiness of a number ([if (unitsCollected)], [x || 1]). *)
Definition truthyNumber (v : option Z) : option Z :=
  match v with
  | Some n => if n =? 0 then None else Some n
  | None => None
  end.

(** [Number.MAX_SAFE_INTEGER] and [Number.isSafeInteger]: the integers a
    JavaScript [Number] holds exactly. A sum or a difference of two safe
    integers that is itself a safe integer is computed exactly; the
    arithmetic of the handlers is stated on such operands. *)
Definition maxSafeInteger : Z := 2 ^ 53 - 1.

Definition isSafeInteger (z : Z) : Prop :=
  - maxSafeInteger <= z <= maxSafeInteger.

(** The interpolation of a possibly missing string in a template literal. *)
Definition showString (v : option string) : string :=
  default "undefined" v.

(** [v === s] for a possibly missing string [v] and a literal [s]. *)
Definition strictEq (v : option string) (s : string) : bool :=
  match v with
  | Some x => String.eqb x s
  | None => false
  end.

(** [values.includes(v)] for a possibly missing string [v]. *)
Definition enumIncludes (values : list string) (v : option string) : bool :=
  match v with
  | Some s => includes values s
  | None => false
  end.

Definition bloodTypes : list string :=
  ["A+"; "A-"; "B+"; "B-"; "AB+"; "AB-"; "O+"; "O-"].

(** ** models/BloodInventory.js *)
Module BloodInventory.

Record t := mk {
  bloodType : string;
  unitsAvailable : Z;
  lastUpdated : Date;
  minimumThreshold : Z;
  maxCapacity : Z;
  expiringUnits : list (Date * Z);
  reservedUnits : Z
}.

(** [new BloodInventory({ bloodType })]: every other path takes its
    schema default. *)
Definition create (bt : string) (now : Date) : t :=
  {| bloodType := bt; unitsAvailable := 0; lastUpdated := now;
     minimumThreshold := 10; maxCapacity := 100;
     expiringUnits := []; reservedUnits := 0 |}.

Definition set_unitsAvailable (v : Z) (i : t) : t :=
  {| bloodType := bloodType i; unitsAvailable := v;
     lastUpdated := lastUpdated i;
     minimumThreshold := minimumThreshold i; maxCapacity := maxCapacity i;
     expiringUnits := expiringUnits i; reservedUnits := reservedUnits i |}.

Definition set_lastUpdated (v : Date) (i : t) : t :=
  {| bloodType := bloodType i; unitsAvailable := unitsAvailable i;
     lastUpdated := v;
     minimumThreshold := minimumThreshold i; maxCapacity := maxCapacity i;
     expiringUnits := expiringUnits i; reservedUnits := reservedUnits i |}.

Definition set_minimumThreshold (v : Z) (i : t) : t :=
  {| bloodType := bloodType i; unitsAvailable := unitsAvailable i;
     lastUpdated := lastUpdated i;
     minimumThreshold := v; maxCapacity := maxCapacity i;
     expiringUnits := expiringUnits i; reservedUnits := reservedUnits i |}.

Definition set_maxCapacity (v : Z) (i : t) : t :=
  {| bloodType := bloodType i; unitsAvailable := unitsAvailable i;
     lastUpdated := lastUpdated i;
     minimumThreshold := minimumThreshold i; maxCapacity := v;
     expiringUnits := expiringUnits i; reservedUnits := reservedUnits i |}.

Definition push_expiringUnits (batch : Date * Z) (i : t) : t :=
  {| bloodType := bloodType i; unitsAvailable := unitsAvailable i;
     lastUpdated := lastUpdated i;
     minimumThreshold := minimumThreshold i; maxCapacity := maxCapacity i;
     expiringUnits := expiringUnits i ++ [batch];
     reservedUnits := reservedUnits i |}.

(** The schema's validators: [bloodType] in its [enum] (the empty string
    fails [required] and is not in the enum either), [unitsAvailable]
    with [min: 0]. *)
Definition validate (i : t) : bool :=
  includes bloodTypes (bloodType i) && (0 <=? unitsAvailable i).

Definition isLowStock (i : t) : bool :=
  unitsAvailable i <=? minimumThreshold i.

Definition getAvailableUnits (i : t) : Z :=
  Z.max 0 (unitsAvailable i - reservedUnits i).

End BloodInventory.

(** ** models/BloodRequest.js

    The sub-documents [hospitalAddress], [contactPerson] and [attachments]
    carry no validator and no handler reads them; they are left out. *)
Module BloodRequest.

Definition statuses : list string :=
  ["pending"; "approved"; "fulfilled"; "cancelled"; "expired"].

Definition urgencies : list string := ["low"; "medium"; "high"; "critical"].

(** The paths a caller may put in the body of [POST /requests]. *)
Record fields := mkFields {
  f_requester : option ObjectId;
  f_patientName : option string;
  f_bloodType : option string;
  f_unitsNeeded : option Z;
  f_urgency : option string;
  f_hospitalName : option string;
  f_medicalReason : option string;
  f_requiredDate : option Date;
  f_status : option string;
  f_approvedBy : option ObjectId;
  f_approvedDate : option Date;
  f_fulfilledDate : option Date;
  f_notes : option string
}.

(** A document. [status] is the only path a handler may leave unset or
    set to a string outside the enum before it saves. *)
Record t := mk {
  requester : ObjectId;
  patientName : string;
  bloodType : string;
  unitsNeeded : Z;
  urgency : string;
  hospitalName : string;
  medicalReason : string;
  requiredDate : Date;
  status : option string;
  approvedBy : option ObjectId;
  approvedDate : option Date;
  fulfilledDate : option Date;
  notes : string
}.

Definition set_status (v : option string) (r : t) : t :=
  {| requester := requester r; patientName := patientName r;
     bloodType := bloodType r; unitsNeeded := unitsNeeded r;
     urgency := urgency r; hospitalName := hospitalName r;
     medicalReason := medicalReason r; requiredDate := requiredDate r;
     status := v; approvedBy := approvedBy r;
     approvedDate := approvedDate r; fulfilledDate := fulfilledDate r;
     notes := notes r |}.

Definition set_notes (v : string) (r : t) : t :=
  {| requester := requester r; patientName := patientName r;
     bloodType := bloodType r; unitsNeeded := unitsNeeded r;
     urgency := urgency r; hospitalName := hospitalName r;
     medicalReason := medicalReason r; requiredDate := requiredDate r;
     status := status r; approvedBy := approvedBy r;
     approvedDate := approvedDate r; fulfilledDate := fulfilledDate r;
     notes := v |}.

Definition set_approved (by_ : ObjectId) (at_ : Date) (r : t) : t :=
  {| requester := requester r; patientName := patientName r;
     bloodType := bloodType r; unitsNeeded := unitsNeeded r;
     urgency := urgency r; hospitalName := hospitalName r;
     medicalReason := medicalReason r; requiredDate := requiredDate r;
     status := status r; approvedBy := Some by_;
     approvedDate := Some at_; fulfilledDate := fulfilledDate r;
     notes := notes r |}.

Definition set_fulfilledDate (at_ : Date) (r : t) : t :=
  {| requester := requester r; patientName := patientName r;
     bloodType := bloodType r; unitsNeeded := unitsNeeded r;
     urgency := urgency r; hospitalName := hospitalName r;
     medicalReason := medicalReason r; requiredDate := requiredDate r;
     status := status r; approvedBy := approvedBy r;
     approvedDate := approvedDate r; fulfilledDate := Some at_;
     notes := notes r |}.

(** The validators that can fail on a document: the two enums that a
    handler or a body may set, and the range of [unitsNeeded]. *)
Definition validate (r : t) : bool :=
  includes bloodTypes (bloodType r)
  && (1 <=? unitsNeeded r) && (unitsNeeded r <=? 10)
  && includes urgencies (urgency r)
  && enumValidator statuses (status r).

(** [new BloodRequest(input)] followed by validation: the schema defaults
    fill the missing paths, and a missing [required] path fails. *)
Definition create (input : fields) : option t :=
  requester ← f_requester input;
  patientName ← requiredString (f_patientName input);
  bloodType ← requiredString (f_bloodType input);
  unitsNeeded ← f_unitsNeeded input;
  hospitalName ← requiredString (f_hospitalName input);
  medicalReason ← requiredString (f_medicalReason input);
  requiredDate ← f_requiredDate input;
  let doc :=
    {| requester := requester; patientName := patientName;
       bloodType := bloodType; unitsNeeded := unitsNeeded;
       urgency := default "medium" (f_urgency input);
       hospitalName := hospitalName; medicalReason := medicalReason;
       requiredDate := requiredDate;
       status := Some (default "pending" (f_status input));
       approvedBy := f_approvedBy input;
       approvedDate := f_approvedDate input;
       fulfilledDate := f_fulfilledDate input;
       notes := default "" (f_notes input) |} in
  if validate doc then Some doc else None.

(** Reading a stored document applies the default of a missing path. *)
Definition currentStatus (r : t) : string := default "pending" (status r).

Definition hydrate (r : t) : t := set_status (Some (currentStatus r)) r.

End BloodRequest.

(** ** models/Donation.js

    The sub-document [location] carries no validator and no handler reads
    it; it is left out. *)
Module Donation.

Definition statuses : list string :=
  ["scheduled"; "completed"; "cancelled"; "rejected"].

Record PreScreening := mkPreScreening {
  weight : option Z;
  bloodPressure : option string;
  pulse : option Z;
  temperature : option Z;
  hemoglobin : option Z;
  eligible : option bool
}.

Record PostDonation := mkPostDonation {
  complications : option bool;
  pd_notes : option string
}.

(** The paths a caller may put in the body of [POST /blood/donate]. *)
Record fields := mkFields {
  f_donor : option ObjectId;
  f_donationDate : option Date;
  f_bloodType : option string;
  f_unitsCollected : option Z;
  f_status : option string;
  f_preScreening : option PreScreening;
  f_postDonation : option PostDonation;
  f_staffMember : option ObjectId;
  f_notes : option string
}.

Record t := mk {
  donor : ObjectId;
  donationDate : Date;
  bloodType : string;
  unitsCollected : Z;
  status : option string;
  preScreening : option PreScreening;
  postDonation : option PostDonation;
  staffMember : option ObjectId;
  notes : string
}.

Definition set_status (v : option string) (d : t) : t :=
  {| donor := donor d; donationDate := donationDate d;
     bloodType := bloodType d; unitsCollected := unitsCollected d;
     status := v; preScreening := preScreening d;
     postDonation := postDonation d; staffMember := staffMember d;
     notes := notes d |}.

Definition set_staffMember (v : ObjectId) (d : t) : t :=
  {| donor := donor d; donationDate := donationDate d;
     bloodType := bloodType d; unitsCollected := unitsCollected d;
     status := status d; preScreening := preScreening d;
     postDonation := postDonation d; staffMember := Some v;
     notes := notes d |}.

Definition set_notes (v : string) (d : t) : t :=
  {| donor := donor d; donationDate := donationDate d;
     bloodType := bloodType d; unitsCollected := unitsCollected d;
     status := status d; preScreening := preScreening d;
     postDonation := postDonation d; staffMember := staffMember d;
     notes := v |}.

Definition set_preScreening (v : PreScreening) (d : t) : t :=
  {| donor := donor d; donationDate := donationDate d;
     bloodType := bloodType d; unitsCollected := unitsCollected d;
     status := status d; preScreening := Some v;
     postDonation := postDonation d; staffMember := staffMember d;
     notes := notes d |}.

Definition set_postDonation (v : PostDonation) (d : t) : t :=
  {| donor := donor d; donationDate := donationDate d;
     bloodType := bloodType d; unitsCollected := unitsCollected d;
     status := status d; preScreening := preScreening d;
     postDonation := Some v; staffMember := staffMember d;
     notes := notes d |}.

Definition set_unitsCollected (v : Z) (d : t) : t :=
  {| donor := donor d; donationDate := donationDate d;
     bloodType := bloodType d; unitsCollected := v;
     status := status d; preScreening := preScreening d;
     postDonation := postDonation d; staffMember := staffMember d;
     notes := notes d |}.

Definition validate (d : t) : bool :=
  includes bloodTypes (bloodType d)
  && (1 <=? unitsCollected d) && (unitsCollected d <=? 2)
  && enumValidator statuses (status d).

(** [new Donation(input)] followed by validation. *)
Definition create (input : fields) : option t :=
  donor ← f_donor input;
  donationDate ← f_donationDate input;
  bloodType ← requiredString (f_bloodType input);
  let doc :=
    {| donor := donor; donationDate := donationDate;
       bloodType := bloodType;
       unitsCollected := default 1 (f_unitsCollected input);
       status := Some (default "scheduled" (f_status input));
       preScreening := f_preScreening input;
       postDonation := f_postDonation input;
       staffMember := f_staffMember input;
       notes := default "" (f_notes input) |} in
  if validate doc then Some doc else None.

(** Reading a stored document applies the default of a missing path. *)
Definition currentStatus (d : t) : string := default "scheduled" (status d).

Definition hydrate (d : t) : t := set_status (Some (currentStatus d)) d.

End Donation.

(** ** models/User.js

    The paths the ledger reads or writes, and the paths whose validators
    every [save] of a user runs. A stored path may be missing ([None]):
    [password] holds the stored hash; [updatedAt] is the stamp of
    [timestamps: true], which a [save] of a modified user sets. The
    address, the medical history and the profile picture have no
    validator and are left out. *)
Module User.

Record t := mk {
  _id : ObjectId;
  name : option string;
  email : option string;
  password : option string;
  role : string;
  phone : option string;
  bloodType : option string;
  dateOfBirth : option Date;
  gender : option string;
  lastDonation : option Date;
  isEligible : bool;
  donationCount : Z;
  isActive : bool;
  updatedAt : Date
}.

Definition set_lastDonation (v : Date) (u : t) : t :=
  {| _id := _id u; name := name u; email := email u;
     password := password u; role := role u; phone := phone u;
     bloodType := bloodType u; dateOfBirth := dateOfBirth u;
     gender := gender u;
     lastDonation := Some v; isEligible := isEligible u;
     donationCount := donationCount u; isActive := isActive u;
     updatedAt := updatedAt u |}.

Definition set_donationCount (v : Z) (u : t) : t :=
  {| _id := _id u; name := name u; email := email u;
     password := password u; role := role u; phone := phone u;
     bloodType := bloodType u; dateOfBirth := dateOfBirth u;
     gender := gender u;
     lastDonation := lastDonation u; isEligible := isEligible u;
     donationCount := v; isActive := isActive u;
     updatedAt := updatedAt u |}.

Definition set_isActive (v : bool) (u : t) : t :=
  {| _id := _id u; name := name u; email := email u;
     password := password u; role := role u; phone := phone u;
     bloodType := bloodType u; dateOfBirth := dateOfBirth u;
     gender := gender u;
     lastDonation := lastDonation u; isEligible := isEligible u;
     donationCount := donationCount u; isActive := v;
     updatedAt := updatedAt u |}.

Definition set_updatedAt (v : Date) (u : t) : t :=
  {| _id := _id u; name := name u; email := email u;
     password := password u; role := role u; phone := phone u;
     bloodType := bloodType u; dateOfBirth := dateOfBirth u;
     gender := gender u;
     lastDonation := lastDonation u; isEligible := isEligible u;
     donationCount := donationCount u; isActive := isActive u;
     updatedAt := v |}.

(** [.select('-password')]: the document without its password. *)
Definition withoutPassword (u : t) : t :=
  {| _id := _id u; name := name u; email := email u;
     password := None; role := role u; phone := phone u;
     bloodType := bloodType u; dateOfBirth := dateOfBirth u;
     gender := gender u;
     lastDonation := lastDonation u; isEligible := isEligible u;
     donationCount := donationCount u; isActive := isActive u;
     updatedAt := updatedAt u |}.

Definition roles : list string := ["donor"; "recipient"; "admin"].

Definition genders : list string := ["male"; "female"; "other"].

(** [required: function() { return this.role !== 'admin'; }] *)
Definition requiredUnlessAdmin (u : t) (given : bool) : bool :=
  String.eqb (role u) "admin" || given.

(** [minlength: 6] on a present [password]. *)
Definition minlength (n : Z) (v : option string) : bool :=
  match v with
  | Some s => n <=? Z.of_nat (String.length s)
  | None => true
  end.

(** The validators of [userSchema], which [user.save()] runs on every
    path of the document: [required] on [name], [email] and [password],
    [minlength] on [password], the enums of [role], [bloodType] and
    [gender], and [required] on [phone], [bloodType], [dateOfBirth] and
    [gender] for every role but [admin]. *)
Definition validate (u : t) : bool :=
  present (requiredString (name u))
  && present (requiredString (email u))
  && present (requiredString (password u))
  && minlength 6 (password u)
  && includes roles (role u)
  && requiredUnlessAdmin u (present (requiredString (phone u)))
  && requiredUnlessAdmin u (present (requiredString (bloodType u)))
  && enumValidator bloodTypes (bloodType u)
  && requiredUnlessAdmin u (present (dateOfBirth u))
  && requiredUnlessAdmin u (present (requiredString (gender u)))
  && enumValidator genders (gender u).

Definition msPerDay : Z := 1000 * 60 * 60 * 24.

(** [userSchema.methods.checkEligibility], with [Date.now()] as [now].
    A stored [Date] is an object and so truthy: [!this.lastDonation]
    holds exactly when the path is [null]. *)
Definition checkEligibility (u : t) (now : Date) : bool :=
  match lastDonation u with
  | None => true
  | Some last =>
      let daysSinceLastDonation := (now - last) / msPerDay in
      56 <=? daysSinceLastDonation
  end.

End User.

(** ** The database and the handler monad *)

Record Db := mkDb {
  users : gmap ObjectId User.t;
  bloodrequests : gmap ObjectId BloodRequest.t;
  donations : gmap ObjectId Donation.t;
  bloodinventories : gmap string BloodInventory.t
}.

Definition set_users (v : gmap ObjectId User.t) (db : Db) : Db :=
  {| users := v; bloodrequests := bloodrequests db;
     donations := donations db; bloodinventories := bloodinventories db |}.

Definition set_bloodrequests (v : gmap ObjectId BloodRequest.t) (db : Db) : Db :=
  {| users := users db; bloodrequests := v;
     donations := donations db; bloodinventories := bloodinventories db |}.

Definition set_donations (v : gmap ObjectId Donation.t) (db : Db) : Db :=
  {| users := users db; bloodrequests := bloodrequests db;
     donations := v; bloodinventories := bloodinventories db |}.

Definition set_bloodinventories (v : gmap string BloodInventory.t) (db : Db) : Db :=
  {| users := users db; bloodrequests := bloodrequests db;
     donations := donations db; bloodinventories := v |}.

(** What an [await] can throw into the handler's [catch]. *)
Inductive Exn :=
| ValidationError
| DuplicateKeyError
| TypeError.

(** The body of a [try] block: it reads and writes the database and either
    throws or returns. The database it leaves is the one reached when it
    threw. *)
Definition Task (A : Type) : Type := Db -> (Exn + A) * Db.

Definition ret {A} (a : A) : Task A := fun db => (inr a, db).

Definition throw {A} (e : Exn) : Task A := fun db => (inl e, db).

Definition bind {A B} (m : Task A) (k : A -> Task B) : Task B :=
  fun db =>
    match m db with
    | (inl e, db') => (inl e, db')
    | (inr a, db') => k a db'
    end.

Declare Scope task_scope.
Delimit Scope task_scope with task.
Notation "'let*' x := m 'in' k" := (bind m (fun x => k))
  (at level 10, x pattern, m at level 100, k at level 200) : task_scope.
Notation "m ;;; k" := (bind m (fun _ => k))
  (at level 100, k at level 200, right associativity) : task_scope.

Inductive Payload :=
| NoData
| RequestData (request : BloodRequest.t)
| DonationData (donation : Donation.t)
| InventoryData (inventory : BloodInventory.t)
| InventoryList (inventory : list BloodInventory.t)
| ErrorData (error : Exn).

(** [res.status(code).json({ success, message, ... })]. *)
Record Response := mkResponse {
  code : Z;
  success : bool;
  message : option string;
  data : Payload
}.

Definition json (c : Z) (msg : string) (d : Payload) : Response :=
  {| code := c; success := true; message := Some msg; data := d |}.

Definition failure (c : Z) (msg : string) : Response :=
  {| code := c; success := false; message := Some msg; data := NoData |}.

Definition serverError (msg : string) (e : Exn) : Response :=
  {| code := 500; success := false; message := Some msg;
     data := ErrorData e |}.

(** [try { ... } catch (error) { res.status(500).json(...) }]. *)
Definition tryCatch (body : Task Response) (msg : string)
  : Db -> Response * Db :=
  fun db =>
    match body db with
    | (inr r, db') => (r, db')
    | (inl e, db') => (serverError msg e, db')
    end.

(** middleware/auth.js, [authorize(...roles)]. *)
Definition authorize (roles : list string) (user : User.t)
    (next : Db -> Response * Db) : Db -> Response * Db :=
  fun db =>
    if includes roles (User.role user) then next db
    else (failure 403 "Access denied. Insufficient permissions.", db).

(** *** Model queries *)
Module Query.

Definition User_findById (id : ObjectId) : Task (option User.t) :=
  fun db => (inr (users db !! id), db).

(** [user.save()] of a stored, modified user at the time [now]: the
    validators run on the whole document; a failure throws and writes
    nothing, otherwise the document is written with its [updatedAt]
    stamp set. *)
Definition User_save (now : Date) (u : User.t) : Task unit :=
  fun db =>
    if User.validate u
    then (inr tt,
          set_users (<[User._id u := User.set_updatedAt now u]> (users db))
            db)
    else (inl ValidationError, db).

Definition BloodRequest_findById (id : ObjectId)
  : Task (option BloodRequest.t) :=
  fun db => (inr (BloodRequest.hydrate <$> bloodrequests db !! id), db).

(** [save] of a document made by [new]: validation, then an insert under
    a fresh [_id]. *)
Definition BloodRequest_insert (id : ObjectId) (input : BloodRequest.fields)
  : Task BloodRequest.t :=
  fun db =>
    match BloodRequest.create input with
    | None => (inl ValidationError, db)
    | Some doc =>
        match bloodrequests db !! id with
        | Some _ => (inl DuplicateKeyError, db)
        | None =>
            (inr doc, set_bloodrequests (<[id := doc]> (bloodrequests db)) db)
        end
    end.

Definition BloodRequest_save (id : ObjectId) (doc : BloodRequest.t)
  : Task unit :=
  fun db =>
    if BloodRequest.validate doc
    then (inr tt, set_bloodrequests (<[id := doc]> (bloodrequests db)) db)
    else (inl ValidationError, db).

Definition BloodRequest_findByIdAndDelete (id : ObjectId) : Task unit :=
  fun db => (inr tt, set_bloodrequests (delete id (bloodrequests db)) db).

Definition Donation_findById (id : ObjectId) : Task (option Donation.t) :=
  fun db => (inr (Donation.hydrate <$> donations db !! id), db).

Definition Donation_insert (id : ObjectId) (input : Donation.fields)
  : Task Donation.t :=
  fun db =>
    match Donation.create input with
    | None => (inl ValidationError, db)
    | Some doc =>
        match donations db !! id with
        | Some _ => (inl DuplicateKeyError, db)
        | None => (inr doc, set_donations (<[id := doc]> (donations db)) db)
        end
    end.

Definition Donation_save (id : ObjectId) (doc : Donation.t) : Task unit :=
  fun db =>
    if Donation.validate doc
    then (inr tt, set_donations (<[id := doc]> (donations db)) db)
    else (inl ValidationError, db).

Definition BloodInventory_findOne (bloodType : string)
  : Task (option BloodInventory.t) :=
  fun db => (inr (bloodinventories db !! bloodType), db).

(** No handler changes [bloodType], so a save lands on the record the
    document was read from, or creates the one for its blood type. *)
Definition BloodInventory_save (doc : BloodInventory.t) : Task unit :=
  fun db =>
    if BloodInventory.validate doc
    then (inr tt,
          set_bloodinventories
            (<[BloodInventory.bloodType doc := doc]> (bloodinventories db)) db)
    else (inl ValidationError, db).

End Query.

Local Open Scope task_scope.

(** ** routes/requests.js *)
Module requests.

(** [{ ...req.body, requester: req.user.id }] *)
Definition withRequester (body : BloodRequest.fields) (id : ObjectId)
  : BloodRequest.fields :=
  {| BloodRequest.f_requester := Some id;
     BloodRequest.f_patientName := BloodRequest.f_patientName body;
     BloodRequest.f_bloodType := BloodRequest.f_bloodType body;
     BloodRequest.f_unitsNeeded := BloodRequest.f_unitsNeeded body;
     BloodRequest.f_urgency := BloodRequest.f_urgency body;
     BloodRequest.f_hospitalName := BloodRequest.f_hospitalName body;
     BloodRequest.f_medicalReason := BloodRequest.f_medicalReason body;
     BloodRequest.f_requiredDate := BloodRequest.f_requiredDate body;
     BloodRequest.f_status := BloodRequest.f_status body;
     BloodRequest.f_approvedBy := BloodRequest.f_approvedBy body;
     BloodRequest.f_approvedDate := BloodRequest.f_approvedDate body;
     BloodRequest.f_fulfilledDate := BloodRequest.f_fulfilledDate body;
     BloodRequest.f_notes := BloodRequest.f_notes body |}.

(** [router.post('/', authenticate, ...)] *)
Definition create (user : User.t) (body : BloodRequest.fields)
    (newId : ObjectId) : Db -> Response * Db :=
  tryCatch
    (let* bloodRequest :=
       Query.BloodRequest_insert newId (withRequester body (User._id user)) in
     ret (json 201 "Blood request submitted successfully"
            (RequestData bloodRequest)))
    "Failed to create blood request".

Record StatusBody := mkStatusBody {
  status : option string;
  notes : option string
}.

(** [router.patch('/:id/status', authenticate, authorize('admin'), ...)] *)
Definition updateStatus (user : User.t) (id : ObjectId) (body : StatusBody)
    (now : Date) : Db -> Response * Db :=
  authorize ["admin"] user (tryCatch
    (let* found := Query.BloodRequest_findById id in
     match found with
     | None => ret (failure 404 "Request not found")
     | Some request =>
         let request := BloodRequest.set_status (status body) request in
         let request :=
           BloodRequest.set_notes
             (orString (notes body) (BloodRequest.notes request)) request in
         let request :=
           if strictEq (status body) "approved"
           then BloodRequest.set_approved (User._id user) now request
           else request in
         let* request :=
           if strictEq (status body) "fulfilled" then
             let request := BloodRequest.set_fulfilledDate now request in
             let* inventory :=
               Query.BloodInventory_findOne (BloodRequest.bloodType request) in
             match inventory with
             | Some inventory =>
                 if BloodRequest.unitsNeeded request
                    <=? BloodInventory.unitsAvailable inventory
                 then
                   let inventory :=
                     BloodInventory.set_unitsAvailable
                       (BloodInventory.unitsAvailable inventory
                        - BloodRequest.unitsNeeded request) inventory in
                   let inventory :=
                     BloodInventory.set_lastUpdated now inventory in
                   Query.BloodInventory_save inventory ;;; ret request
                 else ret request
             | None => ret request
             end
           else ret request in
         Query.BloodRequest_save id request ;;;
         ret (json 200
                ("Request " +:+ showString (status body) +:+ " successfully")
                (RequestData request))
     end)
    "Failed to update request status").

(** [router.delete('/:id', authenticate, ...)] *)
Definition deleteRequest (user : User.t) (id : ObjectId)
  : Db -> Response * Db :=
  tryCatch
    (let* found := Query.BloodRequest_findById id in
     match found with
     | None => ret (failure 404 "Request not found")
     | Some request =>
         if negb (String.eqb (User.role user) "admin")
            && negb (String.eqb (BloodRequest.requester request)
                                (User._id user))
         then ret (failure 403 "Access denied")
         else if negb (enumIncludes ["pending"; "cancelled"]
                         (BloodRequest.status request))
         then ret (failure 400 "Cannot delete request with current status")
         else
           Query.BloodRequest_findByIdAndDelete id ;;;
           ret (json 200 "Request deleted successfully" NoData)
     end)
    "Failed to delete request".

End requests.

(** ** routes/blood.js *)
Module blood.

(** [{ ...req.body, donor: req.user.id, bloodType: donor.bloodType }] *)
Definition withDonor (body : Donation.fields) (id : ObjectId)
    (bloodType : option string) : Donation.fields :=
  {| Donation.f_donor := Some id;
     Donation.f_donationDate := Donation.f_donationDate body;
     Donation.f_bloodType := bloodType;
     Donation.f_unitsCollected := Donation.f_unitsCollected body;
     Donation.f_status := Donation.f_status body;
     Donation.f_preScreening := Donation.f_preScreening body;
     Donation.f_postDonation := Donation.f_postDonation body;
     Donation.f_staffMember := Donation.f_staffMember body;
     Donation.f_notes := Donation.f_notes body |}.

Definition notEligible : string :=
  "You are not eligible to donate yet. Please wait at least 8 weeks since your last donation.".

(** [router.post('/donate', authenticate, ...)]. A missing donor makes
    [donor.checkEligibility()] a call on [null]. *)
Definition donate (user : User.t) (body : Donation.fields) (now : Date)
    (newId : ObjectId) : Db -> Response * Db :=
  tryCatch
    (let* donor := Query.User_findById (User._id user) in
     match donor with
     | None => throw TypeError
     | Some donor =>
         if negb (User.checkEligibility donor now)
         then ret (failure 400 notEligible)
         else
           let* donation :=
             Query.Donation_insert newId
               (withDonor body (User._id user) (User.bloodType donor)) in
           ret (json 201 "Donation scheduled successfully"
                  (DonationData donation))
     end)
    "Failed to schedule donation".

Record StatusBody := mkStatusBody {
  status : option string;
  preScreening : option Donation.PreScreening;
  postDonation : option Donation.PostDonation;
  notes : option string;
  unitsCollected : option Z
}.

(** The assignments to the loaded document, before any side effect. *)
Definition assign (user : User.t) (body : StatusBody) (donation : Donation.t)
  : Donation.t :=
  let donation := Donation.set_status (status body) donation in
  let donation := Donation.set_staffMember (User._id user) donation in
  let donation :=
    Donation.set_notes (orString (notes body) (Donation.notes donation))
      donation in
  let donation :=
    match preScreening body with
    | Some p => Donation.set_preScreening p donation
    | None => donation
    end in
  let donation :=
    match postDonation body with
    | Some p => Donation.set_postDonation p donation
    | None => donation
    end in
  match truthyNumber (unitsCollected body) with
  | Some u => Donation.set_unitsCollected u donation
  | None => donation
  end.

(** [router.patch('/:id/status', authenticate, authorize('admin'), ...)].
    [populated] is what [.populate('donor')] put in [donation.donor]. *)
Definition updateStatus (user : User.t) (id : ObjectId) (body : StatusBody)
    (now : Date) : Db -> Response * Db :=
  authorize ["admin"] user (tryCatch
    (let* found := Query.Donation_findById id in
     match found with
     | None => ret (failure 404 "Donation not found")
     | Some donation =>
         let* populated := Query.User_findById (Donation.donor donation) in
         let donation := assign user body donation in
         (if strictEq (status body) "completed" then
            match populated with
            | None => throw TypeError
            | Some donor =>
                let donor :=
                  User.set_lastDonation (Donation.donationDate donation)
                    donor in
                let donor :=
                  User.set_donationCount (User.donationCount donor + 1)
                    donor in
                Query.User_save now donor ;;;
                let* inventory :=
                  Query.BloodInventory_findOne (Donation.bloodType donation) in
                match inventory with
                | Some inventory =>
                    let inventory :=
                      BloodInventory.set_unitsAvailable
                        (BloodInventory.unitsAvailable inventory
                         + default 1
                             (truthyNumber
                                (Some (Donation.unitsCollected donation))))
                        inventory in
                    let inventory :=
                      BloodInventory.set_lastUpdated now inventory in
                    Query.BloodInventory_save inventory
                | None => ret tt
                end
            end
          else ret tt) ;;;
         Query.Donation_save id donation ;;;
         ret (json 200
                ("Donation " +:+ showString (status body) +:+ " successfully")
                (DonationData donation))
     end)
    "Failed to update donation status").

End blood.

(** ** routes/inventory.js *)
Module inventory.

Fixpoint insertSorted (x : BloodInventory.t) (l : list BloodInventory.t)
  : list BloodInventory.t :=
  match l with
  | [] => [x]
  | y :: l' =>
      if String.leb (BloodInventory.bloodType x) (BloodInventory.bloodType y)
      then x :: l
      else y :: insertSorted x l'
  end.

(** [BloodInventory.find().sort('bloodType')] *)
Definition findSorted : Task (list BloodInventory.t) :=
  fun db =>
    (inr (foldr insertSorted [] (map_to_list (bloodinventories db)).*2), db).

(** [BloodInventory.insertMany(docs)] into the empty collection. *)
Definition insertMany (docs : list BloodInventory.t) : Task unit :=
  fun db =>
    if forallb BloodInventory.validate docs
    then (inr tt,
          set_bloodinventories
            (foldr (fun doc m => <[BloodInventory.bloodType doc := doc]> m)
               (bloodinventories db) docs) db)
    else (inl ValidationError, db).

(** [router.get('/', authenticate, ...)] *)
Definition getAll (now : Date) : Db -> Response * Db :=
  tryCatch
    (let* inventory := findSorted in
     if (Z.of_nat (length inventory) =? 0) then
       let defaultInventory :=
         map (fun type => BloodInventory.create type now) bloodTypes in
       insertMany defaultInventory ;;;
       let* newInventory := findSorted in
       ret {| code := 200; success := true; message := None;
              data := InventoryList newInventory |}
     else
       ret {| code := 200; success := true; message := None;
              data := InventoryList inventory |})
    "Failed to get inventory".

Record UpdateBody := mkUpdateBody {
  unitsAvailable : option Z;
  minimumThreshold : option Z;
  maxCapacity : option Z
}.

(** [router.patch('/:bloodType', authenticate, authorize('admin'), ...)] *)
Definition update (user : User.t) (bloodType : string) (body : UpdateBody)
    (now : Date) : Db -> Response * Db :=
  authorize ["admin"] user (tryCatch
    (let* found := Query.BloodInventory_findOne bloodType in
     let inventory :=
       match found with
       | Some inventory => inventory
       | None => BloodInventory.create bloodType now
       end in
     let inventory :=
       match unitsAvailable body with
       | Some v => BloodInventory.set_unitsAvailable v inventory
       | None => inventory
       end in
     let inventory :=
       match minimumThreshold body with
       | Some v => BloodInventory.set_minimumThreshold v inventory
       | None => inventory
       end in
     let inventory :=
       match maxCapacity body with
       | Some v => BloodInventory.set_maxCapacity v inventory
       | None => inventory
       end in
     let inventory := BloodInventory.set_lastUpdated now inventory in
     Query.BloodInventory_save inventory ;;;
     ret (json 200 "Inventory updated successfully" (InventoryData inventory)))
    "Failed to update inventory").

(** The body of [POST /inventory/add-units]. [bloodType] and [units] are
    the operands of the operation; the handler has no branch for a body
    without them. [expiryDate] is the time the date string denotes. *)
Record AddUnitsBody := mkAddUnitsBody {
  bloodType : string;
  units : Z;
  expiryDate : option Date
}.

(** [router.post('/add-units', authenticate, authorize('admin'), ...)] *)
Definition addUnits (user : User.t) (body : AddUnitsBody) (now : Date)
  : Db -> Response * Db :=
  authorize ["admin"] user (tryCatch
    (let* found := Query.BloodInventory_findOne (bloodType body) in
     let inventory :=
       match found with
       | Some inventory => inventory
       | None => BloodInventory.create (bloodType body) now
       end in
     let inventory :=
       BloodInventory.set_unitsAvailable
         (BloodInventory.unitsAvailable inventory + units body) inventory in
     let inventory :=
       match expiryDate body with
       | Some d => BloodInventory.push_expiringUnits (d, units body) inventory
       | None => inventory
       end in
     let inventory := BloodInventory.set_lastUpdated now inventory in
     Query.BloodInventory_save inventory ;;;
     ret (json 200
            ("Added " +:+ pretty (units body) +:+ " units of "
             +:+ bloodType body +:+ " blood")
            (InventoryData inventory)))
    "Failed to add blood units").

End inventory.

(** ** The ledger as a transition system *)

(** One call of a handler that writes to the database. *)
Inductive Op :=
| CreateRequest (user : User.t) (body : BloodRequest.fields) (newId : ObjectId)
| UpdateRequestStatus (user : User.t) (id : ObjectId)
    (body : requests.StatusBody) (now : Date)
| DeleteRequest (user : User.t) (id : ObjectId)
| Donate (user : User.t) (body : Donation.fields) (now : Date)
    (newId : ObjectId)
| UpdateDonationStatus (user : User.t) (id : ObjectId)
    (body : blood.StatusBody) (now : Date)
| GetInventory (now : Date)
| UpdateInventory (user : User.t) (bloodType : string)
    (body : inventory.UpdateBody) (now : Date)
| AddUnits (user : User.t) (body : inventory.AddUnitsBody) (now : Date).

Definition handle (op : Op) : Db -> Response * Db :=
  match op with
  | CreateRequest user body newId => requests.create user body newId
  | UpdateRequestStatus user id body now =>
      requests.updateStatus user id body now
  | DeleteRequest user id => requests.deleteRequest user id
  | Donate user body now newId => blood.donate user body now newId
  | UpdateDonationStatus user id body now => blood.updateStatus user id body now
  | GetInventory now => inventory.getAll now
  | UpdateInventory user bloodType body now =>
      inventory.update user bloodType body now
  | AddUnits user body now => inventory.addUnits user body now
  end.

(** The calls are served one at a time, each on the state the previous one
    left. *)
Definition run (ops : list Op) (db : Db) : Db :=
  fold_left (fun db op => snd (handle op db)) ops db.

(** ** Invariants *)

(** Stock is never negative. *)
Definition nonNegative (db : Db) : Prop :=
  map_Forall (fun _ i => 0 <= BloodInventory.unitsAvailable i)
    (bloodinventories db).

(** What every stored document satisfies because it went through [save]:
    it passed its schema's validators, a user sits under its own [_id], and
    an inventory record under its own [bloodType]. *)
Record DbOk (db : Db) : Prop := mkDbOk {
  ok_users : map_Forall (fun k u => User._id u = k) (users db);
  ok_requests :
    map_Forall (fun _ r => BloodRequest.validate r = true) (bloodrequests db);
  ok_donations :
    map_Forall (fun _ d => Donation.validate d = true) (donations db);
  ok_inventory :
    map_Forall
      (fun k i => BloodInventory.bloodType i = k
                  /\ BloodInventory.validate i = true)
      (bloodinventories db)
}.

(** A task, or a handler, that keeps an invariant of the database, also
    when it throws. *)
Definition preserves {A} (I : Db -> Prop) (t : Task A) : Prop :=
  forall db, I db -> I (snd (t db)).

Definition preservesH (I : Db -> Prop) (h : Db -> Response * Db) : Prop :=
  forall db, I db -> I (snd (h db)).

Definition emptyDb : Db :=
  {| users := ∅; bloodrequests := ∅; donations := ∅; bloodinventories := ∅ |}.

(** ** What the handlers save

    The document [PATCH /requests/:id/status] saves for [fulfilled], and
    the inventory record it saves when the stock suffices. *)
Definition fulfilledRequest (notes : option string) (now : Date)
    (r : BloodRequest.t) : BloodRequest.t :=
  BloodRequest.set_fulfilledDate now
    (BloodRequest.set_notes (orString notes (BloodRequest.notes r))
       (BloodRequest.set_status (Some "fulfilled") (BloodRequest.hydrate r))).

Definition debited (n : Z) (now : Date) (stock : BloodInventory.t)
  : BloodInventory.t :=
  BloodInventory.set_lastUpdated now
    (BloodInventory.set_unitsAvailable
       (BloodInventory.unitsAvailable stock - n) stock).

(** The record [PATCH /inventory/:bloodType] saves when none was stored,
    and the one [POST /inventory/add-units] saves then. *)
Definition freshRecord (bt : string) (body : inventory.UpdateBody)
    (now : Date) : BloodInventory.t :=
  {| BloodInventory.bloodType := bt;
     BloodInventory.unitsAvailable := default 0 (inventory.unitsAvailable body);
     BloodInventory.lastUpdated := now;
     BloodInventory.minimumThreshold :=
       default 10 (inventory.minimumThreshold body);
     BloodInventory.maxCapacity := default 100 (inventory.maxCapacity body);
     BloodInventory.expiringUnits := [];
     BloodInventory.reservedUnits := 0 |}.

Definition freshStock (bt : string) (units : Z) (expiryDate : option Date)
    (now : Date) : BloodInventory.t :=
  {| BloodInventory.bloodType := bt;
     BloodInventory.unitsAvailable := 0 + units;
     BloodInventory.lastUpdated := now;
     BloodInventory.minimumThreshold := 10;
     BloodInventory.maxCapacity := 100;
     BloodInventory.expiringUnits :=
       match expiryDate with
       | Some d => [(d, units)]
       | None => []
       end;
     BloodInventory.reservedUnits := 0 |}.

(** The inventory record and the donor that [PATCH /blood/:id/status]
    saves for [completed]. *)
Definition credited (u : Z) (now : Date) (stock : BloodInventory.t)
  : BloodInventory.t :=
  BloodInventory.set_lastUpdated now
    (BloodInventory.set_unitsAvailable
       (BloodInventory.unitsAvailable stock + u) stock).

Definition donated (date now : Date) (donor : User.t) : User.t :=
  User.set_updatedAt now
    (User.set_donationCount (User.donationCount donor + 1)
       (User.set_lastDonation date donor)).

(** ** Sample data *)

Definition donorAt (lastDonation : option Date) : User.t :=
  {| User._id := "u1"; User.name := Some "Dana";
     User.email := Some "dana@example.org";
     User.password := Some "$2a$12$hashOfDana";
     User.role := "donor"; User.phone := Some "555-0101";
     User.bloodType := Some "O+"; User.dateOfBirth := Some 631152000000;
     User.gender := Some "female";
     User.lastDonation := lastDonation; User.isEligible := true;
     User.donationCount := 1; User.isActive := true;
     User.updatedAt := 0 |}.

(** An admin needs no phone, blood type, date of birth or gender. *)
Definition admin : User.t :=
  {| User._id := "a1"; User.name := Some "Ada";
     User.email := Some "ada@example.org";
     User.password := Some "$2a$12$hashOfAda";
     User.role := "admin"; User.phone := None;
     User.bloodType := None; User.dateOfBirth := None;
     User.gender := None;
     User.lastDonation := None; User.isEligible := true;
     User.donationCount := 0; User.isActive := true;
     User.updatedAt := 0 |}.

Definition recipient : User.t :=
  {| User._id := "r1"; User.name := Some "Rui";
     User.email := Some "rui@example.org";
     User.password := Some "$2a$12$hashOfRui";
     User.role := "recipient"; User.phone := Some "555-0102";
     User.bloodType := Some "A+"; User.dateOfBirth := Some 662688000000;
     User.gender := Some "male";
     User.lastDonation := None; User.isEligible := true;
     User.donationCount := 0; User.isActive := true;
     User.updatedAt := 0 |}.

(** The donor [u1] as a stored document that lacks its [bloodType]: the
    schema requires the path of a donor, so no [save] of it passes. *)
Definition incompleteDonor : User.t :=
  {| User._id := "u1"; User.name := Some "Dana";
     User.email := Some "dana@example.org";
     User.password := Some "$2a$12$hashOfDana";
     User.role := "donor"; User.phone := Some "555-0101";
     User.bloodType := None; User.dateOfBirth := Some 631152000000;
     User.gender := Some "female";
     User.lastDonation := None; User.isEligible := true;
     User.donationCount := 1; User.isActive := true;
     User.updatedAt := 0 |}.

Definition t0 : Date := 1700000000000.

Definition stockOPlus : BloodInventory.t :=
  {| BloodInventory.bloodType := "O+"; BloodInventory.unitsAvailable := 5;
     BloodInventory.lastUpdated := 0; BloodInventory.minimumThreshold := 10;
     BloodInventory.maxCapacity := 100; BloodInventory.expiringUnits := [];
     BloodInventory.reservedUnits := 0 |}.

(** A request of [recipient]'s for [n] units of O+ in the given status. *)
Definition requestFor (n : Z) (status : string) : BloodRequest.t :=
  {| BloodRequest.requester := "r1"; BloodRequest.patientName := "P";
     BloodRequest.bloodType := "O+"; BloodRequest.unitsNeeded := n;
     BloodRequest.urgency := "high"; BloodRequest.hospitalName := "H";
     BloodRequest.medicalReason := "surgery";
     BloodRequest.requiredDate := t0;
     BloodRequest.status := Some status; BloodRequest.approvedBy := None;
     BloodRequest.approvedDate := None; BloodRequest.fulfilledDate := None;
     BloodRequest.notes := "" |}.

(** A donation of the donor [u1] in the given status. *)
Definition donationIn (status : string) : Donation.t :=
  {| Donation.donor := "u1"; Donation.donationDate := t0 - 1000;
     Donation.bloodType := "O+"; Donation.unitsCollected := 1;
     Donation.status := Some status; Donation.preScreening := None;
     Donation.postDonation := None; Donation.staffMember := None;
     Donation.notes := "" |}.

(** Five units of O+ in stock and no record of another blood type;
    approved requests for eight and for three units and a pending one for
    two; a scheduled and a completed donation. *)
Definition sampleDb : Db :=
  {| users := <["a1" := admin]> (<["u1" := donorAt None]>
                (<["r1" := recipient]> ∅));
     bloodrequests := <["req8" := requestFor 8 "approved"]>
                        (<["req3" := requestFor 3 "approved"]>
                           (<["req2" := requestFor 2 "pending"]> ∅));
     donations := <["don1" := donationIn "scheduled"]>
                    (<["don2" := donationIn "completed"]> ∅);
     bloodinventories := <["O+" := stockOPlus]> ∅ |}.

(** A body of [POST /requests] with every required path, for four units
    of AB-, and the given [status]. *)
Definition requestBody (status : option string) : BloodRequest.fields :=
  {| BloodRequest.f_requester := None;
     BloodRequest.f_patientName := Some "P";
     BloodRequest.f_bloodType := Some "AB-";
     BloodRequest.f_unitsNeeded := Some 4;
     BloodRequest.f_urgency := None;
     BloodRequest.f_hospitalName := Some "H";
     BloodRequest.f_medicalReason := Some "surgery";
     BloodRequest.f_requiredDate := Some (t0 + 86400000);
     BloodRequest.f_status := status;
     BloodRequest.f_approvedBy := None;
     BloodRequest.f_approvedDate := None;
     BloodRequest.f_fulfilledDate := None;
     BloodRequest.f_notes := None |}.

(** The document [POST /requests] stores for [requestBody (Some status)]
    sent by [recipient]. *)
Definition createdWith (status : string) : BloodRequest.t :=
  {| BloodRequest.requester := "r1"; BloodRequest.patientName := "P";
     BloodRequest.bloodType := "AB-"; BloodRequest.unitsNeeded := 4;
     BloodRequest.urgency := "medium"; BloodRequest.hospitalName := "H";
     BloodRequest.medicalReason := "surgery";
     BloodRequest.requiredDate := t0 + 86400000;
     BloodRequest.status := Some status; BloodRequest.approvedBy := None;
     BloodRequest.approvedDate := None; BloodRequest.fulfilledDate := None;
     BloodRequest.notes := "" |}.

(** A body of [POST /blood/donate] that names a blood type of its own. *)
Definition donateBody (bloodType : option string) : Donation.fields :=
  {| Donation.f_donor := None; Donation.f_donationDate := Some (t0 + 3600000);
     Donation.f_bloodType := bloodType; Donation.f_unitsCollected := None;
     Donation.f_status := None; Donation.f_preScreening := None;
     Donation.f_postDonation := None; Donation.f_staffMember := None;
     Donation.f_notes := None |}.

Definition fulfilled : requests.StatusBody :=
  {| requests.status := Some "fulfilled"; requests.notes := None |}.

Definition donationStatus (status : string) (units : option Z)
  : blood.StatusBody :=
  {| blood.status := Some status; blood.preScreening := None;
     blood.postDonation := None; blood.notes := None;
     blood.unitsCollected := units |}.

(** Calls that try to push the stock of O+ below zero, among others. *)
Definition sampleOps : list Op :=
  [ AddUnits admin
      {| inventory.bloodType := "O+"; inventory.units := -20;
         inventory.expiryDate := None |} t0;
    UpdateInventory admin "O+"
      {| inventory.unitsAvailable := Some (-1);
         inventory.minimumThreshold := None;
         inventory.maxCapacity := None |} t0;
    UpdateRequestStatus admin "req8" fulfilled t0;
    UpdateRequestStatus admin "req3" fulfilled t0;
    UpdateDonationStatus admin "don1" (donationStatus "completed" (Some (-7)))
      t0;
    UpdateRequestStatus admin "req3" fulfilled t0 ].

Definition stockAfterSampleOps : BloodInventory.t :=
  BloodInventory.set_lastUpdated t0
    (BloodInventory.set_unitsAvailable 2 stockOPlus).

(** The donation [POST /blood/donate] stores for [donateBody] sent by the
    donor [u1]. *)
Definition scheduledSample : Donation.t :=
  {| Donation.donor := "u1"; Donation.donationDate := t0 + 3600000;
     Donation.bloodType := "O+"; Donation.unitsCollected := 1;
     Donation.status := Some "scheduled"; Donation.preScreening := None;
     Donation.postDonation := None; Donation.staffMember := None;
     Donation.notes := "" |}.

(** [sampleDb] when the donor [u1] last gave blood ten days before [t0]. *)
Definition recentDonorDb : Db :=
  set_users (<["u1" := donorAt (Some (t0 - 10 * 86400000))]> (users sampleDb))
    sampleDb.

(** [sampleDb] before any inventory record was created. *)
Definition noStockDb : Db := set_bloodinventories ∅ sampleDb.

(** [sampleDb] with the incomplete document stored for the donor [u1]. *)
Definition incompleteDonorDb : Db :=
  set_users (<["u1" := incompleteDonor]> (users sampleDb)) sampleDb.

(** O+ at five units with a threshold of ten, twenty units added. *)
Definition addTwenty : inventory.AddUnitsBody :=
  {| inventory.bloodType := "O+"; inventory.units := 20;
     inventory.expiryDate := None |}.

(** ** Handlers that answer with a body of their own

    The handlers below send a JSON body that is neither a request, a
    donation nor an inventory record. [Sent body] is
    [res.json({ success: true, ...body })], with status 200. *)
Inductive Reply (A : Type) : Type :=
| Sent (body : A)
| Refused (response : Response).

Arguments Sent {A} body.
Arguments Refused {A} response.

Definition tryCatchR {A} (body : Task (Reply A)) (msg : string)
  : Db -> Reply A * Db :=
  fun db =>
    match body db with
    | (inr r, db') => (r, db')
    | (inl e, db') => (Refused (serverError msg e), db')
    end.

Definition authorizeR {A} (roles : list string) (user : User.t)
    (next : Db -> Reply A * Db) : Db -> Reply A * Db :=
  fun db =>
    if includes roles (User.role user) then next db
    else (Refused (failure 403 "Access denied. Insufficient permissions."),
          db).

(** [res.json({ success: true, ... })] around one of the documents of
    [Payload], with no message. *)
Definition jsonData (d : Payload) : Response :=
  {| code := 200; success := true; message := None; data := d |}.

(** ** middleware/auth.js, [authenticate]

    [jwt.verify] belongs to the jsonwebtoken library: [verify token] is the
    [id] claim of a token that verifies under the server's secret, and
    [None] when [jwt.verify] throws. *)
Module authMiddleware.

(** [String.prototype.startsWith]. *)
Fixpoint startsWith (pattern s : string) : bool :=
  match pattern, s with
  | EmptyString, _ => true
  | String c pattern', String c' s' =>
      Ascii.eqb c c' && startsWith pattern' s'
  | String _ _, EmptyString => false
  end.

Fixpoint drop (n : nat) (s : string) : string :=
  match n, s with
  | O, _ => s
  | S n', String _ s' => drop n' s'
  | S _, EmptyString => EmptyString
  end.

(** [s.replace(pattern, '')] for a string [pattern]: the first occurrence
    is removed. *)
Fixpoint removeFirst (pattern s : string) : string :=
  if startsWith pattern s then drop (String.length pattern) s
  else match s with
       | EmptyString => EmptyString
       | String c s' => String c (removeFirst pattern s')
       end.

(** [req.header('Authorization')?.replace('Bearer ', '')] *)
Definition tokenOf (authorization : option string) : option string :=
  removeFirst "Bearer " <$> authorization.

Definition authenticate (verify : string -> option ObjectId)
    (authorization : option string) (db : Db) : Response + User.t :=
  match tokenOf authorization with
  | None => inl (failure 401 "Access denied. No token provided.")
  | Some token =>
      if String.eqb token "" then
        inl (failure 401 "Access denied. No token provided.")
      else
        match verify token with
        | None => inl (failure 401 "Invalid token.")
        | Some id =>
            match User.withoutPassword <$> users db !! id with
            | None => inl (failure 401 "Invalid token. User not found.")
            | Some user =>
                if negb (User.isActive user)
                then inl (failure 401 "Account has been deactivated.")
                else inr user
            end
        end
  end.

End authMiddleware.

(** ** routes/requests.js, [GET /:id] *)
Module requestsRead.

(** [router.get('/:id', authenticate, ...)]. [requester] is what
    [.populate('requester', ...)] put in [request.requester]; it is read
    only when the caller is not an admin. *)
Definition getById (user : User.t) (id : ObjectId) : Db -> Response * Db :=
  tryCatch
    (let* found := Query.BloodRequest_findById id in
     match found with
     | None => ret (failure 404 "Request not found")
     | Some request =>
         let* requester :=
           Query.User_findById (BloodRequest.requester request) in
         if negb (String.eqb (User.role user) "admin") then
           match requester with
           | None => throw TypeError
           | Some requester =>
               if negb (String.eqb (User._id requester) (User._id user))
               then ret (failure 403 "Access denied")
               else ret (jsonData (RequestData request))
           end
         else ret (jsonData (RequestData request))
     end)
    "Failed to get request".

End requestsRead.

(** ** routes/blood.js, [GET /my-donations] *)
Module bloodRead.

(** [.sort('-donationDate')]: latest first. *)
Fixpoint insertByDate (x : Donation.t) (l : list Donation.t)
  : list Donation.t :=
  match l with
  | [] => [x]
  | y :: l' =>
      if Donation.donationDate y <=? Donation.donationDate x
      then x :: l
      else y :: insertByDate x l'
  end.

(** [Donation.find({ donor })], read as stored documents are. *)
Definition findByDonor (donor : ObjectId) : Task (list Donation.t) :=
  fun db =>
    (inr (filter (fun d => Donation.donor d = donor)
            (Donation.hydrate <$> (map_to_list (donations db)).*2)),
     db).

(** [router.get('/my-donations', authenticate, ...)] *)
Definition myDonations (user : User.t) : Db -> Reply (list Donation.t) * Db :=
  tryCatchR
    (let* donations := findByDonor (User._id user) in
     ret (Sent (foldr insertByDate [] donations)))
    "Failed to get donations".

End bloodRead.

(** ** routes/inventory.js, [GET /alerts] and [GET /stats] *)
Module inventoryReports.

(** [BloodInventory.find()]: every record, in the order of the store. *)
Definition find : Task (list BloodInventory.t) :=
  fun db => (inr (map_to_list (bloodinventories db)).*2, db).

(** [Math.ceil(ms / (1000 * 60 * 60 * 24))] *)
Definition ceilDays (ms : Z) : Z := - ((- ms) / User.msPerDay).

Definition expiresSoon (now : Date) (unit : Date * Z) : bool :=
  let daysUntilExpiry := ceilDays (fst unit - now) in
  (daysUntilExpiry <=? 7) && (0 <? daysUntilExpiry).

Record Alerts := mkAlerts {
  lowStock : list BloodInventory.t;
  expiring : list BloodInventory.t
}.

(** [router.get('/alerts', authenticate, authorize('admin'), ...)] *)
Definition alerts (user : User.t) (now : Date) : Db -> Reply Alerts * Db :=
  authorizeR ["admin"] user (tryCatchR
    (let* inventory := find in
     let lowStockItems :=
       List.filter BloodInventory.isLowStock inventory in
     let expiringItems :=
       List.filter
         (fun item => existsb (expiresSoon now)
                        (BloodInventory.expiringUnits item))
         inventory in
     ret (Sent {| lowStock := lowStockItems; expiring := expiringItems |}))
    "Failed to get alerts").

Record Distribution := mkDistribution {
  d_bloodType : string;
  d_units : Z;
  d_isLowStock : bool
}.

Record Stats := mkStats {
  totalUnits : Z;
  lowStockCount : Z;
  bloodTypeDistribution : list Distribution
}.

(** [inventory.reduce((sum, item) => sum + item.unitsAvailable, 0)] *)
Definition sumUnits (inventory : list BloodInventory.t) : Z :=
  fold_left (fun sum item => sum + BloodInventory.unitsAvailable item)
    inventory 0.

Definition countLowStock (inventory : list BloodInventory.t) : Z :=
  Z.of_nat (length (List.filter BloodInventory.isLowStock inventory)).

(** [router.get('/stats', authenticate, authorize('admin'), ...)] *)
Definition stats (user : User.t) : Db -> Reply Stats * Db :=
  authorizeR ["admin"] user (tryCatchR
    (let* inventory := find in
     ret (Sent
            {| totalUnits := sumUnits inventory;
               lowStockCount := countLowStock inventory;
               bloodTypeDistribution :=
                 map (fun item =>
                        {| d_bloodType := BloodInventory.bloodType item;
                           d_units := BloodInventory.unitsAvailable item;
                           d_isLowStock := BloodInventory.isLowStock item |})
                   inventory |}))
    "Failed to get statistics").

End inventoryReports.

(** ** routes/users.js *)
Module usersRoutes.

Definition allowedUpdates : list string :=
  ["name"; "phone"; "address"; "medicalHistory"; "profilePicture"].

(** [Object.keys(req.body).reduce(...)] of [PATCH /profile]: the body as
    its keys and values, in the order of the keys. *)
Definition pickUpdates {V : Type} (body : list (string * V))
  : list (string * V) :=
  fold_left
    (fun acc kv => if includes allowedUpdates (fst kv) then acc ++ [kv]
                   else acc)
    body [].

(** The message and the [user] object of the response. *)
Record Toggled := mkToggled {
  t_message : string;
  t_id : ObjectId;
  t_name : option string;
  t_email : option string;
  t_isActive : bool
}.

(** [router.patch('/:id/toggle-status', authenticate, authorize('admin'),
    ...)], at the time [now]. *)
Definition toggleStatus (caller : User.t) (id : ObjectId) (now : Date)
  : Db -> Reply Toggled * Db :=
  authorizeR ["admin"] caller (tryCatchR
    (let* found := Query.User_findById id in
     match found with
     | None => ret (Refused (failure 404 "User not found"))
     | Some user =>
         let user := User.set_isActive (negb (User.isActive user)) user in
         Query.User_save now user ;;;
         ret (Sent
                {| t_message :=
                     "User "
                     +:+ (if User.isActive user then "activated"
                          else "deactivated")
                     +:+ " successfully";
                   t_id := User._id user;
                   t_name := User.name user;
                   t_email := User.email user;
                   t_isActive := User.isActive user |})
     end)
    "Failed to toggle user status").

End usersRoutes.

(** ** routes/admin.js, [GET /dashboard] *)
Module adminRoutes.

Record Dashboard := mkDashboard {
  users_total : Z;
  users_donors : Z;
  users_recipients : Z;
  requests_pending : Z;
  donations_completed : Z;
  donations_scheduled : Z;
  inventory_totalUnits : Z;
  inventory_lowStockCount : Z;
  inventory_bloodTypes : Z
}.

(** [Model.countDocuments(filter)] on a collection. *)
Definition countDocuments {K A} `{Countable K} (matches : A -> bool)
    (collection : gmap K A) : Z :=
  Z.of_nat (length (List.filter matches (map_to_list collection).*2)).

(** [router.get('/dashboard', authenticate, authorize('admin'), ...)] *)
Definition dashboard (user : User.t) : Db -> Reply Dashboard * Db :=
  authorizeR ["admin"] user (tryCatchR
    (let* inventory := inventoryReports.find in
     fun db =>
       (inr (Sent
               {| users_total := countDocuments User.isActive (users db);
                  users_donors :=
                    countDocuments
                      (fun u => String.eqb (User.role u) "donor"
                                && User.isActive u) (users db);
                  users_recipients :=
                    countDocuments
                      (fun u => String.eqb (User.role u) "recipient"
                                && User.isActive u) (users db);
                  requests_pending :=
                    countDocuments
                      (fun r => strictEq (BloodRequest.status r) "pending")
                      (bloodrequests db);
                  donations_completed :=
                    countDocuments
                      (fun d => strictEq (Donation.status d) "completed")
                      (donations db);
                  donations_scheduled :=
                    countDocuments
                      (fun d => strictEq (Donation.status d) "scheduled")
                      (donations db);
                  inventory_totalUnits := inventoryReports.sumUnits inventory;
                  inventory_lowStockCount :=
                    inventoryReports.countLowStock inventory;
                  inventory_bloodTypes := Z.of_nat (length inventory) |}),
        db))
    "Failed to get dashboard statistics").

End adminRoutes.

(** ** Further definitions used by the properties below *)

(** The calls with at most one write, made by the last step that can
    fail: all but a request's status update to [fulfilled], which saves
    the inventory record before the request, and a donation's status
    update to [completed], which saves the donor and the inventory record
    before the donation. *)
Definition writesOnce (op : Op) : bool :=
  match op with
  | UpdateRequestStatus _ _ body _ =>
      negb (strictEq (requests.status body) "fulfilled")
  | UpdateDonationStatus _ _ body _ =>
      negb (strictEq (blood.status body) "completed")
  | _ => true
  end.

Definition forbidden : Response :=
  failure 403 "Access denied. Insufficient permissions.".

Definition byBloodType (a b : BloodInventory.t) : Prop :=
  String.leb (BloodInventory.bloodType a) (BloodInventory.bloodType b) = true.

Definition seeded (now : Date) : gmap string BloodInventory.t :=
  foldr (fun doc m => <[BloodInventory.bloodType doc := doc]> m) ∅
    (map (fun type => BloodInventory.create type now) bloodTypes).

Definition listing (records : list BloodInventory.t) : Response :=
  {| code := 200; success := true; message := None;
     data := InventoryList records |}.

Definition totalStock (m : gmap string BloodInventory.t) : Z :=
  inventoryReports.sumUnits (map_to_list m).*2.

Definition reportedTotal (user : User.t) (db : Db) : option Z :=
  match fst (inventoryReports.stats user db) with
  | Sent s => Some (inventoryReports.totalUnits s)
  | Refused _ => None
  end.

Definition latestFirst (a b : Donation.t) : Prop :=
  Donation.donationDate b <= Donation.donationDate a.

(** The record [POST /inventory/add-units] saves over a stored one. *)
Definition restocked (body : inventory.AddUnitsBody) (now : Date)
    (record : BloodInventory.t) : BloodInventory.t :=
  {| BloodInventory.bloodType := BloodInventory.bloodType record;
     BloodInventory.unitsAvailable :=
       BloodInventory.unitsAvailable record + inventory.units body;
     BloodInventory.lastUpdated := now;
     BloodInventory.minimumThreshold := BloodInventory.minimumThreshold record;
     BloodInventory.maxCapacity := BloodInventory.maxCapacity record;
     BloodInventory.expiringUnits :=
       match inventory.expiryDate body with
       | Some d =>
           BloodInventory.expiringUnits record ++ [(d, inventory.units body)]
       | None => BloodInventory.expiringUnits record
       end;
     BloodInventory.reservedUnits := BloodInventory.reservedUnits record |}.

(** The record [PATCH /inventory/:bloodType] saves over a stored one. *)
Definition revised (body : inventory.UpdateBody) (now : Date)
    (record : BloodInventory.t) : BloodInventory.t :=
  {| BloodInventory.bloodType := BloodInventory.bloodType record;
     BloodInventory.unitsAvailable :=
       default (BloodInventory.unitsAvailable record)
         (inventory.unitsAvailable body);
     BloodInventory.lastUpdated := now;
     BloodInventory.minimumThreshold :=
       default (BloodInventory.minimumThreshold record)
         (inventory.minimumThreshold body);
     BloodInventory.maxCapacity :=
       default (BloodInventory.maxCapacity record)
         (inventory.maxCapacity body);
     BloodInventory.expiringUnits := BloodInventory.expiringUnits record;
     BloodInventory.reservedUnits := BloodInventory.reservedUnits record |}.

(** ** More sample data *)

(** Twenty units of O+ taken out through [POST /inventory/add-units]. *)
Definition takeTwenty : inventory.AddUnitsBody :=
  {| inventory.bloodType := "O+"; inventory.units := -20;
     inventory.expiryDate := None |}.

(** Four units of O+ that expire three days after [t0]. *)
Definition expiringBatch : inventory.AddUnitsBody :=
  {| inventory.bloodType := "O+"; inventory.units := 4;
     inventory.expiryDate := Some (t0 + 3 * 86400000) |}.

Definition approve : requests.StatusBody :=
  {| requests.status := Some "approved"; requests.notes := None |}.

(** A body of [PATCH /inventory/:bloodType] that sets the units only. *)
Definition setUnits (n : Z) : inventory.UpdateBody :=
  {| inventory.unitsAvailable := Some n;
     inventory.minimumThreshold := None; inventory.maxCapacity := None |}.

(** A verifier that knows one token, the admin's. *)
Definition sampleVerify (token : string) : option ObjectId :=
  if String.eqb token "tok-a1" then Some "a1" else None.

(** * Properties *)

(** ** Eligibility rule *)
Section Eligibility.

Lemma checkEligibility_days (u : User.t) (last now : Date) :
  User.lastDonation u = Some last ->
  User.checkEligibility u now = (56 <=? (now - last) / 86400000).
Proof. intros H. unfold User.checkEligibility. rewrite H. reflexivity. Qed.

(** C3. A user who never donated is eligible; otherwise the user is
    eligible exactly when the whole number of days between the last
    donation and now, [floor ((now - lastDonation) / 1 day)], is at least
    56. A gap of exactly 56 days is eligible and a gap of 55 days (up to
    the last millisecond before the 56th day is complete) is not. *)
Theorem checkEligibility_spec (u : User.t) (now : Date) :
  (User.lastDonation u = None -> User.checkEligibility u now = true)
  /\ (forall last, User.lastDonation u = Some last ->
        (User.checkEligibility u now = true
         <-> 56 <= (now - last) / 86400000))
  /\ (forall last, User.lastDonation u = Some last ->
        now - last = 56 * 86400000 -> User.checkEligibility u now = true)
  /\ (forall last, User.lastDonation u = Some last ->
        55 * 86400000 <= now - last < 56 * 86400000 ->
        User.checkEligibility u now = false).
Proof.
  split; [| split; [| split]].
  - intros H. unfold User.checkEligibility. now rewrite H.
  - intros l H. rewrite (checkEligibility_days u l now H). apply Z.leb_le.
  - intros l H Hgap. rewrite (checkEligibility_days u l now H), Hgap.
    reflexivity.
  - intros l H Hgap. rewrite (checkEligibility_days u l now H).
    apply Z.leb_gt. apply Z.div_lt_upper_bound; lia.
Qed.

Lemma checkEligibility_spec_witness :
  User.checkEligibility (donorAt None) 1700000000000 = true
  /\ User.checkEligibility (donorAt (Some (1700000000000 - 56 * 86400000)))
       1700000000000 = true
  /\ User.checkEligibility (donorAt (Some (1700000000000 - 55 * 86400000)))
       1700000000000 = false.
Proof.
  split; [| split].
  - apply (proj1 (checkEligibility_spec (donorAt None) 1700000000000)).
    reflexivity.
  - apply (proj1 (proj2 (proj2 (checkEligibility_spec
             (donorAt (Some (1700000000000 - 56 * 86400000)))
             1700000000000)))
           (1700000000000 - 56 * 86400000)); [reflexivity | lia].
  - apply (proj2 (proj2 (proj2 (checkEligibility_spec
             (donorAt (Some (1700000000000 - 55 * 86400000)))
             1700000000000)))
           (1700000000000 - 55 * 86400000)); [reflexivity | lia].
Defined.

End Eligibility.

(** ** Invariants of the handler monad *)
Section Preservation.

Variable I : Db -> Prop.

Lemma preserves_ret {A} (a : A) : preserves I (ret a).
Proof. intros db H. exact H. Qed.

Lemma preserves_throw {A} (e : Exn) : preserves I (@throw A e).
Proof. intros db H. exact H. Qed.

Lemma preserves_bind {A B} (m : Task A) (k : A -> Task B) :
  preserves I m -> (forall a, preserves I (k a)) -> preserves I (bind m k).
Proof.
  intros Hm Hk db H. unfold bind.
  specialize (Hm db H). destruct (m db) as [[e | a] db']; simpl in *.
  - exact Hm.
  - apply Hk, Hm.
Qed.

Lemma preserves_tryCatch (body : Task Response) (msg : string) :
  preserves I body -> preservesH I (tryCatch body msg).
Proof.
  intros Hb db H. unfold tryCatch.
  specialize (Hb db H). destruct (body db) as [[e | r] db']; exact Hb.
Qed.

Lemma preserves_authorize roles user next :
  preservesH I next -> preservesH I (authorize roles user next).
Proof.
  intros Hn db H. unfold authorize.
  destruct (includes roles (User.role user)); [apply Hn, H | exact H].
Qed.

(** A query that only reads. *)
Lemma preserves_read {A} (t : Task A) :
  (forall db, snd (t db) = db) -> preserves I t.
Proof. intros Hsame db H. rewrite Hsame. exact H. Qed.

Lemma preserves_User_findById id : preserves I (Query.User_findById id).
Proof. now apply preserves_read. Qed.

Lemma preserves_BloodRequest_findById id :
  preserves I (Query.BloodRequest_findById id).
Proof. now apply preserves_read. Qed.

Lemma preserves_Donation_findById id :
  preserves I (Query.Donation_findById id).
Proof. now apply preserves_read. Qed.

Lemma preserves_BloodInventory_findOne bt :
  preserves I (Query.BloodInventory_findOne bt).
Proof. now apply preserves_read. Qed.

Lemma preserves_findSorted : preserves I inventory.findSorted.
Proof. now apply preserves_read. Qed.

(** A handler keeps what each of its writes keeps. *)
Hypothesis User_save_ok :
  forall now u, preserves I (Query.User_save now u).
Hypothesis BloodRequest_insert_ok :
  forall id input, preserves I (Query.BloodRequest_insert id input).
Hypothesis BloodRequest_save_ok :
  forall id doc, preserves I (Query.BloodRequest_save id doc).
Hypothesis BloodRequest_delete_ok :
  forall id, preserves I (Query.BloodRequest_findByIdAndDelete id).
Hypothesis Donation_insert_ok :
  forall id input, preserves I (Query.Donation_insert id input).
Hypothesis Donation_save_ok :
  forall id doc, preserves I (Query.Donation_save id doc).
Hypothesis BloodInventory_save_ok :
  forall doc, preserves I (Query.BloodInventory_save doc).
Hypothesis insertMany_ok :
  forall docs, preserves I (inventory.insertMany docs).

(** Walks down a handler body: one lemma per construct of the monad, a case
    split per branch of the source. *)
Ltac preserve :=
  repeat first
    [ apply preserves_authorize
    | apply preserves_tryCatch
    | apply preserves_bind; [| intros ?]
    | apply preserves_ret
    | apply preserves_throw
    | apply preserves_User_findById
    | apply preserves_BloodRequest_findById
    | apply preserves_Donation_findById
    | apply preserves_BloodInventory_findOne
    | apply preserves_findSorted
    | apply User_save_ok
    | apply BloodRequest_insert_ok
    | apply BloodRequest_save_ok
    | apply BloodRequest_delete_ok
    | apply Donation_insert_ok
    | apply Donation_save_ok
    | apply BloodInventory_save_ok
    | apply insertMany_ok
    | progress cbv zeta
    | match goal with
      | |- preserves _ (match ?x with _ => _ end) => destruct x
      end ].

Lemma handle_preserves (op : Op) : preservesH I (handle op).
Proof.
  destruct op; simpl;
    [ unfold requests.create | unfold requests.updateStatus
    | unfold requests.deleteRequest | unfold blood.donate
    | unfold blood.updateStatus | unfold inventory.getAll
    | unfold inventory.update | unfold inventory.addUnits ];
    preserve.
Qed.

Lemma run_preserves (ops : list Op) (db : Db) : I db -> I (run ops db).
Proof.
  revert db. induction ops as [| op ops IH]; intros db H; simpl.
  - exact H.
  - apply IH. now apply handle_preserves.
Qed.

End Preservation.

(** ** Stock never goes negative *)
Section NonNegative.

(** A write that leaves the inventory collection as it is. *)
Lemma nonNegative_same_inventory {A} (t : Task A) :
  (forall db, bloodinventories (snd (t db)) = bloodinventories db) ->
  preserves nonNegative t.
Proof. intros Hsame db H. unfold nonNegative. rewrite Hsame. exact H. Qed.

Lemma validate_nonneg (doc : BloodInventory.t) :
  BloodInventory.validate doc = true ->
  0 <= BloodInventory.unitsAvailable doc.
Proof.
  unfold BloodInventory.validate. intros H.
  apply andb_prop in H as [_ H]. now apply Z.leb_le.
Qed.

(** The one write to a stored record goes through the [min: 0] validator. *)
Lemma nonNegative_BloodInventory_save doc :
  preserves nonNegative (Query.BloodInventory_save doc).
Proof.
  intros db H. unfold Query.BloodInventory_save.
  destruct (BloodInventory.validate doc) eqn:Hv; simpl; [| exact H].
  apply map_Forall_insert_2; [now apply validate_nonneg | exact H].
Qed.

Lemma nonNegative_insertMany docs :
  preserves nonNegative (inventory.insertMany docs).
Proof.
  intros db H. unfold inventory.insertMany.
  destruct (forallb BloodInventory.validate docs) eqn:Hv; simpl; [| exact H].
  unfold nonNegative; simpl.
  induction docs as [| doc docs IH]; simpl in *; [exact H |].
  apply andb_prop in Hv as [Hdoc Hdocs].
  apply map_Forall_insert_2; [now apply validate_nonneg | now apply IH].
Qed.

Lemma nonNegative_run (ops : list Op) (db : Db) :
  nonNegative db -> nonNegative (run ops db).
Proof.
  apply run_preserves.
  - intros now u. apply nonNegative_same_inventory. intros db'.
    unfold Query.User_save. now case_match.
  - intros id input. apply nonNegative_same_inventory. intros db'.
    unfold Query.BloodRequest_insert. now repeat case_match.
  - intros id doc. apply nonNegative_same_inventory. intros db'.
    unfold Query.BloodRequest_save. now case_match.
  - intros id. now apply nonNegative_same_inventory.
  - intros id input. apply nonNegative_same_inventory. intros db'.
    unfold Query.Donation_insert. now repeat case_match.
  - intros id doc. apply nonNegative_same_inventory. intros db'.
    unfold Query.Donation_save. now case_match.
  - apply nonNegative_BloodInventory_save.
  - apply nonNegative_insertMany.
Qed.

(** C5. Whatever sequence of handler calls is served one at a time
    (adding units, the admin's overwrite of the fields, a request's status
    update with its fulfilment, a donation's status update with its
    completion, and the other writing handlers), after each of them every
    inventory record has [unitsAvailable >= 0], provided the records
    started so. *)
Theorem unitsAvailable_never_negative (db : Db) (ops : list Op) :
  nonNegative db ->
  forall (n : nat) (bloodType : string) (record : BloodInventory.t),
    bloodinventories (run (take n ops) db) !! bloodType = Some record ->
    0 <= BloodInventory.unitsAvailable record.
Proof.
  intros H n bt record Hlookup.
  exact (nonNegative_run (take n ops) db H bt record Hlookup).
Qed.

End NonNegative.

Lemma nonNegative_sampleDb : nonNegative sampleDb.
Proof.
  unfold nonNegative, sampleDb; simpl.
  apply map_Forall_insert_2; [simpl; lia | apply map_Forall_empty].
Qed.

Lemma unitsAvailable_never_negative_witness :
  nonNegative sampleDb
  /\ bloodinventories (run (take 6 sampleOps) sampleDb) !! "O+"
     = Some stockAfterSampleOps
  /\ 0 <= BloodInventory.unitsAvailable stockAfterSampleOps.
Proof.
  split; [exact nonNegative_sampleDb |].
  split; [vm_compute; reflexivity |].
  apply (unitsAvailable_never_negative sampleDb sampleOps
           nonNegative_sampleDb 6 "O+" stockAfterSampleOps).
  vm_compute; reflexivity.
Defined.

(** ** Stored documents stay valid *)
Section Validity.

Lemma BloodRequest_create_validate input doc :
  BloodRequest.create input = Some doc -> BloodRequest.validate doc = true.
Proof.
  unfold BloodRequest.create. intros H.
  repeat (simplify_option_eq || case_match); done.
Qed.

Lemma Donation_create_validate input doc :
  Donation.create input = Some doc -> Donation.validate doc = true.
Proof.
  unfold Donation.create. intros H.
  repeat (simplify_option_eq || case_match); done.
Qed.

Lemma DbOk_emptyDb : DbOk emptyDb.
Proof. constructor; apply map_Forall_empty. Qed.

Lemma DbOk_User_save now u : preserves DbOk (Query.User_save now u).
Proof.
  intros db H. unfold Query.User_save.
  destruct (User.validate u); [| exact H].
  destruct H as [Hu Hr Hd Hi]. constructor; simpl; try assumption.
  now apply map_Forall_insert_2.
Qed.

Lemma DbOk_BloodRequest_insert id input :
  preserves DbOk (Query.BloodRequest_insert id input).
Proof.
  intros db H. unfold Query.BloodRequest_insert.
  destruct (BloodRequest.create input) as [doc |] eqn:Hc; [| exact H].
  destruct (bloodrequests db !! id); [exact H |].
  destruct H as [Hu Hr Hd Hi]. constructor; simpl; try assumption.
  apply map_Forall_insert_2; [| assumption].
  now apply BloodRequest_create_validate with input.
Qed.

Lemma DbOk_BloodRequest_save id doc :
  preserves DbOk (Query.BloodRequest_save id doc).
Proof.
  intros db H. unfold Query.BloodRequest_save.
  destruct (BloodRequest.validate doc) eqn:Hv; [| exact H].
  destruct H as [Hu Hr Hd Hi]. constructor; simpl; try assumption.
  now apply map_Forall_insert_2.
Qed.

Lemma DbOk_BloodRequest_delete id :
  preserves DbOk (Query.BloodRequest_findByIdAndDelete id).
Proof.
  intros db [Hu Hr Hd Hi]. constructor; simpl; try assumption.
  now apply map_Forall_delete.
Qed.

Lemma DbOk_Donation_insert id input :
  preserves DbOk (Query.Donation_insert id input).
Proof.
  intros db H. unfold Query.Donation_insert.
  destruct (Donation.create input) as [doc |] eqn:Hc; [| exact H].
  destruct (donations db !! id); [exact H |].
  destruct H as [Hu Hr Hd Hi]. constructor; simpl; try assumption.
  apply map_Forall_insert_2; [| assumption].
  now apply Donation_create_validate with input.
Qed.

Lemma DbOk_Donation_save id doc : preserves DbOk (Query.Donation_save id doc).
Proof.
  intros db H. unfold Query.Donation_save.
  destruct (Donation.validate doc) eqn:Hv; [| exact H].
  destruct H as [Hu Hr Hd Hi]. constructor; simpl; try assumption.
  now apply map_Forall_insert_2.
Qed.

Lemma DbOk_BloodInventory_save doc :
  preserves DbOk (Query.BloodInventory_save doc).
Proof.
  intros db H. unfold Query.BloodInventory_save.
  destruct (BloodInventory.validate doc) eqn:Hv; [| exact H].
  destruct H as [Hu Hr Hd Hi]. constructor; simpl; try assumption.
  now apply map_Forall_insert_2.
Qed.

Lemma DbOk_insertMany docs : preserves DbOk (inventory.insertMany docs).
Proof.
  intros db H. unfold inventory.insertMany.
  destruct (forallb BloodInventory.validate docs) eqn:Hv; [| exact H].
  destruct H as [Hu Hr Hd Hi]. constructor; simpl; try assumption.
  induction docs as [| doc docs IH]; simpl in *; [assumption |].
  apply andb_prop in Hv as [Hdoc Hdocs].
  apply map_Forall_insert_2; [now split | now apply IH].
Qed.

(** Every state the handlers can reach from a valid one is valid; the
    empty database is. *)
Lemma DbOk_run (ops : list Op) (db : Db) : DbOk db -> DbOk (run ops db).
Proof.
  apply run_preserves.
  - apply DbOk_User_save.
  - apply DbOk_BloodRequest_insert.
  - apply DbOk_BloodRequest_save.
  - apply DbOk_BloodRequest_delete.
  - apply DbOk_Donation_insert.
  - apply DbOk_Donation_save.
  - apply DbOk_BloodInventory_save.
  - apply DbOk_insertMany.
Qed.

Lemma BloodRequest_validate_hydrate r :
  BloodRequest.validate r = true ->
  BloodRequest.validate (BloodRequest.hydrate r) = true.
Proof.
  unfold BloodRequest.validate, BloodRequest.hydrate,
    BloodRequest.currentStatus; simpl.
  destruct (BloodRequest.status r); simpl; [done |].
  now change (includes BloodRequest.statuses "pending") with true.
Qed.

Lemma Donation_validate_hydrate d :
  Donation.validate d = true -> Donation.validate (Donation.hydrate d) = true.
Proof.
  unfold Donation.validate, Donation.hydrate, Donation.currentStatus; simpl.
  destruct (Donation.status d); simpl; [done |].
  now change (includes Donation.statuses "scheduled") with true.
Qed.

End Validity.

(** ** Fulfilling a request *)

Lemma validate_fulfilledRequest notes now r :
  BloodRequest.validate r = true ->
  BloodRequest.validate (fulfilledRequest notes now r) = true.
Proof.
  unfold BloodRequest.validate, fulfilledRequest; simpl.
  intros H. repeat (apply andb_prop in H as [H ?]).
  repeat (apply andb_true_intro; split); auto.
Qed.

Lemma validate_debited n now stock :
  BloodInventory.validate stock = true ->
  n <= BloodInventory.unitsAvailable stock ->
  BloodInventory.validate (debited n now stock) = true.
Proof.
  unfold BloodInventory.validate, debited; simpl.
  intros H Hn. apply andb_prop in H as [H _].
  apply andb_true_intro; split; [exact H | apply Z.leb_le; lia].
Qed.

Lemma DbOk_sampleDb : DbOk sampleDb.
Proof.
  constructor; unfold sampleDb; simpl;
    repeat (apply map_Forall_insert_2; [done |]); apply map_Forall_empty.
Qed.

Lemma DbOk_incompleteDonorDb : DbOk incompleteDonorDb.
Proof.
  destruct DbOk_sampleDb as [Hu Hr Hd Hi].
  constructor; [| exact Hr | exact Hd | exact Hi].
  simpl. apply map_Forall_insert_2; [reflexivity | exact Hu].
Qed.

Section Fulfil.

Variables (db : Db) (user : User.t) (id : ObjectId).
Variables (notes : option string) (now : Date).
Variables (r : BloodRequest.t) (stock : BloodInventory.t).

Hypothesis Hok : DbOk db.
Hypothesis Hadmin : User.role user = "admin".
Hypothesis Hr : bloodrequests db !! id = Some r.
Hypothesis Hstock :
  bloodinventories db !! BloodRequest.bloodType r = Some stock.

Let body : requests.StatusBody :=
  {| requests.status := Some "fulfilled"; requests.notes := notes |}.

Lemma fulfil_enough :
  BloodRequest.unitsNeeded r <= BloodInventory.unitsAvailable stock ->
  requests.updateStatus user id body now db
  = (json 200 "Request fulfilled successfully"
       (RequestData (fulfilledRequest notes now r)),
     set_bloodrequests
       (<[id := fulfilledRequest notes now r]> (bloodrequests db))
       (set_bloodinventories
          (<[BloodRequest.bloodType r :=
               debited (BloodRequest.unitsNeeded r) now stock]>
             (bloodinventories db)) db)).
Proof.
  intros Hle.
  pose proof (ok_requests db Hok id r Hr) as Hvr. simpl in Hvr.
  pose proof (ok_inventory db Hok _ stock Hstock) as [Hkey Hvs].
  unfold requests.updateStatus, authorize. rewrite Hadmin.
  change (includes ["admin"] "admin") with true. cbv iota.
  unfold tryCatch, bind, Query.BloodRequest_findById. rewrite Hr. simpl.
  unfold Query.BloodInventory_findOne. simpl. rewrite Hstock.
  fold (debited (BloodRequest.unitsNeeded r) now stock).
  fold (fulfilledRequest notes now r).
  rewrite (proj2 (Z.leb_le _ _) Hle).
  unfold Query.BloodInventory_save.
  rewrite (validate_debited _ now stock Hvs Hle).
  unfold ret, Query.BloodRequest_save.
  rewrite (validate_fulfilledRequest notes now r Hvr).
  simpl. rewrite Hkey. reflexivity.
Qed.



End Fulfil.


(** ** Deleting a request *)

Lemma includes_In (l : list string) (s : string) :
  includes l s = true <-> In s l.
Proof.
  unfold includes. rewrite existsb_exists. split.
  - intros (x & Hx & Heq). apply String.eqb_eq in Heq. now subst.
  - intros H. exists s. split; [exact H | apply String.eqb_refl].
Qed.

Section Delete.

Variables (db : Db) (user : User.t) (id : ObjectId) (r : BloodRequest.t).

Hypothesis Hr : bloodrequests db !! id = Some r.
Hypothesis Hmay :
  User.role user = "admin" \/ BloodRequest.requester r = User._id user.

Lemma delete_allowed :
  negb (String.eqb (User.role user) "admin")
  && negb (String.eqb (BloodRequest.requester r) (User._id user)) = false.
Proof.
  destruct Hmay as [H | H]; rewrite H, String.eqb_refl; simpl;
    [reflexivity | apply andb_false_r].
Qed.

Lemma delete_eval :
  requests.deleteRequest user id db
  = if includes ["pending"; "cancelled"] (BloodRequest.currentStatus r)
    then (json 200 "Request deleted successfully" NoData,
          set_bloodrequests (delete id (bloodrequests db)) db)
    else (failure 400 "Cannot delete request with current status", db).
Proof.
  unfold requests.deleteRequest, tryCatch, bind, Query.BloodRequest_findById.
  rewrite Hr. simpl. rewrite delete_allowed. simpl.
  destruct (includes _ _); reflexivity.
Qed.

(** C9. For a stored request and a caller who is its owner or an admin,
    the deletion succeeds exactly when the request's status is [pending]
    or [cancelled], and then the request is gone from the store; in any
    other status the call fails with 400 "Cannot delete request with
    current status" ([InvalidState]), the database is unchanged and the
    request stays stored. *)
Theorem delete_request_by_status :
  let result := requests.deleteRequest user id db in
  let deletable :=
    BloodRequest.currentStatus r = "pending"
    \/ BloodRequest.currentStatus r = "cancelled" in
  (code (fst result) = 200 <-> deletable)
  /\ (deletable ->
      fst result = json 200 "Request deleted successfully" NoData
      /\ bloodrequests (snd result) = delete id (bloodrequests db)
      /\ bloodrequests (snd result) !! id = None)
  /\ (~ deletable ->
      fst result = failure 400 "Cannot delete request with current status"
      /\ snd result = db
      /\ bloodrequests (snd result) !! id = Some r).
Proof.
  intros result deletable. subst result.
  rewrite delete_eval.
  assert (Hdec : includes ["pending"; "cancelled"]
                   (BloodRequest.currentStatus r) = true <-> deletable).
  { rewrite includes_In. subst deletable. simpl. intuition congruence. }
  destruct (includes _ _) eqn:Hin; simpl.
  - assert deletable by now apply Hdec.
    repeat split; try tauto; try done. apply lookup_delete_eq.
  - assert (~ deletable) by (intros Hd; apply Hdec in Hd; discriminate).
    repeat split; try tauto; try done.
Qed.

End Delete.

Lemma delete_request_by_status_witness :
  (fst (requests.deleteRequest recipient "req2" sampleDb)
   = json 200 "Request deleted successfully" NoData
   /\ bloodrequests (snd (requests.deleteRequest recipient "req2" sampleDb))
      !! "req2" = None)
  /\ (fst (requests.deleteRequest admin "req8" sampleDb)
      = failure 400 "Cannot delete request with current status"
      /\ bloodrequests (snd (requests.deleteRequest admin "req8" sampleDb))
         !! "req8" = Some (requestFor 8 "approved")).
Proof.
  split.
  - destruct (delete_request_by_status sampleDb recipient "req2"
                (requestFor 2 "pending") eq_refl (or_intror eq_refl))
      as (_ & Hyes & _).
    destruct Hyes as (Hresp & _ & Hgone); [left; reflexivity |].
    split; [exact Hresp | exact Hgone].
  - destruct (delete_request_by_status sampleDb admin "req8"
                (requestFor 8 "approved") eq_refl (or_introl eq_refl))
      as (_ & _ & Hno).
    destruct Hno as (Hresp & _ & Hkept);
      [intros [H | H]; discriminate H |].
    split; [exact Hresp | exact Hkept].
Defined.

(** ** Creating a request *)

Lemma create_eval (db : Db) (user : User.t) (body : BloodRequest.fields)
    (newId : ObjectId) :
  requests.create user body newId db
  = match BloodRequest.create
            (requests.withRequester body (User._id user)) with
    | None =>
        (serverError "Failed to create blood request" ValidationError, db)
    | Some doc =>
        match bloodrequests db !! newId with
        | Some _ =>
            (serverError "Failed to create blood request" DuplicateKeyError,
             db)
        | None =>
            (json 201 "Blood request submitted successfully"
               (RequestData doc),
             set_bloodrequests (<[newId := doc]> (bloodrequests db)) db)
        end
    end.
Proof.
  unfold requests.create, tryCatch, bind, Query.BloodRequest_insert.
  destruct (BloodRequest.create _); [| reflexivity].
  destruct (bloodrequests db !! newId); reflexivity.
Qed.

Lemma create_status input doc :
  BloodRequest.create input = Some doc ->
  BloodRequest.status doc
  = Some (default "pending" (BloodRequest.f_status input)).
Proof.
  unfold BloodRequest.create. intros H.
  repeat (simplify_option_eq || case_match); done.
Qed.

(** C4, at the failing input. A recipient's body that carries
    [status: 'fulfilled'] besides the required paths creates a request that
    is returned and stored as [fulfilled], not as [pending]: the body is
    spread into the document and only [requester] is overridden. (No record
    of the requested blood type is in stock, and none is read.) *)
Theorem create_request_status_not_pending :
  requests.create recipient (requestBody (Some "fulfilled")) "req9" sampleDb
  = (json 201 "Blood request submitted successfully"
       (RequestData (createdWith "fulfilled")),
     set_bloodrequests
       (<["req9" := createdWith "fulfilled"]> (bloodrequests sampleDb))
       sampleDb)
  /\ BloodRequest.status (createdWith "fulfilled") <> Some "pending".
Proof. split; [vm_compute; reflexivity | discriminate]. Qed.

Section Create.

Variables (db : Db) (user : User.t) (body : BloodRequest.fields).
Variable newId : ObjectId.

(** What the creation does on every body. The request it stores has the
    status the body supplies, and [pending] when the body supplies none. It
    succeeds whenever the body passes the schema's validators and the
    identifier is fresh; it leaves the inventory collection as it was, and
    its response is the same whatever the inventory holds: no record is
    read, so a request is created also when the stock is insufficient. *)
Lemma create_request_status_inventory :
  let result := requests.create user body newId db in
  (forall r, data (fst result) = RequestData r ->
     BloodRequest.status r
     = Some match BloodRequest.f_status body with
            | Some s => s
            | None => "pending"
            end)
  /\ (forall doc,
        BloodRequest.create (requests.withRequester body (User._id user))
        = Some doc ->
        bloodrequests db !! newId = None ->
        result
        = (json 201 "Blood request submitted successfully" (RequestData doc),
           set_bloodrequests (<[newId := doc]> (bloodrequests db)) db))
  /\ bloodinventories (snd result) = bloodinventories db
  /\ (forall stock,
        fst (requests.create user body newId (set_bloodinventories stock db))
        = fst result).
Proof.
  intros result. subst result.
  split; [| split; [| split]].
  - intros r. rewrite create_eval.
    destruct (BloodRequest.create _) as [doc |] eqn:Hc; [| discriminate].
    destruct (bloodrequests db !! newId); [discriminate |].
    simpl. intros [= <-]. rewrite (create_status _ _ Hc). simpl.
    now destruct (BloodRequest.f_status body).
  - intros doc Hc Hfresh. now rewrite create_eval, Hc, Hfresh.
  - rewrite create_eval. now repeat case_match.
  - intros stock. rewrite !create_eval. simpl.
    destruct (BloodRequest.create _); [| reflexivity].
    destruct (bloodrequests db !! newId); reflexivity.
Qed.

End Create.

(** ** Scheduling a donation *)

Lemma donate_eval (db : Db) (user : User.t) (body : Donation.fields)
    (now : Date) (newId : ObjectId) (donor : User.t) :
  users db !! User._id user = Some donor ->
  blood.donate user body now newId db
  = if User.checkEligibility donor now then
      match Donation.create
              (blood.withDonor body (User._id user) (User.bloodType donor)) with
      | None => (serverError "Failed to schedule donation" ValidationError, db)
      | Some doc =>
          match donations db !! newId with
          | Some _ =>
              (serverError "Failed to schedule donation" DuplicateKeyError, db)
          | None =>
              (json 201 "Donation scheduled successfully" (DonationData doc),
               set_donations (<[newId := doc]> (donations db)) db)
          end
      end
    else (failure 400 blood.notEligible, db).
Proof.
  intros Hdonor.
  unfold blood.donate, tryCatch, bind, Query.User_findById. rewrite Hdonor.
  simpl. destruct (User.checkEligibility donor now); [| reflexivity].
  simpl. unfold Query.Donation_insert.
  destruct (Donation.create _); [| reflexivity].
  destruct (donations db !! newId); reflexivity.
Qed.

Lemma requiredString_Some v s : requiredString v = Some s -> v = Some s.
Proof.
  unfold requiredString. destruct v as [x |]; [| discriminate].
  destruct (String.eqb x ""); [discriminate | done].
Qed.

Lemma Donation_create_bloodType input doc :
  Donation.create input = Some doc ->
  Donation.f_bloodType input = Some (Donation.bloodType doc)
  /\ Donation.f_donor input = Some (Donation.donor doc).
Proof.
  unfold Donation.create. intros H.
  destruct (Donation.f_donor input) as [donor |]; [| discriminate].
  destruct (Donation.f_donationDate input) as [date |]; [| discriminate].
  destruct (requiredString (Donation.f_bloodType input)) as [bt |] eqn:Hbt;
    [| discriminate].
  simpl in H. destruct (Donation.validate _); [| discriminate].
  injection H as <-. simpl. split; [now apply requiredString_Some | done].
Qed.

Lemma requiredString_bloodType bt :
  In bt bloodTypes -> requiredString (Some bt) = Some bt.
Proof.
  intros H. simpl in H.
  repeat (destruct H as [<- | H]; [reflexivity |]). destruct H.
Qed.

Section Donate.

Variables (db : Db) (user : User.t) (body : Donation.fields).
Variables (now : Date) (newId : ObjectId) (donor : User.t).

Hypothesis Hdonor : users db !! User._id user = Some donor.

(** C7. Whenever a scheduling call creates a donation, the donation's
    [bloodType] is the one in the caller's stored profile, whatever
    [bloodType] the body carries; that donation is the one stored under the
    new identifier. *)
Theorem donate_bloodType_from_profile (d : Donation.t) :
  data (fst (blood.donate user body now newId db)) = DonationData d ->
  User.bloodType donor = Some (Donation.bloodType d)
  /\ donations (snd (blood.donate user body now newId db)) !! newId = Some d.
Proof.
  rewrite (donate_eval db user body now newId donor Hdonor).
  destruct (User.checkEligibility donor now); [| discriminate].
  destruct (Donation.create _) as [doc |] eqn:Hc; [| discriminate].
  destruct (donations db !! newId); [discriminate |].
  simpl. intros [= <-].
  apply Donation_create_bloodType in Hc as [Hbt _]. simpl in Hbt.
  split; [exact Hbt | apply lookup_insert_eq].
Qed.

(** C8. A caller whose last donation is fewer than 56 days before [now]
    gets 400 with the not-eligible message ([IneligibleDonor]) and the
    database is unchanged, so no donation is created. A caller who never
    donated is never refused for eligibility, and the call succeeds with
    201 and stores the donation, in status [scheduled], when the body names
    a donation date and nothing else that could fail validation, the
    profile has a blood type and the identifier is fresh. *)
Theorem donate_requires_eligibility :
  (forall last, User.lastDonation donor = Some last ->
     now - last < 56 * 86400000 ->
     blood.donate user body now newId db
     = (failure 400 blood.notEligible, db))
  /\ (User.lastDonation donor = None ->
      fst (blood.donate user body now newId db)
      <> failure 400 blood.notEligible
      /\ forall date bt,
           Donation.f_donationDate body = Some date ->
           User.bloodType donor = Some bt -> In bt bloodTypes ->
           Donation.f_unitsCollected body = None ->
           Donation.f_status body = None ->
           donations db !! newId = None ->
           exists doc,
             blood.donate user body now newId db
             = (json 201 "Donation scheduled successfully" (DonationData doc),
                set_donations (<[newId := doc]> (donations db)) db)
             /\ Donation.donor doc = User._id user
             /\ Donation.status doc = Some "scheduled").
Proof.
  split.
  - intros l Hlast Hgap.
    rewrite (donate_eval db user body now newId donor Hdonor).
    assert (User.checkEligibility donor now = false) as ->; [| reflexivity].
    rewrite (checkEligibility_days donor l now Hlast).
    apply Z.leb_gt. apply Z.div_lt_upper_bound; lia.
  - intros Hnever.
    rewrite (donate_eval db user body now newId donor Hdonor).
    assert (User.checkEligibility donor now = true) as ->.
    { unfold User.checkEligibility. now rewrite Hnever. }
    split.
    + destruct (Donation.create _); [| discriminate].
      destruct (donations db !! newId); discriminate.
    + intros date bt Hdate Hbt Hin Hunits Hstatus Hfresh.
      unfold Donation.create. simpl.
      rewrite Hdate, Hbt, (requiredString_bloodType bt Hin). simpl.
      rewrite Hunits, Hstatus. unfold Donation.validate. simpl.
      rewrite (proj2 (includes_In bloodTypes bt) Hin). simpl.
      change (includes Donation.statuses "scheduled") with true. cbv iota.
      rewrite Hfresh. eexists. split; [reflexivity |]. done.
Qed.

End Donate.

Lemma donate_bloodType_from_profile_witness :
  Donation.f_bloodType (donateBody (Some "A+")) = Some "A+"
  /\ User.bloodType (donorAt None) = Some (Donation.bloodType scheduledSample)
  /\ donations
       (snd (blood.donate (donorAt None) (donateBody (Some "A+")) t0 "don9"
               sampleDb))
     !! "don9" = Some scheduledSample.
Proof.
  split; [reflexivity |].
  apply (donate_bloodType_from_profile sampleDb (donorAt None)
           (donateBody (Some "A+")) t0 "don9" (donorAt None) eq_refl
           scheduledSample).
  vm_compute; reflexivity.
Defined.

Lemma donate_requires_eligibility_witness :
  blood.donate (donorAt (Some (t0 - 10 * 86400000))) (donateBody None) t0
    "don9" recentDonorDb
  = (failure 400 blood.notEligible, recentDonorDb)
  /\ exists doc,
       blood.donate (donorAt None) (donateBody None) t0 "don9" sampleDb
       = (json 201 "Donation scheduled successfully" (DonationData doc),
          set_donations (<["don9" := doc]> (donations sampleDb)) sampleDb)
       /\ Donation.donor doc = "u1"
       /\ Donation.status doc = Some "scheduled".
Proof.
  split.
  - apply (proj1 (donate_requires_eligibility recentDonorDb
                    (donorAt (Some (t0 - 10 * 86400000))) (donateBody None)
                    t0 "don9" (donorAt (Some (t0 - 10 * 86400000))) eq_refl)
             (t0 - 10 * 86400000) eq_refl).
    unfold t0; lia.
  - apply (proj2 (proj2 (donate_requires_eligibility sampleDb (donorAt None)
                           (donateBody None) t0 "don9" (donorAt None) eq_refl)
                   eq_refl)
             (t0 + 3600000) "O+" eq_refl eq_refl);
      [simpl; tauto | reflexivity | reflexivity | reflexivity].
Defined.

(** ** Records created on demand *)
Section LazyCreation.

Variables (db : Db) (user : User.t) (bt : string) (now : Date).

Hypothesis Hadmin : User.role user = "admin".
Hypothesis Hbt : In bt bloodTypes.
Hypothesis Hnone : bloodinventories db !! bt = None.

Lemma update_missing_eval (body : inventory.UpdateBody) :
  inventory.update user bt body now db
  = if 0 <=? default 0 (inventory.unitsAvailable body) then
      (json 200 "Inventory updated successfully"
         (InventoryData (freshRecord bt body now)),
       set_bloodinventories
         (<[bt := freshRecord bt body now]> (bloodinventories db)) db)
    else (serverError "Failed to update inventory" ValidationError, db).
Proof.
  pose proof (proj2 (includes_In bloodTypes bt) Hbt) as Hinc.
  unfold inventory.update, authorize. rewrite Hadmin.
  change (includes ["admin"] "admin") with true. cbv iota.
  unfold tryCatch, bind, Query.BloodInventory_findOne. rewrite Hnone.
  unfold Query.BloodInventory_save, BloodInventory.validate.
  destruct body as [[ua |] [mt |] [mc |]]; simpl; rewrite Hinc; simpl;
    try reflexivity; destruct (0 <=? ua); reflexivity.
Qed.

Lemma addUnits_missing_eval (units : Z) (expiryDate : option Date) :
  inventory.addUnits user
    {| inventory.bloodType := bt; inventory.units := units;
       inventory.expiryDate := expiryDate |} now db
  = if 0 <=? units then
      (json 200
         ("Added " +:+ pretty units +:+ " units of " +:+ bt +:+ " blood")
         (InventoryData (freshStock bt units expiryDate now)),
       set_bloodinventories
         (<[bt := freshStock bt units expiryDate now]> (bloodinventories db))
         db)
    else (serverError "Failed to add blood units" ValidationError, db).
Proof.
  pose proof (proj2 (includes_In bloodTypes bt) Hbt) as Hinc.
  unfold inventory.addUnits, authorize. rewrite Hadmin.
  change (includes ["admin"] "admin") with true. cbv iota.
  unfold tryCatch, bind, Query.BloodInventory_findOne. simpl.
  rewrite Hnone.
  unfold Query.BloodInventory_save, BloodInventory.validate.
  destruct expiryDate as [d |]; simpl; rewrite Hinc; simpl;
    change (0 + units) with units; destruct (0 <=? units); reflexivity.
Qed.

(** C10. For a blood type of the catalogue that has no inventory record,
    neither the admin's overwrite of the fields nor the addition of units
    answers 404. When the update passes the [min: 0] validator (the units
    it leaves are not negative), the call succeeds and stores, under that
    blood type, the record made of the schema defaults (0 units, threshold
    10, capacity 100, no batch, nothing reserved) with the requested update
    applied. *)
Theorem inventory_created_lazily :
  (forall body : inventory.UpdateBody,
     code (fst (inventory.update user bt body now db)) <> 404
     /\ (0 <= default 0 (inventory.unitsAvailable body) ->
         let record :=
           {| BloodInventory.bloodType := bt;
              BloodInventory.unitsAvailable :=
                default 0 (inventory.unitsAvailable body);
              BloodInventory.lastUpdated := now;
              BloodInventory.minimumThreshold :=
                default 10 (inventory.minimumThreshold body);
              BloodInventory.maxCapacity :=
                default 100 (inventory.maxCapacity body);
              BloodInventory.expiringUnits := [];
              BloodInventory.reservedUnits := 0 |} in
         inventory.update user bt body now db
         = (json 200 "Inventory updated successfully" (InventoryData record),
            set_bloodinventories (<[bt := record]> (bloodinventories db)) db)))
  /\ (forall (units : Z) (expiryDate : option Date),
        let body :=
          {| inventory.bloodType := bt; inventory.units := units;
             inventory.expiryDate := expiryDate |} in
        code (fst (inventory.addUnits user body now db)) <> 404
        /\ (0 <= units ->
            let record :=
              {| BloodInventory.bloodType := bt;
                 BloodInventory.unitsAvailable := 0 + units;
                 BloodInventory.lastUpdated := now;
                 BloodInventory.minimumThreshold := 10;
                 BloodInventory.maxCapacity := 100;
                 BloodInventory.expiringUnits :=
                   match expiryDate with
                   | Some d => [(d, units)]
                   | None => []
                   end;
                 BloodInventory.reservedUnits := 0 |} in
            inventory.addUnits user body now db
            = (json 200
                 ("Added " +:+ pretty units +:+ " units of " +:+ bt
                  +:+ " blood")
                 (InventoryData record),
               set_bloodinventories (<[bt := record]> (bloodinventories db))
                 db))).
Proof.
  split.
  - intros body. rewrite update_missing_eval.
    destruct (0 <=? _) eqn:Hua.
    + split; [discriminate | intros _; reflexivity].
    + split; [discriminate | intros Hnn; apply Z.leb_gt in Hua; lia].
  - intros units expiryDate body. subst body.
    rewrite addUnits_missing_eval.
    destruct (0 <=? units) eqn:Hu.
    + split; [discriminate | intros _; reflexivity].
    + split; [discriminate | intros Hnn; apply Z.leb_gt in Hu; lia].
Qed.

End LazyCreation.

Lemma inventory_created_lazily_witness :
  bloodinventories sampleDb !! "AB-" = None
  /\ (BloodInventory.unitsAvailable
        <$> bloodinventories
              (snd (inventory.update admin "AB-"
                      {| inventory.unitsAvailable := Some 7;
                         inventory.minimumThreshold := None;
                         inventory.maxCapacity := None |} t0 sampleDb))
            !! "AB-") = Some 7
  /\ (BloodInventory.unitsAvailable
        <$> bloodinventories
              (snd (inventory.addUnits admin
                      {| inventory.bloodType := "AB-"; inventory.units := 4;
                         inventory.expiryDate := None |} t0 sampleDb))
            !! "AB-") = Some 4.
Proof.
  assert (Hin : In "AB-" bloodTypes) by (simpl; tauto).
  destruct (inventory_created_lazily sampleDb admin "AB-" t0 eq_refl Hin
              eq_refl) as [Hupdate HaddUnits].
  split; [reflexivity |]. split.
  - destruct (Hupdate {| inventory.unitsAvailable := Some 7;
                         inventory.minimumThreshold := None;
                         inventory.maxCapacity := None |}) as [_ Heq].
    rewrite Heq; [| simpl; lia]. simpl. now rewrite lookup_insert_eq.
  - destruct (HaddUnits 4 None) as [_ Heq].
    rewrite Heq; [| lia]. simpl. now rewrite lookup_insert_eq.
Defined.

(** ** Updating the status of a donation *)

Lemma assign_fields user body d :
  let d' := blood.assign user body d in
  Donation.donor d' = Donation.donor d
  /\ Donation.donationDate d' = Donation.donationDate d
  /\ Donation.bloodType d' = Donation.bloodType d
  /\ Donation.status d' = blood.status body
  /\ Donation.unitsCollected d'
     = default (Donation.unitsCollected d)
         (truthyNumber (blood.unitsCollected body)).
Proof.
  unfold blood.assign.
  destruct (blood.preScreening body), (blood.postDonation body),
    (truthyNumber (blood.unitsCollected body)); simpl; done.
Qed.

(** The completion changes no validated path of the donor. *)
Lemma validate_donated count date (donor : User.t) :
  User.validate
    (User.set_donationCount count (User.set_lastDonation date donor))
  = User.validate donor.
Proof. reflexivity. Qed.

Section DonationStatus.

Variables (db : Db) (user : User.t) (id : ObjectId).
Variables (body : blood.StatusBody) (now : Date).
Variables (d : Donation.t) (donor : User.t) (s : string).

Hypothesis Hok : DbOk db.
Hypothesis Hadmin : User.role user = "admin".
Hypothesis Hd : donations db !! id = Some d.
Hypothesis Hdonor : users db !! Donation.donor d = Some donor.
Hypothesis Hs : blood.status body = Some s.
Hypothesis Hin : In s Donation.statuses.

Let u : Z :=
  default (Donation.unitsCollected d)
    (truthyNumber (blood.unitsCollected body)).

Hypothesis Hu : 1 <= u <= 2.

Let d' : Donation.t := blood.assign user body (Donation.hydrate d).

Lemma validate_assigned : Donation.validate d' = true.
Proof.
  pose proof (ok_donations db Hok id d Hd) as Hv. simpl in Hv.
  destruct (assign_fields user body (Donation.hydrate d))
    as (_ & _ & Hbt & Hst & Hun).
  fold d' in Hbt, Hst, Hun. simpl in Hbt, Hun. fold u in Hun.
  unfold Donation.validate in *. rewrite Hbt, Hst, Hun, Hs. simpl.
  repeat (apply andb_prop in Hv as [Hv ?]).
  rewrite Hv, (proj2 (includes_In _ _) Hin).
  rewrite (proj2 (Z.leb_le 1 u)), (proj2 (Z.leb_le u 2)); [done | lia | lia].
Qed.

Lemma truthy_u : default 1 (truthyNumber (Some u)) = u.
Proof.
  unfold truthyNumber. destruct (u =? 0) eqn:H0; [| reflexivity].
  apply Z.eqb_eq in H0. lia.
Qed.

(** A status other than [completed]: the document is saved, nothing else
    is written. *)
Lemma updateStatus_other :
  s <> "completed" ->
  blood.updateStatus user id body now db
  = (json 200 ("Donation " +:+ s +:+ " successfully") (DonationData d'),
     set_donations (<[id := d']> (donations db)) db).
Proof.
  intros Hne.
  unfold blood.updateStatus, authorize. rewrite Hadmin.
  change (includes ["admin"] "admin") with true. cbv iota.
  unfold tryCatch, bind, Query.Donation_findById. rewrite Hd. simpl.
  fold d'. rewrite Hs. simpl.
  rewrite (proj2 (String.eqb_neq s "completed") Hne).
  unfold ret, Query.Donation_save. rewrite validate_assigned. reflexivity.
Qed.

(** [completed]: the donor, then the inventory record if there is one,
    then the donation. *)
Lemma updateStatus_completed :
  s = "completed" ->
  User.validate donor = true ->
  blood.updateStatus user id body now db
  = (json 200 "Donation completed successfully" (DonationData d'),
     {| users :=
          <[Donation.donor d := donated (Donation.donationDate d) now donor]>
            (users db);
        bloodrequests := bloodrequests db;
        donations := <[id := d']> (donations db);
        bloodinventories :=
          match bloodinventories db !! Donation.bloodType d with
          | Some stock =>
              <[Donation.bloodType d := credited u now stock]>
                (bloodinventories db)
          | None => bloodinventories db
          end |}).
Proof.
  intros Hc Hvalid.
  pose proof (ok_users db Hok _ donor Hdonor) as Hkey. simpl in Hkey.
  destruct (assign_fields user body (Donation.hydrate d))
    as (_ & Hdate & Hbt & _ & Hun).
  fold d' in Hdate, Hbt, Hun. simpl in Hdate, Hbt, Hun. fold u in Hun.
  unfold blood.updateStatus, authorize. rewrite Hadmin.
  change (includes ["admin"] "admin") with true. cbv iota.
  unfold tryCatch, bind, Query.Donation_findById. rewrite Hd. simpl.
  fold d'. rewrite Hs, Hc. simpl.
  rewrite Hdonor. simpl. unfold Query.User_save.
  rewrite (validate_donated _ _ donor), Hvalid. simpl.
  rewrite Hdate, Hbt, Hun, Hkey.
  change (if u =? 0 then None else Some u) with (truthyNumber (Some u)).
  rewrite truthy_u.
  fold (donated (Donation.donationDate d) now donor).
  destruct (bloodinventories db !! Donation.bloodType d)
    as [stock |] eqn:Hstock.
  - pose proof (ok_inventory db Hok _ stock Hstock) as [Hk Hvs].
    fold (credited u now stock).
    unfold Query.BloodInventory_save.
    assert (BloodInventory.validate (credited u now stock) = true) as ->.
    { unfold BloodInventory.validate in *. simpl.
      apply andb_prop in Hvs as [-> Hnn]. apply Z.leb_le in Hnn.
      simpl. apply Z.leb_le. lia. }
    unfold ret, Query.Donation_save. rewrite validate_assigned.
    simpl. rewrite Hk. reflexivity.
  - unfold ret, Query.Donation_save. rewrite validate_assigned. reflexivity.
Qed.

End DonationStatus.

(** The two ways a completion fails on a stored donation of a stored
    donor. *)
Section CompletionRefused.

Variables (db : Db) (user : User.t) (id : ObjectId).
Variables (body : blood.StatusBody) (now : Date).
Variables (d : Donation.t) (donor : User.t).

Hypothesis Hok : DbOk db.
Hypothesis Hadmin : User.role user = "admin".
Hypothesis Hd : donations db !! id = Some d.
Hypothesis Hdonor : users db !! Donation.donor d = Some donor.
Hypothesis Hs : blood.status body = Some "completed".

Let u : Z :=
  default (Donation.unitsCollected d)
    (truthyNumber (blood.unitsCollected body)).

(** [donor.save()] throws before anything is written. *)
Lemma updateStatus_donor_refused :
  User.validate donor = false ->
  blood.updateStatus user id body now db
  = (serverError "Failed to update donation status" ValidationError, db).
Proof.
  intros Hinvalid.
  unfold blood.updateStatus, authorize. rewrite Hadmin.
  change (includes ["admin"] "admin") with true. cbv iota.
  unfold tryCatch, bind, Query.Donation_findById. rewrite Hd. simpl.
  rewrite Hs. simpl. rewrite Hdonor. simpl. unfold Query.User_save.
  rewrite (validate_donated _ _ donor), Hinvalid. reflexivity.
Qed.

(** More than two units: [donation.save()] throws after the donor and the
    inventory record were saved. *)
Lemma updateStatus_units_refused :
  User.validate donor = true ->
  2 < u ->
  blood.updateStatus user id body now db
  = (serverError "Failed to update donation status" ValidationError,
     {| users :=
          <[Donation.donor d := donated (Donation.donationDate d) now donor]>
            (users db);
        bloodrequests := bloodrequests db;
        donations := donations db;
        bloodinventories :=
          match bloodinventories db !! Donation.bloodType d with
          | Some stock =>
              <[Donation.bloodType d := credited u now stock]>
                (bloodinventories db)
          | None => bloodinventories db
          end |}).
Proof.
  intros Hvalid Hmany.
  pose proof (ok_users db Hok _ donor Hdonor) as Hkey. simpl in Hkey.
  destruct (assign_fields user body (Donation.hydrate d))
    as (_ & Hdate & Hbt & _ & Hun).
  simpl in Hdate, Hbt, Hun. fold u in Hun.
  assert (Hrefused : Donation.validate
                       (blood.assign user body (Donation.hydrate d)) = false).
  { unfold Donation.validate. rewrite Hun.
    rewrite (proj2 (Z.leb_gt u 2)) by lia.
    now rewrite andb_false_r. }
  unfold blood.updateStatus, authorize. rewrite Hadmin.
  change (includes ["admin"] "admin") with true. cbv iota.
  unfold tryCatch, bind, Query.Donation_findById. rewrite Hd. simpl.
  rewrite Hs. simpl. rewrite Hdonor. simpl. unfold Query.User_save.
  rewrite (validate_donated _ _ donor), Hvalid. simpl.
  rewrite Hdate, Hbt, Hun, Hkey.
  change (if u =? 0 then None else Some u) with (truthyNumber (Some u)).
  assert (default 1 (truthyNumber (Some u)) = u) as ->.
  { unfold truthyNumber. destruct (u =? 0) eqn:H0; [| reflexivity].
    apply Z.eqb_eq in H0. lia. }
  fold (donated (Donation.donationDate d) now donor).
  destruct (bloodinventories db !! Donation.bloodType d)
    as [stock |] eqn:Hstock.
  - pose proof (ok_inventory db Hok _ stock Hstock) as [Hk Hvs].
    fold (credited u now stock).
    unfold Query.BloodInventory_save.
    assert (BloodInventory.validate (credited u now stock) = true) as ->.
    { unfold BloodInventory.validate in *. simpl.
      apply andb_prop in Hvs as [-> Hnn]. apply Z.leb_le in Hnn.
      simpl. apply Z.leb_le. lia. }
    unfold ret, Query.Donation_save. rewrite Hrefused.
    simpl. rewrite Hk. reflexivity.
  - unfold ret, Query.Donation_save. rewrite Hrefused. reflexivity.
Qed.

End CompletionRefused.

(** C6, amended. The status update of a donation has no guard on the
    current status: for every stored donation, in a terminal state or not,
    an admin's update to any of the four statuses succeeds and stores that
    status (the fields of the body having the types of their schema
    paths, the units collected being 1 or 2 and, for [completed], the
    donor being a stored user whose document passes the validators of the
    user schema). *)
Theorem donation_status_unguarded (db : Db) (user : User.t) (id : ObjectId)
    (body : blood.StatusBody) (now : Date) (d : Donation.t) (s : string) :
  DbOk db ->
  User.role user = "admin" ->
  donations db !! id = Some d ->
  blood.status body = Some s ->
  In s Donation.statuses ->
  (s = "completed" ->
   exists donor,
     users db !! Donation.donor d = Some donor
     /\ User.validate donor = true) ->
  1 <= default (Donation.unitsCollected d)
         (truthyNumber (blood.unitsCollected body)) <= 2 ->
  let result := blood.updateStatus user id body now db in
  code (fst result) = 200
  /\ (Donation.status <$> donations (snd result) !! id) = Some (Some s).
Proof.
  intros Hok Hadmin Hd Hs Hin Hdonor Hu result. subst result.
  destruct (assign_fields user body (Donation.hydrate d))
    as (_ & _ & _ & Hst & _).
  rewrite Hs in Hst.
  destruct (decide (s = "completed")) as [Hc | Hne].
  - destruct (Hdonor Hc) as (donor & Hfound & Hvalid).
    rewrite (updateStatus_completed db user id body now d donor s
               Hok Hadmin Hd Hfound Hs Hin Hu Hc Hvalid). simpl.
    split; [reflexivity |]. now rewrite lookup_insert_eq, <- Hst.
  - rewrite (updateStatus_other db user id body now d s
               Hok Hadmin Hd Hs Hin Hu Hne). simpl.
    split; [reflexivity |]. now rewrite lookup_insert_eq, <- Hst.
Qed.

(** The claim of C6 as the spec states it fails: a completed donation is
    moved to [cancelled]. *)
Lemma completed_donation_cancelled :
  donations sampleDb !! "don2" = Some (donationIn "completed")
  /\ code (fst (blood.updateStatus admin "don2"
                  (donationStatus "cancelled" None) t0 sampleDb)) = 200
  /\ (Donation.status
        <$> donations
              (snd (blood.updateStatus admin "don2"
                      (donationStatus "cancelled" None) t0 sampleDb))
            !! "don2") = Some (Some "cancelled").
Proof. repeat split; vm_compute; reflexivity. Qed.

Lemma donation_status_unguarded_witness :
  (code (fst (blood.updateStatus admin "don2"
                (donationStatus "scheduled" None) t0 sampleDb)) = 200
   /\ (Donation.status
         <$> donations
               (snd (blood.updateStatus admin "don2"
                       (donationStatus "scheduled" None) t0 sampleDb))
             !! "don2") = Some (Some "scheduled"))
  /\ (code (fst (blood.updateStatus admin "don2"
                   (donationStatus "completed" None) t0 sampleDb)) = 200
      /\ (Donation.status
            <$> donations
                  (snd (blood.updateStatus admin "don2"
                          (donationStatus "completed" None) t0 sampleDb))
                !! "don2") = Some (Some "completed")).
Proof.
  split.
  - apply (donation_status_unguarded sampleDb admin "don2"
             (donationStatus "scheduled" None) t0 (donationIn "completed")
             "scheduled" DbOk_sampleDb eq_refl eq_refl eq_refl).
    + simpl; tauto.
    + intros H; discriminate H.
    + simpl; lia.
  - apply (donation_status_unguarded sampleDb admin "don2"
             (donationStatus "completed" None) t0 (donationIn "completed")
             "completed" DbOk_sampleDb eq_refl eq_refl eq_refl).
    + simpl; tauto.
    + intros _. exists (donorAt None). split; reflexivity.
    + simpl; lia.
Defined.

(** The claim of C2 as the spec states it fails. With no inventory record
    for the blood type, a donation is completed and the donor is updated
    while nothing is added to any stock. And the three writes are not
    atomic: with three units collected the donor and the stock are written
    before the donation is refused by its validator, so the call fails and
    the donation stays [scheduled]. *)
Lemma completion_effects_not_together :
  (code (fst (blood.updateStatus admin "don1" (donationStatus "completed" None)
                t0 noStockDb)) = 200
   /\ (Donation.status
         <$> donations
               (snd (blood.updateStatus admin "don1"
                       (donationStatus "completed" None) t0 noStockDb))
             !! "don1") = Some (Some "completed")
   /\ (User.donationCount <$> users noStockDb !! "u1") = Some 1
   /\ (User.donationCount
         <$> users
               (snd (blood.updateStatus admin "don1"
                       (donationStatus "completed" None) t0 noStockDb))
             !! "u1") = Some 2
   /\ bloodinventories
        (snd (blood.updateStatus admin "don1"
                (donationStatus "completed" None) t0 noStockDb)) = ∅)
  /\ (code (fst (blood.updateStatus admin "don1"
                   (donationStatus "completed" (Some 3)) t0 sampleDb)) = 500
      /\ (Donation.status
            <$> donations
                  (snd (blood.updateStatus admin "don1"
                          (donationStatus "completed" (Some 3)) t0 sampleDb))
                !! "don1") = Some (Some "scheduled")
      /\ (User.donationCount
            <$> users
                  (snd (blood.updateStatus admin "don1"
                          (donationStatus "completed" (Some 3)) t0 sampleDb))
                !! "u1") = Some 2
      /\ (BloodInventory.unitsAvailable
            <$> bloodinventories
                  (snd (blood.updateStatus admin "don1"
                          (donationStatus "completed" (Some 3)) t0 sampleDb))
                !! "O+") = Some 8).
Proof. repeat split; vm_compute; reflexivity. Qed.

(** C2, amended. An admin completes a stored donation of a stored donor
    with a body whose fields have the types of their schema paths, [u]
    units being collected (the body's when it gives a non-zero number,
    else the stored ones), the donation count being a safe integer before
    and after. When the donor's document passes the validators of the user
    schema and [u] is 1 or 2, the call succeeds; the donation is stored as
    [completed] with [u] units; the donor's [lastDonation] is the
    donation's [donationDate] and the [donationCount] is one more; if a
    record for the donation's blood type is in stock, its [unitsAvailable]
    is [u] more (the sum being a safe integer) and its [lastUpdated] is
    [now], nothing else in the inventory changing; if there is none, the
    inventory is left as it was and no record is created.

    The writes are separate saves, in the order donor, inventory record,
    donation, and nothing makes them atomic: when the donor's document
    fails its validators the call answers 500 and nothing is written;
    with more than 2 units the donor and the inventory record are
    written, then the donation is refused by its validator, the call
    answers 500 and the donation stays as it was. *)
Theorem complete_donation_effects (db : Db) (user : User.t) (id : ObjectId)
    (body : blood.StatusBody) (now : Date) (d : Donation.t) (donor : User.t) :
  DbOk db ->
  User.role user = "admin" ->
  donations db !! id = Some d ->
  users db !! Donation.donor d = Some donor ->
  blood.status body = Some "completed" ->
  isSafeInteger (User.donationCount donor) ->
  isSafeInteger (User.donationCount donor + 1) ->
  let u :=
    default (Donation.unitsCollected d)
      (truthyNumber (blood.unitsCollected body)) in
  let result := blood.updateStatus user id body now db in
  let donor' :=
    {| User._id := User._id donor; User.name := User.name donor;
       User.email := User.email donor;
       User.password := User.password donor;
       User.role := User.role donor; User.phone := User.phone donor;
       User.bloodType := User.bloodType donor;
       User.dateOfBirth := User.dateOfBirth donor;
       User.gender := User.gender donor;
       User.lastDonation := Some (Donation.donationDate d);
       User.isEligible := User.isEligible donor;
       User.donationCount := User.donationCount donor + 1;
       User.isActive := User.isActive donor;
       User.updatedAt := now |} in
  let credit (stock : BloodInventory.t) :=
    {| BloodInventory.bloodType := BloodInventory.bloodType stock;
       BloodInventory.unitsAvailable :=
         BloodInventory.unitsAvailable stock + u;
       BloodInventory.lastUpdated := now;
       BloodInventory.minimumThreshold :=
         BloodInventory.minimumThreshold stock;
       BloodInventory.maxCapacity := BloodInventory.maxCapacity stock;
       BloodInventory.expiringUnits := BloodInventory.expiringUnits stock;
       BloodInventory.reservedUnits := BloodInventory.reservedUnits stock |} in
  (User.validate donor = true ->
   1 <= u <= 2 ->
   code (fst result) = 200
   /\ (exists d', donations (snd result) !! id = Some d'
         /\ Donation.status d' = Some "completed"
         /\ Donation.unitsCollected d' = u)
   /\ users (snd result) = <[Donation.donor d := donor']> (users db)
   /\ (forall stock,
         bloodinventories db !! Donation.bloodType d = Some stock ->
         isSafeInteger (BloodInventory.unitsAvailable stock + u) ->
         bloodinventories (snd result)
         = <[Donation.bloodType d := credit stock]> (bloodinventories db))
   /\ (bloodinventories db !! Donation.bloodType d = None ->
       bloodinventories (snd result) = bloodinventories db))
  /\ (User.validate donor = false ->
      result
      = (serverError "Failed to update donation status" ValidationError, db))
  /\ (User.validate donor = true ->
      2 < u ->
      code (fst result) = 500
      /\ donations (snd result) = donations db
      /\ users (snd result) = <[Donation.donor d := donor']> (users db)
      /\ (forall stock,
            bloodinventories db !! Donation.bloodType d = Some stock ->
            isSafeInteger (BloodInventory.unitsAvailable stock + u) ->
            bloodinventories (snd result)
            = <[Donation.bloodType d := credit stock]>
                (bloodinventories db))
      /\ (bloodinventories db !! Donation.bloodType d = None ->
          bloodinventories (snd result) = bloodinventories db)).
Proof.
  intros Hok Hadmin Hd Hdonor Hs _ _ u result donor' credit.
  subst result donor' credit.
  assert (Hin : In "completed" Donation.statuses) by (simpl; tauto).
  split; [| split].
  - intros Hvalid Hu.
    rewrite (updateStatus_completed db user id body now d donor "completed"
               Hok Hadmin Hd Hdonor Hs Hin Hu eq_refl Hvalid).
    destruct (assign_fields user body (Donation.hydrate d))
      as (_ & _ & _ & Hst & Hun).
    simpl in Hun. simpl.
    split; [reflexivity |]. split; [| split; [| split]].
    + eexists. rewrite lookup_insert_eq. split; [reflexivity |].
      split; [now rewrite Hst | exact Hun].
    + reflexivity.
    + intros stock Hstock _. rewrite Hstock. reflexivity.
    + intros Hnone. rewrite Hnone. reflexivity.
  - intros Hinvalid.
    apply (updateStatus_donor_refused db user id body now d donor
             Hadmin Hd Hdonor Hs Hinvalid).
  - intros Hvalid Hmany.
    rewrite (updateStatus_units_refused db user id body now d donor
               Hok Hadmin Hd Hdonor Hs Hvalid Hmany). simpl.
    split; [reflexivity |]. split; [reflexivity |].
    split; [reflexivity |]. split.
    + intros stock Hstock _. rewrite Hstock. reflexivity.
    + intros Hnone. rewrite Hnone. reflexivity.
Qed.

Lemma complete_donation_effects_witness :
  ((BloodInventory.unitsAvailable
      <$> bloodinventories
            (snd (blood.updateStatus admin "don1"
                    (donationStatus "completed" (Some 2)) t0 sampleDb))
          !! "O+") = Some 7
   /\ (User.donationCount
         <$> users
               (snd (blood.updateStatus admin "don1"
                       (donationStatus "completed" (Some 2)) t0 sampleDb))
             !! "u1") = Some 2)
  /\ blood.updateStatus admin "don1" (donationStatus "completed" (Some 2)) t0
       incompleteDonorDb
     = (serverError "Failed to update donation status" ValidationError,
        incompleteDonorDb)
  /\ (code (fst (blood.updateStatus admin "don1"
                   (donationStatus "completed" (Some 3)) t0 sampleDb)) = 500
      /\ donations
           (snd (blood.updateStatus admin "don1"
                   (donationStatus "completed" (Some 3)) t0 sampleDb))
         = donations sampleDb
      /\ (BloodInventory.unitsAvailable
            <$> bloodinventories
                  (snd (blood.updateStatus admin "don1"
                          (donationStatus "completed" (Some 3)) t0 sampleDb))
                !! "O+") = Some 8).
Proof.
  assert (Hcount : isSafeInteger (User.donationCount (donorAt None)))
    by (unfold isSafeInteger, maxSafeInteger; simpl; lia).
  assert (Hcount' : isSafeInteger (User.donationCount (donorAt None) + 1))
    by (unfold isSafeInteger, maxSafeInteger; simpl; lia).
  split; [| split].
  - assert (Hu : 1 <= 2 <= 2) by lia.
    destruct (proj1 (complete_donation_effects sampleDb admin "don1"
                       (donationStatus "completed" (Some 2)) t0
                       (donationIn "scheduled") (donorAt None) DbOk_sampleDb
                       eq_refl eq_refl eq_refl eq_refl Hcount Hcount')
                eq_refl Hu)
      as (_ & _ & Husers & Hstock & _).
    split.
    + rewrite (Hstock stockOPlus eq_refl); [| unfold isSafeInteger,
        maxSafeInteger; simpl; lia].
      rewrite lookup_insert_eq. reflexivity.
    + rewrite Husers. vm_compute. reflexivity.
  - apply (proj1 (proj2 (complete_donation_effects incompleteDonorDb admin
                           "don1" (donationStatus "completed" (Some 2)) t0
                           (donationIn "scheduled") incompleteDonor
                           DbOk_incompleteDonorDb eq_refl eq_refl eq_refl
                           eq_refl Hcount Hcount'))).
    reflexivity.
  - assert (Hmany : 2 < 3) by lia.
    destruct (proj2 (proj2 (complete_donation_effects sampleDb admin "don1"
                              (donationStatus "completed" (Some 3)) t0
                              (donationIn "scheduled") (donorAt None)
                              DbOk_sampleDb eq_refl eq_refl eq_refl eq_refl
                              Hcount Hcount'))
                eq_refl Hmany)
      as (Hcode & Hdonations & _ & Hstock & _).
    split; [exact Hcode |]. split; [exact Hdonations |].
    rewrite (Hstock stockOPlus eq_refl); [| unfold isSafeInteger,
      maxSafeInteger; simpl; lia].
    rewrite lookup_insert_eq. reflexivity.
Defined.

(** ** The model on the sample data *)

(** The first listing of an empty inventory seeds the eight records and
    returns them by blood type. *)
Example getAll_seeds :
  match data (fst (inventory.getAll t0 emptyDb)) with
  | InventoryList records =>
      map BloodInventory.bloodType records
      = ["A+"; "A-"; "AB+"; "AB-"; "B+"; "B-"; "O+"; "O-"]
      /\ Forall (fun r => r = BloodInventory.create
                                (BloodInventory.bloodType r) t0) records
  | _ => False
  end.
Proof.
  vm_compute. split; [reflexivity |]. repeat constructor.
Qed.

(** A second listing returns what is stored and seeds nothing. *)
Example getAll_keeps :
  inventory.getAll t0 sampleDb
  = ({| code := 200; success := true; message := None;
        data := InventoryList [stockOPlus] |}, sampleDb).
Proof. vm_compute; reflexivity. Qed.

(** Five units under a threshold of ten are low stock; twenty more make
    twenty-five, which are not. *)
Example addUnits_scenario :
  BloodInventory.isLowStock stockOPlus = true
  /\ (BloodInventory.unitsAvailable
        <$> bloodinventories (snd (inventory.addUnits admin addTwenty t0
                                     sampleDb)) !! "O+") = Some 25
  /\ (BloodInventory.isLowStock
        <$> bloodinventories (snd (inventory.addUnits admin addTwenty t0
                                     sampleDb)) !! "O+") = Some false
  /\ message (fst (inventory.addUnits admin addTwenty t0 sampleDb))
     = Some "Added 20 units of O+ blood".
Proof. repeat split; vm_compute; reflexivity. Qed.

(** Only an admin may write to the inventory. *)
Example addUnits_forbidden :
  inventory.addUnits recipient addTwenty t0 sampleDb
  = (failure 403 "Access denied. Insufficient permissions.", sampleDb).
Proof. vm_compute; reflexivity. Qed.

(** The states the handlers reach from the empty database are valid and
    hold no negative stock. *)
Lemma reachable_ok (ops : list Op) :
  DbOk (run ops emptyDb) /\ nonNegative (run ops emptyDb).
Proof.
  split.
  - apply DbOk_run, DbOk_emptyDb.
  - apply nonNegative_run. apply map_Forall_empty.
Qed.

(** * Further properties of the routes *)

(** ** The admin gate *)

Lemma includes_admin role :
  includes ["admin"] role = true <-> role = "admin".
Proof. rewrite includes_In. simpl. intuition congruence. Qed.

Lemma tryCatch_not_403 body msg db :
  (forall r db', body db = (inr r, db') -> code r <> 403) ->
  code (fst (tryCatch body msg db)) <> 403.
Proof.
  intros H. unfold tryCatch. destruct (body db) as [[e | r] db'] eqn:E; simpl.
  - discriminate.
  - now apply (H r db').
Qed.

Lemma authorize_eval roles user next db :
  authorize roles user next db
  = if includes roles (User.role user) then next db else (forbidden, db).
Proof. reflexivity. Qed.

Ltac run_task :=
  repeat first
    [ progress (unfold bind, ret, throw, Query.BloodRequest_findById,
                Query.BloodRequest_save, Query.BloodInventory_findOne,
                Query.BloodInventory_save, Query.Donation_findById,
                Query.Donation_save, Query.User_findById, Query.User_save,
                Query.BloodRequest_findByIdAndDelete,
                Query.BloodRequest_insert, Query.Donation_insert in *)
    | progress simpl in *
    | case_match
    | progress simplify_eq ].

Section AdminGate.
Variables (user : User.t) (db : Db).

Lemma gate_closed (next : Db -> Response * Db) :
  User.role user <> "admin" ->
  authorize ["admin"] user next db = (forbidden, db).
Proof.
  intros Hne. rewrite authorize_eval.
  destruct (includes ["admin"] (User.role user)) eqn:E; [| reflexivity].
  apply includes_admin in E. contradiction.
Qed.

Lemma gate_open (next : Db -> Response * Db) :
  User.role user = "admin" -> authorize ["admin"] user next db = next db.
Proof.
  intros H. rewrite authorize_eval.
  now rewrite (proj2 (includes_admin _) H).
Qed.

Lemma gate_iff (body : Task Response) (msg : string) :
  (forall r db', body db = (inr r, db') -> code r <> 403) ->
  code (fst (authorize ["admin"] user (tryCatch body msg) db)) = 403
  <-> User.role user <> "admin".
Proof.
  intros Hbody. split.
  - intros H Hadmin. rewrite (gate_open _ Hadmin) in H.
    now apply (tryCatch_not_403 body msg db Hbody).
  - intros Hne. now rewrite (gate_closed _ Hne).
Qed.

(** X1. The four handlers behind [authorize('admin')] (the status
    updates of requests and of donations, [PATCH /inventory/:bloodType]
    and [POST /inventory/add-units]) answer 403 exactly when the caller's
    role is not [admin], whatever the arguments and the database; and a
    caller who is not an admin gets "Access denied. Insufficient
    permissions." from each of them with the database unchanged. *)
Theorem admin_gate :
  (forall id body now,
     code (fst (requests.updateStatus user id body now db)) = 403
     <-> User.role user <> "admin")
  /\ (forall id body now,
        code (fst (blood.updateStatus user id body now db)) = 403
        <-> User.role user <> "admin")
  /\ (forall bloodType body now,
        code (fst (inventory.update user bloodType body now db)) = 403
        <-> User.role user <> "admin")
  /\ (forall body now,
        code (fst (inventory.addUnits user body now db)) = 403
        <-> User.role user <> "admin")
  /\ (User.role user <> "admin" ->
      forall op,
        match op with
        | UpdateRequestStatus u _ _ _ | UpdateDonationStatus u _ _ _
        | UpdateInventory u _ _ _ | AddUnits u _ _ => u = user
        | _ => False
        end ->
        handle op db = (forbidden, db)).
Proof.
  split; [| split; [| split; [| split]]].
  - intros id body now. apply gate_iff. intros r db' Hrun.
    run_task; discriminate.
  - intros id body now. apply gate_iff. intros r db' Hrun.
    run_task; discriminate.
  - intros bt body now. apply gate_iff. intros r db' Hrun.
    run_task; discriminate.
  - intros body now. apply gate_iff. intros r db' Hrun.
    run_task; discriminate.
  - intros Hne op Hop.
    destruct op; try contradiction; subst; simpl; now apply gate_closed.
Qed.
End AdminGate.

Lemma admin_gate_witness :
  code (fst (inventory.addUnits recipient addTwenty t0 sampleDb)) = 403
  /\ handle (UpdateRequestStatus recipient "req2" fulfilled t0) sampleDb
     = (forbidden, sampleDb).
Proof.
  destruct (admin_gate recipient sampleDb) as (_ & _ & _ & Hadd & Hall).
  split.
  - apply (Hadd addTwenty t0). discriminate.
  - apply Hall; [discriminate | reflexivity].
Defined.

(** ** Status updates of a request, path by path *)

Lemma strictEq_true v s : strictEq v s = true <-> v = Some s.
Proof.
  unfold strictEq. destruct v as [x |]; [| split; discriminate].
  rewrite String.eqb_eq. split; congruence.
Qed.

Lemma strictEq_false v s : strictEq v s = false <-> v <> Some s.
Proof.
  rewrite <- strictEq_true. destruct (strictEq v s); split; congruence.
Qed.

(** The validators of a request read four paths only. *)
Lemma BloodRequest_validate_paths r r' s :
  BloodRequest.bloodType r' = BloodRequest.bloodType r ->
  BloodRequest.unitsNeeded r' = BloodRequest.unitsNeeded r ->
  BloodRequest.urgency r' = BloodRequest.urgency r ->
  BloodRequest.status r' = Some s ->
  BloodRequest.validate r = true ->
  BloodRequest.validate r' = includes BloodRequest.statuses s.
Proof.
  unfold BloodRequest.validate. intros -> -> -> -> H.
  apply andb_prop in H as [H _]. apply andb_prop in H as [H Hurg].
  apply andb_prop in H as [H Hmax]. apply andb_prop in H as [Hbt Hmin].
  simpl. now rewrite Hbt, Hmin, Hmax, Hurg.
Qed.

Section RequestStatus.
#[local] Arguments strictEq _ _ : simpl never.
Variables (db : Db) (user : User.t) (id : ObjectId).
Variables (body : requests.StatusBody) (now : Date) (r : BloodRequest.t).
Hypothesis Hok : DbOk db.
Hypothesis Hadmin : User.role user = "admin".
Hypothesis Hr : bloodrequests db !! id = Some r.

(** The document the handler holds before any query for the inventory. *)
Let r' : BloodRequest.t :=
  BloodRequest.set_notes
    (orString (requests.notes body) (BloodRequest.notes r))
    (BloodRequest.set_status (requests.status body) (BloodRequest.hydrate r)).

Lemma updateStatus_plain s :
  requests.status body = Some s ->
  s <> "approved" -> s <> "fulfilled" ->
  requests.updateStatus user id body now db
  = if includes BloodRequest.statuses s
    then (json 200 ("Request " +:+ s +:+ " successfully") (RequestData r'),
          set_bloodrequests (<[id := r']> (bloodrequests db)) db)
    else (serverError "Failed to update request status" ValidationError, db).
Proof.
  intros Hs Hna Hnf.
  pose proof (ok_requests db Hok id r Hr) as Hvr. simpl in Hvr.
  unfold requests.updateStatus, authorize. rewrite Hadmin.
  change (includes ["admin"] "admin") with true. cbv iota.
  unfold tryCatch, bind, Query.BloodRequest_findById. rewrite Hr. simpl.
  rewrite (proj2 (strictEq_false _ "approved")),
    (proj2 (strictEq_false _ "fulfilled")) by (rewrite Hs; congruence).
  unfold ret, Query.BloodRequest_save. fold r'.
  rewrite (BloodRequest_validate_paths r r' s); try reflexivity;
    [| subst r'; simpl; now rewrite Hs | exact Hvr].
  rewrite Hs. simpl.
  destruct (includes BloodRequest.statuses s); reflexivity.
Qed.

Lemma updateStatus_approved :
  requests.status body = Some "approved" ->
  requests.updateStatus user id body now db
  = (json 200 "Request approved successfully"
       (RequestData (BloodRequest.set_approved (User._id user) now r')),
     set_bloodrequests
       (<[id := BloodRequest.set_approved (User._id user) now r']>
          (bloodrequests db)) db).
Proof.
  intros Hs.
  pose proof (ok_requests db Hok id r Hr) as Hvr. simpl in Hvr.
  unfold requests.updateStatus, authorize. rewrite Hadmin.
  change (includes ["admin"] "admin") with true. cbv iota.
  unfold tryCatch, bind, Query.BloodRequest_findById. rewrite Hr. simpl.
  rewrite (proj2 (strictEq_true _ "approved") Hs),
    (proj2 (strictEq_false _ "fulfilled")) by (rewrite Hs; congruence).
  unfold ret, Query.BloodRequest_save. fold r'.
  rewrite (BloodRequest_validate_paths r _ "approved"); try reflexivity;
    [| subst r'; simpl; now rewrite Hs | exact Hvr].
  rewrite Hs. reflexivity.
Qed.

Lemma fulfil_no_record :
  requests.status body = Some "fulfilled" ->
  bloodinventories db !! BloodRequest.bloodType r = None ->
  requests.updateStatus user id body now db
  = (json 200 "Request fulfilled successfully"
       (RequestData (fulfilledRequest (requests.notes body) now r)),
     set_bloodrequests
       (<[id := fulfilledRequest (requests.notes body) now r]>
          (bloodrequests db)) db).
Proof.
  intros Hs Hnone.
  pose proof (ok_requests db Hok id r Hr) as Hvr. simpl in Hvr.
  unfold requests.updateStatus, authorize. rewrite Hadmin.
  change (includes ["admin"] "admin") with true. cbv iota.
  unfold tryCatch, bind, Query.BloodRequest_findById. rewrite Hr. simpl.
  rewrite Hs. change (strictEq (Some "fulfilled") "approved") with false.
  change (strictEq (Some "fulfilled") "fulfilled") with true. simpl.
  unfold Query.BloodInventory_findOne. simpl. rewrite Hnone.
  fold (fulfilledRequest (requests.notes body) now r).
  unfold ret, Query.BloodRequest_save.
  rewrite (validate_fulfilledRequest _ now r Hvr). reflexivity.
Qed.

End RequestStatus.

(** ** Failed calls and untouched collections *)

Lemma DbOk_noStockDb : DbOk noStockDb.
Proof.
  destruct DbOk_sampleDb as [Hu Hr Hd _].
  constructor; [exact Hu | exact Hr | exact Hd | apply map_Forall_empty].
Qed.

(** X2. A call that makes at most one write (every call but a
    request's status update to [fulfilled] and a donation's status update
    to [completed], which save the stock, and the donor, before the
    document itself) either answers 200 or 201 or leaves the database
    exactly as it was: whatever makes such a call fail (400, 403, 404,
    500), it has written nothing. *)
Theorem failed_call_writes_nothing (op : Op) (db : Db) :
  writesOnce op = true ->
  code (fst (handle op db)) = 200
  \/ code (fst (handle op db)) = 201
  \/ snd (handle op db) = db.
Proof.
  intros Hop. destruct op; simpl in *.
  - rewrite create_eval. repeat case_match; auto.
  - apply negb_true_iff in Hop.
    unfold requests.updateStatus, authorize, tryCatch.
    run_task; auto; congruence.
  - unfold requests.deleteRequest, tryCatch. run_task; auto.
  - unfold blood.donate, tryCatch. run_task; auto.
  - apply negb_true_iff in Hop.
    unfold blood.updateStatus, authorize, tryCatch.
    run_task; auto; congruence.
  - unfold inventory.getAll, tryCatch, inventory.findSorted,
      inventory.insertMany. run_task; auto.
  - unfold inventory.update, authorize, tryCatch. run_task; auto.
  - unfold inventory.addUnits, authorize, tryCatch. run_task; auto.
Qed.

Lemma failed_call_writes_nothing_witness :
  (code (fst (handle (AddUnits admin takeTwenty t0) sampleDb)) = 500
   /\ snd (handle (AddUnits admin takeTwenty t0) sampleDb) = sampleDb)
  /\ (code (fst (handle (UpdateDonationStatus admin "don1"
                           (donationStatus "cancelled" (Some 3)) t0)
                   sampleDb)) = 500
      /\ snd (handle (UpdateDonationStatus admin "don1"
                        (donationStatus "cancelled" (Some 3)) t0) sampleDb)
         = sampleDb).
Proof.
  split.
  - split; [vm_compute; reflexivity |].
    destruct (failed_call_writes_nothing (AddUnits admin takeTwenty t0)
                sampleDb eq_refl) as [H | [H | H]].
    + vm_compute in H. discriminate H.
    + vm_compute in H. discriminate H.
    + exact H.
  - split; [vm_compute; reflexivity |].
    destruct (failed_call_writes_nothing
                (UpdateDonationStatus admin "don1"
                   (donationStatus "cancelled" (Some 3)) t0)
                sampleDb eq_refl) as [H | [H | H]].
    + vm_compute in H. discriminate H.
    + vm_compute in H. discriminate H.
    + exact H.
Defined.

(** X3. What each handler leaves alone. Creating and deleting a request
    touch only the requests; scheduling a donation touches only the
    donations; the three inventory handlers touch only the inventory; the
    status update of a request never touches users or donations, and
    touches the inventory only for [fulfilled]; the status update of a
    donation never touches the requests, and touches users and inventory
    only for [completed]. *)
Theorem handlers_frame (op : Op) (db : Db) :
  let db' := snd (handle op db) in
  match op with
  | CreateRequest _ _ _ | DeleteRequest _ _ =>
      users db' = users db /\ donations db' = donations db
      /\ bloodinventories db' = bloodinventories db
  | UpdateRequestStatus _ _ body _ =>
      users db' = users db /\ donations db' = donations db
      /\ (requests.status body <> Some "fulfilled" ->
          bloodinventories db' = bloodinventories db)
  | Donate _ _ _ _ =>
      users db' = users db /\ bloodrequests db' = bloodrequests db
      /\ bloodinventories db' = bloodinventories db
  | UpdateDonationStatus _ _ body _ =>
      bloodrequests db' = bloodrequests db
      /\ (blood.status body <> Some "completed" ->
          users db' = users db
          /\ bloodinventories db' = bloodinventories db)
  | GetInventory _ | UpdateInventory _ _ _ _ | AddUnits _ _ _ =>
      users db' = users db /\ bloodrequests db' = bloodrequests db
      /\ donations db' = donations db
  end.
Proof.
  destruct op; simpl.
  - rewrite create_eval. repeat case_match; auto.
  - unfold requests.updateStatus, authorize, tryCatch.
    split; [| split].
    + run_task; auto.
    + run_task; auto.
    + intros Hne. apply strictEq_false in Hne. run_task; auto; congruence.
  - unfold requests.deleteRequest, tryCatch. run_task; auto.
  - unfold blood.donate, tryCatch. run_task; auto.
  - unfold blood.updateStatus, authorize, tryCatch.
    split.
    + run_task; auto.
    + intros Hne. apply strictEq_false in Hne. run_task; auto; congruence.
  - unfold inventory.getAll, tryCatch, inventory.findSorted,
      inventory.insertMany. run_task; auto.
  - unfold inventory.update, authorize, tryCatch. run_task; auto.
  - unfold inventory.addUnits, authorize, tryCatch. run_task; auto.
Qed.

Lemma handlers_frame_witness :
  users (snd (handle (UpdateRequestStatus admin "req2" approve t0) sampleDb))
  = users sampleDb
  /\ bloodinventories
       (snd (handle (UpdateRequestStatus admin "req2" approve t0) sampleDb))
     = bloodinventories sampleDb.
Proof.
  destruct (handlers_frame (UpdateRequestStatus admin "req2" approve t0)
              sampleDb) as (Husers & _ & Hstock).
  split; [exact Husers |]. apply Hstock. discriminate.
Defined.

(** ** Eligibility over time, missing documents, foreign requests *)

(** X4. For a user with a last donation, [checkEligibility] is true
    exactly from 4 838 400 000 ms (56 days) after the last donation on, and
    it is monotone in time: a user eligible now stays eligible at every
    later time. *)
Theorem eligibility_threshold (u : User.t) (last now : Date) :
  User.lastDonation u = Some last ->
  (User.checkEligibility u now = true <-> last + 4838400000 <= now)
  /\ (forall later, now <= later ->
        User.checkEligibility u now = true ->
        User.checkEligibility u later = true).
Proof.
  intros Hlast.
  assert (Hiff : forall t, User.checkEligibility u t = true
                           <-> last + 4838400000 <= t).
  { intros t. rewrite (checkEligibility_days u last t Hlast), Z.leb_le.
    split; intros H.
    - pose proof (Z.mul_div_le (t - last) 86400000 ltac:(lia)). lia.
    - apply Z.div_le_lower_bound; lia. }
  split; [apply Hiff |].
  intros later Hle H. apply Hiff. apply Hiff in H. lia.
Qed.

Lemma eligibility_threshold_witness :
  User.checkEligibility (donorAt (Some t0)) (t0 + 4838400000) = true
  /\ User.checkEligibility (donorAt (Some t0)) (t0 + 4838399999) <> true.
Proof.
  split.
  - apply (proj1 (eligibility_threshold (donorAt (Some t0)) t0
                    (t0 + 4838400000) eq_refl)). lia.
  - intros H.
    apply (proj1 (eligibility_threshold (donorAt (Some t0)) t0
                    (t0 + 4838399999) eq_refl)) in H. lia.
Defined.

(** X5. An id that names no stored document: deleting the request and,
    for an admin, updating its status answer 404 "Request not found"; an
    admin's status update of a donation answers 404 "Donation not found";
    the database is unchanged in each case. *)
Theorem missing_document_404 (db : Db) (user : User.t) (id : ObjectId) :
  (bloodrequests db !! id = None ->
   requests.deleteRequest user id db = (failure 404 "Request not found", db)
   /\ (User.role user = "admin" ->
       forall body now,
         requests.updateStatus user id body now db
         = (failure 404 "Request not found", db)))
  /\ (donations db !! id = None ->
      User.role user = "admin" ->
      forall body now,
        blood.updateStatus user id body now db
        = (failure 404 "Donation not found", db)).
Proof.
  split.
  - intros Hnone. split.
    + unfold requests.deleteRequest, tryCatch, bind,
        Query.BloodRequest_findById. now rewrite Hnone.
    + intros Hadmin body now.
      unfold requests.updateStatus, authorize. rewrite Hadmin.
      change (includes ["admin"] "admin") with true. cbv iota.
      unfold tryCatch, bind, Query.BloodRequest_findById. now rewrite Hnone.
  - intros Hnone Hadmin body now.
    unfold blood.updateStatus, authorize. rewrite Hadmin.
    change (includes ["admin"] "admin") with true. cbv iota.
    unfold tryCatch, bind, Query.Donation_findById. now rewrite Hnone.
Qed.

Lemma missing_document_404_witness :
  requests.deleteRequest recipient "req0" sampleDb
  = (failure 404 "Request not found", sampleDb)
  /\ blood.updateStatus admin "don0" (donationStatus "completed" None) t0
       sampleDb
     = (failure 404 "Donation not found", sampleDb).
Proof.
  split.
  - apply (proj1 (missing_document_404 sampleDb recipient "req0")).
    reflexivity.
  - apply (proj2 (missing_document_404 sampleDb admin "don0"));
      reflexivity.
Defined.

(** X6. A caller who is neither an admin nor the requester of a stored
    request cannot delete it: the call answers 403 "Access denied" and the
    database is unchanged, whatever the request's status. *)
Theorem delete_by_stranger_forbidden (db : Db) (user : User.t)
    (id : ObjectId) (r : BloodRequest.t) :
  bloodrequests db !! id = Some r ->
  User.role user <> "admin" ->
  BloodRequest.requester r <> User._id user ->
  requests.deleteRequest user id db = (failure 403 "Access denied", db).
Proof.
  intros Hr Hrole Hown.
  unfold requests.deleteRequest, tryCatch, bind, Query.BloodRequest_findById.
  rewrite Hr. simpl.
  rewrite (proj2 (String.eqb_neq _ _) Hrole),
    (proj2 (String.eqb_neq _ _) Hown). reflexivity.
Qed.

Lemma delete_by_stranger_forbidden_witness :
  requests.deleteRequest (donorAt None) "req2" sampleDb
  = (failure 403 "Access denied", sampleDb).
Proof.
  apply (delete_by_stranger_forbidden sampleDb (donorAt None) "req2"
           (requestFor 2 "pending") eq_refl); discriminate.
Defined.

(** ** Sequences of two calls *)

(** X7. Directly after an admin has completed a donation (its donor's
    document passing the validators of the user schema, 1 or 2 units), the
    donor's eligibility is decided by that donation's date alone, whatever
    the donor's last donation was before: a scheduling call of the donor
    served next is refused with 400 and the not-eligible message exactly
    when it comes fewer than 56 days after the completed donation's date,
    and a refused call stores nothing. *)
Theorem completed_donor_waits (db : Db) (user caller : User.t)
    (id newId : ObjectId) (body : blood.StatusBody) (now later : Date)
    (d : Donation.t) (donor : User.t) (next : Donation.fields) :
  DbOk db ->
  User.role user = "admin" ->
  donations db !! id = Some d ->
  users db !! Donation.donor d = Some donor ->
  User.validate donor = true ->
  blood.status body = Some "completed" ->
  1 <= default (Donation.unitsCollected d)
         (truthyNumber (blood.unitsCollected body)) <= 2 ->
  User._id caller = Donation.donor d ->
  let db' := snd (blood.updateStatus user id body now db) in
  (User.lastDonation <$> users db' !! Donation.donor d)
  = Some (Some (Donation.donationDate d))
  /\ (later - Donation.donationDate d < 56 * 86400000 ->
      blood.donate caller next later newId db'
      = (failure 400 blood.notEligible, db'))
  /\ (56 * 86400000 <= later - Donation.donationDate d ->
      code (fst (blood.donate caller next later newId db')) <> 400).
Proof.
  intros Hok Hadmin Hd Hdonor Hvalid Hs Hu Hcaller db'. subst db'.
  assert (Hin : In "completed" Donation.statuses) by (simpl; tauto).
  rewrite (updateStatus_completed db user id body now d donor "completed"
             Hok Hadmin Hd Hdonor Hs Hin Hu eq_refl Hvalid). simpl.
  assert (Hstored : <[Donation.donor d :=
                        donated (Donation.donationDate d) now donor]>
                      (users db) !! User._id caller
                    = Some (donated (Donation.donationDate d) now donor)).
  { rewrite Hcaller. apply lookup_insert_eq. }
  split; [now rewrite lookup_insert_eq |].
  split.
  - intros Hgap.
    rewrite (donate_eval _ caller next later newId
               (donated (Donation.donationDate d) now donor));
      [| exact Hstored].
    rewrite (checkEligibility_days
               (donated (Donation.donationDate d) now donor)
               (Donation.donationDate d) later eq_refl).
    assert ((56 <=? (later - Donation.donationDate d) / 86400000) = false)
      as ->; [| reflexivity].
    apply Z.leb_gt. apply Z.div_lt_upper_bound; lia.
  - intros Hgap.
    rewrite (donate_eval _ caller next later newId
               (donated (Donation.donationDate d) now donor));
      [| exact Hstored].
    rewrite (checkEligibility_days
               (donated (Donation.donationDate d) now donor)
               (Donation.donationDate d) later eq_refl).
    assert ((56 <=? (later - Donation.donationDate d) / 86400000) = true)
      as ->.
    { apply Z.leb_le. apply Z.div_le_lower_bound; lia. }
    repeat case_match; simpl; discriminate.
Qed.

Lemma completed_donor_waits_witness :
  blood.donate (donorAt None) (donateBody None) (t0 + 86400000) "don9"
    (snd (blood.updateStatus admin "don1"
            (donationStatus "completed" (Some 1)) t0 sampleDb))
  = (failure 400 blood.notEligible,
     snd (blood.updateStatus admin "don1"
            (donationStatus "completed" (Some 1)) t0 sampleDb))
  /\ code (fst (blood.donate (donorAt None) (donateBody None)
                  (t0 + 57 * 86400000) "don9"
                  (snd (blood.updateStatus admin "don1"
                          (donationStatus "completed" (Some 1)) t0
                          sampleDb)))) <> 400.
Proof.
  assert (Hu : 1 <= default (Donation.unitsCollected (donationIn "scheduled"))
                      (truthyNumber
                         (blood.unitsCollected
                            (donationStatus "completed" (Some 1)))) <= 2)
    by (simpl; lia).
  split.
  - apply (proj1 (proj2 (completed_donor_waits sampleDb admin (donorAt None)
                           "don1" "don9" (donationStatus "completed" (Some 1))
                           t0 (t0 + 86400000) (donationIn "scheduled")
                           (donorAt None) (donateBody None) DbOk_sampleDb
                           eq_refl eq_refl eq_refl eq_refl eq_refl Hu
                           eq_refl))).
    simpl. unfold t0. lia.
  - apply (proj2 (proj2 (completed_donor_waits sampleDb admin (donorAt None)
                           "don1" "don9" (donationStatus "completed" (Some 1))
                           t0 (t0 + 57 * 86400000) (donationIn "scheduled")
                           (donorAt None) (donateBody None) DbOk_sampleDb
                           eq_refl eq_refl eq_refl eq_refl eq_refl Hu
                           eq_refl))).
    simpl. unfold t0. lia.
Defined.



(** ** Approval, fulfilment without stock, statuses outside the enum *)

(** X9. An admin's update of a stored request to [approved] answers 200
    and stores the request with status [approved], [approvedBy] the
    admin's id and [approvedDate] the time of the call; the fulfilment
    date, the units and the requester are kept and the inventory is not
    touched. *)
Theorem approve_request_effects (db : Db) (user : User.t) (id : ObjectId)
    (body : requests.StatusBody) (now : Date) (r : BloodRequest.t) :
  DbOk db ->
  User.role user = "admin" ->
  bloodrequests db !! id = Some r ->
  requests.status body = Some "approved" ->
  let result := requests.updateStatus user id body now db in
  code (fst result) = 200
  /\ (exists r', bloodrequests (snd result) !! id = Some r'
        /\ BloodRequest.status r' = Some "approved"
        /\ BloodRequest.approvedBy r' = Some (User._id user)
        /\ BloodRequest.approvedDate r' = Some now
        /\ BloodRequest.fulfilledDate r' = BloodRequest.fulfilledDate r
        /\ BloodRequest.unitsNeeded r' = BloodRequest.unitsNeeded r
        /\ BloodRequest.requester r' = BloodRequest.requester r)
  /\ bloodinventories (snd result) = bloodinventories db.
Proof.
  intros Hok Hadmin Hr Hs result. subst result.
  rewrite (updateStatus_approved db user id body now r Hok Hadmin Hr Hs).
  simpl. split; [reflexivity |]. split; [| reflexivity].
  eexists. rewrite lookup_insert_eq. split; [reflexivity |]. simpl.
  rewrite Hs. done.
Qed.

Lemma approve_request_effects_witness :
  code (fst (requests.updateStatus admin "req2" approve t0 sampleDb)) = 200
  /\ bloodinventories
       (snd (requests.updateStatus admin "req2" approve t0 sampleDb))
     = bloodinventories sampleDb.
Proof.
  destruct (approve_request_effects sampleDb admin "req2" approve t0
              (requestFor 2 "pending") DbOk_sampleDb eq_refl eq_refl
              eq_refl) as (Hcode & _ & Hstock).
  split; [exact Hcode | exact Hstock].
Defined.

(** X10. Fulfilling a request whose blood type has no inventory record
    still succeeds: the request is stored as [fulfilled] with its
    fulfilment date, and no record is created or changed. *)
Theorem fulfil_without_record (db : Db) (user : User.t) (id : ObjectId)
    (body : requests.StatusBody) (now : Date) (r : BloodRequest.t) :
  DbOk db ->
  User.role user = "admin" ->
  bloodrequests db !! id = Some r ->
  requests.status body = Some "fulfilled" ->
  bloodinventories db !! BloodRequest.bloodType r = None ->
  let result := requests.updateStatus user id body now db in
  code (fst result) = 200
  /\ (exists r', bloodrequests (snd result) !! id = Some r'
        /\ BloodRequest.status r' = Some "fulfilled"
        /\ BloodRequest.fulfilledDate r' = Some now)
  /\ bloodinventories (snd result) = bloodinventories db
  /\ bloodinventories (snd result) !! BloodRequest.bloodType r = None.
Proof.
  intros Hok Hadmin Hr Hs Hnone result. subst result.
  rewrite (fulfil_no_record db user id body now r Hok Hadmin Hr Hs Hnone).
  simpl. split; [reflexivity |]. split; [| split; [reflexivity | exact Hnone]].
  eexists. rewrite lookup_insert_eq. split; [reflexivity |]. done.
Qed.

Lemma fulfil_without_record_witness :
  code (fst (requests.updateStatus admin "req2" fulfilled t0 noStockDb)) = 200
  /\ bloodinventories
       (snd (requests.updateStatus admin "req2" fulfilled t0 noStockDb))
     !! "O+" = None.
Proof.
  destruct (fulfil_without_record noStockDb admin "req2" fulfilled t0
              (requestFor 2 "pending") DbOk_noStockDb eq_refl eq_refl
              eq_refl eq_refl) as (Hcode & _ & _ & Hnone).
  split; [exact Hcode | exact Hnone].
Defined.

(** X11. A status outside the schema's enum is refused by the
    validators when the document is saved: the status update of a stored
    request and that of a stored donation answer 500 with a
    [ValidationError] and leave the database unchanged. *)
Theorem unknown_status_refused (db : Db) (user : User.t) (id : ObjectId)
    (s : string) :
  DbOk db ->
  User.role user = "admin" ->
  (forall r notes now,
     bloodrequests db !! id = Some r ->
     ~ In s BloodRequest.statuses ->
     requests.updateStatus user id
       {| requests.status := Some s; requests.notes := notes |} now db
     = (serverError "Failed to update request status" ValidationError, db))
  /\ (forall d body now,
        donations db !! id = Some d ->
        blood.status body = Some s ->
        ~ In s Donation.statuses ->
        blood.updateStatus user id body now db
        = (serverError "Failed to update donation status" ValidationError,
           db)).
Proof.
  intros Hok Hadmin. split.
  - intros r notes now Hr Hout.
    assert (Hna : s <> "approved") by (intros ->; apply Hout; simpl; tauto).
    assert (Hnf : s <> "fulfilled") by (intros ->; apply Hout; simpl; tauto).
    rewrite (updateStatus_plain db user id
               {| requests.status := Some s; requests.notes := notes |}
               now r Hok Hadmin Hr s eq_refl Hna Hnf).
    destruct (includes BloodRequest.statuses s) eqn:E; [| reflexivity].
    apply includes_In in E. contradiction.
  - intros d body now Hd Hs Hout.
    assert (Hnc : s <> "completed") by (intros ->; apply Hout; simpl; tauto).
    unfold blood.updateStatus, authorize. rewrite Hadmin.
    change (includes ["admin"] "admin") with true. cbv iota.
    unfold tryCatch, bind, Query.Donation_findById. rewrite Hd. simpl.
    rewrite (proj2 (strictEq_false _ "completed")) by (rewrite Hs; congruence).
    unfold ret, Query.Donation_save.
    assert (Donation.validate (blood.assign user body (Donation.hydrate d))
            = false) as ->; [| reflexivity].
    destruct (assign_fields user body (Donation.hydrate d))
      as (_ & _ & _ & Hst & _).
    unfold Donation.validate. rewrite Hst, Hs. simpl.
    destruct (includes Donation.statuses s) eqn:E.
    + apply includes_In in E. contradiction.
    + apply andb_false_r.
Qed.

Lemma unknown_status_refused_witness :
  requests.updateStatus admin "req2"
    {| requests.status := Some "done"; requests.notes := None |} t0 sampleDb
  = (serverError "Failed to update request status" ValidationError, sampleDb)
  /\ blood.updateStatus admin "don1" (donationStatus "done" None) t0 sampleDb
     = (serverError "Failed to update donation status" ValidationError,
        sampleDb).
Proof.
  split.
  - apply (proj1 (unknown_status_refused sampleDb admin "req2" "done"
                    DbOk_sampleDb eq_refl)
             (requestFor 2 "pending") None t0 eq_refl).
    simpl. intuition discriminate.
  - apply (proj2 (unknown_status_refused sampleDb admin "don1" "done"
                    DbOk_sampleDb eq_refl)
             (donationIn "scheduled") (donationStatus "done" None) t0
             eq_refl eq_refl).
    simpl. intuition discriminate.
Defined.

(** X12. From a valid database, after any sequence of handler calls,
    every stored request has a blood type of the catalogue, between 1 and
    10 units, an urgency and a status of their enums; every stored
    donation has a blood type of the catalogue, 1 or 2 units and a status
    of its enum; every inventory record has the blood type it is found
    under, one of the catalogue. *)
Theorem stored_documents_stay_valid (db : Db) (ops : list Op) :
  DbOk db ->
  let db' := run ops db in
  (forall id r, bloodrequests db' !! id = Some r ->
     In (BloodRequest.bloodType r) bloodTypes
     /\ 1 <= BloodRequest.unitsNeeded r <= 10
     /\ In (BloodRequest.urgency r) BloodRequest.urgencies
     /\ In (BloodRequest.currentStatus r) BloodRequest.statuses)
  /\ (forall id d, donations db' !! id = Some d ->
        In (Donation.bloodType d) bloodTypes
        /\ 1 <= Donation.unitsCollected d <= 2
        /\ In (Donation.currentStatus d) Donation.statuses)
  /\ (forall bloodType i, bloodinventories db' !! bloodType = Some i ->
        BloodInventory.bloodType i = bloodType
        /\ In bloodType bloodTypes).
Proof.
  intros Hok db'. pose proof (DbOk_run ops db Hok) as [Hu Hr Hd Hi].
  fold db' in Hu, Hr, Hd, Hi.
  split; [| split].
  - intros id r Hl. specialize (Hr id r Hl). simpl in Hr.
    unfold BloodRequest.validate, BloodRequest.currentStatus in *.
    repeat (apply andb_prop in Hr as [Hr ?]).
    repeat match goal with
           | H : includes _ _ = true |- _ => apply includes_In in H
           | H : (_ <=? _) = true |- _ => apply Z.leb_le in H
           end.
    repeat split; try assumption.
    destruct (BloodRequest.status r) as [s |]; simpl in *.
    + match goal with H : includes _ _ = true |- _ =>
        now apply includes_In in H end.
    + tauto.
  - intros id d Hl. specialize (Hd id d Hl). simpl in Hd.
    unfold Donation.validate, Donation.currentStatus in *.
    repeat (apply andb_prop in Hd as [Hd ?]).
    repeat match goal with
           | H : includes _ _ = true |- _ => apply includes_In in H
           | H : (_ <=? _) = true |- _ => apply Z.leb_le in H
           end.
    repeat split; try assumption.
    destruct (Donation.status d) as [s |]; simpl in *.
    + match goal with H : includes _ _ = true |- _ =>
        now apply includes_In in H end.
    + tauto.
  - intros bt i Hl. destruct (Hi bt i Hl) as [Hk Hv].
    unfold BloodInventory.validate in Hv.
    apply andb_prop in Hv as [Hin Hnn].
    apply includes_In in Hin. rewrite Hk in Hin. auto.
Qed.

Lemma stored_documents_stay_valid_witness :
  bloodrequests (run sampleOps sampleDb) !! "req3"
  = Some (fulfilledRequest None t0 (requestFor 3 "approved"))
  /\ 1 <= BloodRequest.unitsNeeded
            (fulfilledRequest None t0 (requestFor 3 "approved")) <= 10.
Proof.
  assert (Hl : bloodrequests (run sampleOps sampleDb) !! "req3"
               = Some (fulfilledRequest None t0 (requestFor 3 "approved")))
    by (vm_compute; reflexivity).
  split; [exact Hl |].
  exact (proj1 (proj2 (proj1 (stored_documents_stay_valid sampleDb sampleOps
                                DbOk_sampleDb) "req3" _ Hl))).
Defined.

(** ** Users over a run *)

Lemma handle_users (op : Op) (db : Db) :
  DbOk db ->
  users (snd (handle op db)) = users db
  \/ exists id donor date now,
       users db !! id = Some donor
       /\ users (snd (handle op db))
          = <[id := donated date now donor]> (users db).
Proof.
  intros Hok. destruct op; simpl.
  - left. rewrite create_eval. repeat case_match; auto.
  - left. unfold requests.updateStatus, authorize, tryCatch. run_task; auto.
  - left. unfold requests.deleteRequest, tryCatch. run_task; auto.
  - left. unfold blood.donate, tryCatch. run_task; auto.
  - unfold blood.updateStatus, authorize, tryCatch.
    run_task; auto.
    all: right.
    all: match goal with
         | H : users ?d !! ?k = Some ?u |- _ =>
             pose proof (ok_users d Hok k u H) as Hkey; simpl in Hkey;
             exists k, u; do 2 eexists; split; [exact H |];
             rewrite Hkey; reflexivity
         end.
  - left. unfold inventory.getAll, tryCatch, inventory.findSorted,
      inventory.insertMany. run_task; auto.
  - left. unfold inventory.update, authorize, tryCatch. run_task; auto.
  - left. unfold inventory.addUnits, authorize, tryCatch. run_task; auto.
Qed.

(** X13. Over any sequence of calls of the handlers of the requests,
    blood and inventory routes, no user is removed, a user's
    [donationCount] never decreases, and the id, the role, the blood type
    and [isActive] of a user are never changed. *)
Theorem users_only_gain_donations (db : Db) (ops : list Op) :
  DbOk db ->
  forall id u, users db !! id = Some u ->
  exists u', users (run ops db) !! id = Some u'
    /\ User.donationCount u <= User.donationCount u'
    /\ User._id u' = User._id u
    /\ User.role u' = User.role u
    /\ User.bloodType u' = User.bloodType u
    /\ User.isActive u' = User.isActive u.
Proof.
  revert db. induction ops as [| op ops IH]; intros db Hok id u Hu; simpl.
  - exists u. repeat split; [exact Hu | lia].
  - assert (Hok' : DbOk (snd (handle op db)))
      by exact (DbOk_run [op] db Hok).
    destruct (handle_users op db Hok)
      as [Hsame | (k & donor & date & now & Hk & Hins)].
    + apply (IH _ Hok' id u). now rewrite Hsame.
    + destruct (decide (k = id)) as [-> | Hne].
      * assert (donor = u) as -> by congruence.
        destruct (IH _ Hok' id (donated date now u))
          as (u' & Hl & Hc & H1 & H2 & H3 & H4).
        { rewrite Hins. apply lookup_insert_eq. }
        exists u'. simpl in *. repeat split; try assumption. lia.
      * apply (IH _ Hok' id u). rewrite Hins. now rewrite lookup_insert_ne.
Qed.

Lemma users_only_gain_donations_witness :
  exists u',
    users (run [UpdateDonationStatus admin "don1"
                  (donationStatus "completed" (Some 1)) t0] sampleDb)
    !! "u1" = Some u'
    /\ User.donationCount (donorAt None) <= User.donationCount u'
    /\ User.role u' = "donor".
Proof.
  destruct (users_only_gain_donations sampleDb
              [UpdateDonationStatus admin "don1"
                 (donationStatus "completed" (Some 1)) t0]
              DbOk_sampleDb "u1" (donorAt None) eq_refl)
    as (u' & Hl & Hcount & _ & Hrole & _).
  exists u'. split; [exact Hl |]. split; [exact Hcount | exact Hrole].
Defined.

(** ** Listing the inventory *)

Lemma insertSorted_perm x l : inventory.insertSorted x l ≡ₚ x :: l.
Proof.
  induction l as [| y l IH]; simpl; [reflexivity |].
  destruct (String.leb _ _); [reflexivity |].
  rewrite IH. apply perm_swap.
Qed.

Lemma insertSorted_sorted x l :
  Sorted byBloodType l -> Sorted byBloodType (inventory.insertSorted x l).
Proof.
  induction l as [| y l IH]; intros Hs; simpl.
  - repeat constructor.
  - destruct (String.leb (BloodInventory.bloodType x)
                (BloodInventory.bloodType y)) eqn:E.
    + constructor; [exact Hs | constructor; exact E].
    + assert (Hyx : byBloodType y x).
      { destruct (String.leb_total (BloodInventory.bloodType x)
                    (BloodInventory.bloodType y)) as [H | H];
          [congruence | exact H]. }
      apply Sorted_inv in Hs as [Hs Hhd].
      constructor; [now apply IH |].
      destruct l as [| z l]; simpl.
      * constructor. exact Hyx.
      * destruct (String.leb (BloodInventory.bloodType x)
                    (BloodInventory.bloodType z)); constructor;
          [exact Hyx | now apply HdRel_inv in Hhd].
Qed.

Lemma findSorted_spec db :
  exists l, inventory.findSorted db = (inr l, db)
    /\ Sorted byBloodType l
    /\ l ≡ₚ (map_to_list (bloodinventories db)).*2.
Proof.
  unfold inventory.findSorted. eexists. split; [reflexivity |].
  induction ((map_to_list (bloodinventories db)).*2) as [| x l [IHs IHp]];
    simpl.
  - split; [constructor | reflexivity].
  - split; [now apply insertSorted_sorted |].
    rewrite insertSorted_perm. now constructor.
Qed.

Lemma seeded_lookup now bt :
  seeded now !! bt
  = if includes bloodTypes bt then Some (BloodInventory.create bt now)
    else None.
Proof.
  unfold seeded.
  destruct (includes bloodTypes bt) eqn:E.
  - apply includes_In in E. simpl in E.
    repeat (destruct E as [<- | E]; [vm_compute; reflexivity |]).
    destruct E.
  - assert (Hout : ~ In bt bloodTypes).
    { intros H. apply includes_In in H. congruence. }
    unfold bloodTypes in *. cbn [map foldr].
    repeat (rewrite lookup_insert_ne;
            [| intros Heq; apply Hout; cbn in Heq; subst bt; simpl; tauto]).
    apply lookup_empty.
Qed.

Lemma findSorted_empty_iff db l :
  inventory.findSorted db = (inr l, db) ->
  (Z.of_nat (length l) =? 0) = true <-> bloodinventories db = ∅.
Proof.
  intros Hfind.
  destruct (findSorted_spec db) as (l' & Hfind' & _ & Hperm).
  assert (l' = l) as -> by congruence.
  rewrite Z.eqb_eq, (Permutation_length Hperm), length_fmap.
  rewrite <- map_to_list_empty_iff.
  destruct (map_to_list (bloodinventories db)); simpl; split;
    intros H; try reflexivity; try discriminate; lia.
Qed.

Lemma getAll_nonempty db now :
  bloodinventories db <> ∅ ->
  exists l, inventory.getAll now db = (listing l, db)
    /\ Sorted byBloodType l
    /\ l ≡ₚ (map_to_list (bloodinventories db)).*2.
Proof.
  intros Hne.
  destruct (findSorted_spec db) as (l & Hfind & Hsorted & Hperm).
  exists l. split; [| now split].
  unfold inventory.getAll, tryCatch, bind. rewrite Hfind.
  destruct (Z.of_nat (length l) =? 0) eqn:E; [| reflexivity].
  apply (findSorted_empty_iff db l Hfind) in E. contradiction.
Qed.

Lemma getAll_empty db now :
  bloodinventories db = ∅ ->
  exists l,
    inventory.getAll now db = (listing l, set_bloodinventories (seeded now) db)
    /\ Sorted byBloodType l
    /\ l ≡ₚ (map_to_list (seeded now)).*2.
Proof.
  intros Hempty.
  destruct (findSorted_spec db) as (l & Hfind & _ & _).
  destruct (findSorted_spec (set_bloodinventories (seeded now) db))
    as (l' & Hfind' & Hsorted & Hperm).
  exists l'. split; [| now split].
  unfold inventory.getAll, tryCatch, bind. rewrite Hfind.
  rewrite (proj2 (findSorted_empty_iff db l Hfind) Hempty).
  unfold inventory.insertMany.
  assert (forallb BloodInventory.validate
            (map (fun type => BloodInventory.create type now) bloodTypes)
          = true) as -> by reflexivity.
  rewrite Hempty. fold (seeded now). rewrite Hfind'. reflexivity.
Qed.

(** X14. [GET /inventory] always answers 200. On an empty inventory it
    stores one record with the schema defaults for each of the eight
    blood types and nothing else; on any other inventory it changes
    nothing; a second call never changes what the first left. The list it
    answers with is the stored records after the call, sorted by blood
    type. *)
Theorem getAll_seeds_once (db : Db) (now : Date) :
  let result := inventory.getAll now db in
  code (fst result) = 200
  /\ (bloodinventories db = ∅ ->
      forall bt,
        bloodinventories (snd result) !! bt
        = if includes bloodTypes bt then Some (BloodInventory.create bt now)
          else None)
  /\ (bloodinventories db <> ∅ -> snd result = db)
  /\ (forall later,
        snd (inventory.getAll later (snd result)) = snd result)
  /\ (exists records,
        data (fst result) = InventoryList records
        /\ Sorted byBloodType records
        /\ records ≡ₚ (map_to_list (bloodinventories (snd result))).*2).
Proof.
  intros result. subst result.
  assert (Hseeded : forall t, seeded t <> ∅).
  { intros t H. pose proof (seeded_lookup t "A+") as Hl.
    rewrite H, lookup_empty in Hl. discriminate Hl. }
  destruct (decide (bloodinventories db = ∅)) as [Hempty | Hne].
  - destruct (getAll_empty db now Hempty) as (l & -> & Hsorted & Hperm).
    simpl. split; [reflexivity |]. split; [| split; [| split]].
    + intros _ bt. apply seeded_lookup.
    + intros Hne. contradiction.
    + intros later.
      destruct (getAll_nonempty (set_bloodinventories (seeded now) db) later)
        as (l' & -> & _); [apply Hseeded | reflexivity].
    + exists l. now repeat split.
  - destruct (getAll_nonempty db now Hne) as (l & -> & Hsorted & Hperm).
    simpl. split; [reflexivity |]. split; [| split; [| split]].
    + intros Hempty. contradiction.
    + reflexivity.
    + intros later.
      destruct (getAll_nonempty db later Hne) as (l' & -> & _). reflexivity.
    + exists l. now repeat split.
Qed.

Lemma getAll_seeds_once_witness :
  bloodinventories (snd (inventory.getAll t0 noStockDb)) !! "AB-"
  = Some (BloodInventory.create "AB-" t0)
  /\ snd (inventory.getAll t0 sampleDb) = sampleDb.
Proof.
  split.
  - apply (proj1 (proj2 (getAll_seeds_once noStockDb t0)) eq_refl "AB-").
  - apply (proj1 (proj2 (proj2 (getAll_seeds_once sampleDb t0)))).
    intros H.
    assert (Hl : bloodinventories sampleDb !! "O+" = Some stockOPlus)
      by reflexivity.
    rewrite H, lookup_empty in Hl. discriminate Hl.
Defined.

(** ** Authentication *)

Lemma removeFirst_prefix pattern s :
  authMiddleware.removeFirst pattern (pattern +:+ s) = s.
Proof.
  assert (Hstarts : forall p t, authMiddleware.startsWith p (p +:+ t) = true).
  { induction p as [| c p IH]; intros t; simpl; [reflexivity |].
    now rewrite Ascii.eqb_refl, IH. }
  assert (Hdrop : forall p t,
             authMiddleware.drop (String.length p) (p +:+ t) = t).
  { induction p as [| c p IH]; intros t; simpl; [reflexivity | apply IH]. }
  assert (Hunfold : forall x,
             authMiddleware.removeFirst pattern x
             = if authMiddleware.startsWith pattern x
               then authMiddleware.drop (String.length pattern) x
               else match x with
                    | EmptyString => EmptyString
                    | String c x' =>
                        String c (authMiddleware.removeFirst pattern x')
                    end).
  { intros x. destruct x; reflexivity. }
  now rewrite Hunfold, Hstarts, Hdrop.
Qed.

Section Authenticate.
Variable verify : string -> option ObjectId.
Variables (db : Db).

(** X15. [authenticate] lets a request through only with an
    [Authorization] header whose token (the header without its first
    "Bearer ") is not empty and verifies to the id of a stored user who
    is active; the user handed to the route is that stored user, read
    without its password. *)
Theorem authenticate_sound (authorization : option string) (user : User.t) :
  authMiddleware.authenticate verify authorization db = inr user ->
  exists header id stored,
    authorization = Some header
    /\ authMiddleware.removeFirst "Bearer " header <> ""
    /\ verify (authMiddleware.removeFirst "Bearer " header) = Some id
    /\ users db !! id = Some stored
    /\ user = User.withoutPassword stored
    /\ User.isActive stored = true.
Proof.
  unfold authMiddleware.authenticate, authMiddleware.tokenOf.
  destruct authorization as [header |]; simpl; [| discriminate].
  destruct (String.eqb _ "") eqn:Hempty; [discriminate |].
  destruct (verify _) as [id |] eqn:Hverify; [| discriminate].
  destruct (users db !! id) as [u |] eqn:Hu; simpl; [| discriminate].
  destruct (User.isActive u) eqn:Hactive; simpl; [| discriminate].
  intros [= <-]. exists header, id, u.
  apply String.eqb_neq in Hempty. auto 10.
Qed.

Lemma authenticate_bearer (token : string) :
  authMiddleware.authenticate verify (Some ("Bearer " +:+ token)) db
  = if String.eqb token "" then
      inl (failure 401 "Access denied. No token provided.")
    else
      match verify token with
      | None => inl (failure 401 "Invalid token.")
      | Some id =>
          match users db !! id with
          | None => inl (failure 401 "Invalid token. User not found.")
          | Some user =>
              if User.isActive user then inr (User.withoutPassword user)
              else inl (failure 401 "Account has been deactivated.")
          end
      end.
Proof.
  unfold authMiddleware.authenticate, authMiddleware.tokenOf.
  cbn [fmap option_fmap option_map].
  rewrite (removeFirst_prefix "Bearer " token).
  destruct (String.eqb token ""); [reflexivity |].
  destruct (verify token); [| reflexivity].
  destruct (users db !! _) as [u |]; simpl; [| reflexivity].
  now destruct (User.isActive u).
Qed.
End Authenticate.

Lemma authenticate_sound_witness :
  authMiddleware.authenticate sampleVerify (Some "Bearer tok-a1") sampleDb
  = inr (User.withoutPassword admin)
  /\ exists header id stored,
       Some "Bearer tok-a1" = Some header
       /\ authMiddleware.removeFirst "Bearer " header <> ""
       /\ sampleVerify (authMiddleware.removeFirst "Bearer " header) = Some id
       /\ users sampleDb !! id = Some stored
       /\ User.withoutPassword admin = User.withoutPassword stored
       /\ User.isActive stored = true.
Proof.
  split; [vm_compute; reflexivity |].
  apply (authenticate_sound sampleVerify sampleDb (Some "Bearer tok-a1")
           (User.withoutPassword admin)).
  vm_compute; reflexivity.
Defined.

(** ** Deactivating a user; reading one request *)

Lemma authorizeR_admin {A} (user : User.t) (next : Db -> Reply A * Db) db :
  User.role user = "admin" -> authorizeR ["admin"] user next db = next db.
Proof.
  intros H. unfold authorizeR. rewrite H.
  now change (includes ["admin"] "admin") with true.
Qed.

Lemma toggled_twice now later u :
  User.set_updatedAt later
    (User.set_isActive
       (negb (User.isActive
                (User.set_updatedAt now
                   (User.set_isActive (negb (User.isActive u)) u))))
       (User.set_updatedAt now
          (User.set_isActive (negb (User.isActive u)) u)))
  = User.set_updatedAt later u.
Proof.
  destruct u. unfold User.set_updatedAt, User.set_isActive. simpl.
  now rewrite negb_involutive.
Qed.

Lemma toggleStatus_eval db caller id now user :
  User.role caller = "admin" ->
  users db !! id = Some user ->
  User._id user = id ->
  User.validate user = true ->
  snd (usersRoutes.toggleStatus caller id now db)
  = set_users
      (<[id := User.set_updatedAt now
                 (User.set_isActive (negb (User.isActive user)) user)]>
         (users db)) db
  /\ exists t, fst (usersRoutes.toggleStatus caller id now db) = Sent t
       /\ usersRoutes.t_id t = id
       /\ usersRoutes.t_isActive t = negb (User.isActive user).
Proof.
  intros Hadmin Hu Hid Hvalid.
  unfold usersRoutes.toggleStatus. rewrite (authorizeR_admin _ _ _ Hadmin).
  unfold tryCatchR, bind, Query.User_findById. rewrite Hu.
  unfold Query.User_save.
  change (User.validate (User.set_isActive (negb (User.isActive user)) user))
    with (User.validate user).
  rewrite Hvalid. simpl.
  rewrite Hid. split; [reflexivity |]. eexists. split; [reflexivity |].
  simpl. auto.
Qed.

Lemma toggleStatus_refused db caller id now user :
  User.role caller = "admin" ->
  users db !! id = Some user ->
  User.validate user = false ->
  usersRoutes.toggleStatus caller id now db
  = (Refused (serverError "Failed to toggle user status" ValidationError),
     db).
Proof.
  intros Hadmin Hu Hinvalid.
  unfold usersRoutes.toggleStatus. rewrite (authorizeR_admin _ _ _ Hadmin).
  unfold tryCatchR, bind, Query.User_findById. rewrite Hu.
  unfold Query.User_save.
  change (User.validate (User.set_isActive (negb (User.isActive user)) user))
    with (User.validate user).
  now rewrite Hinvalid.
Qed.

(** X16. An admin's [PATCH /users/:id/toggle-status] on a stored user
    whose document passes the validators of the user schema flips
    [isActive]; a second call restores every path of the document but the
    [updatedAt] stamp, which is the time of the second call, and nothing
    else in the database has changed. While the user is deactivated,
    [authenticate] refuses the user's valid token with 401 "Account has
    been deactivated."; before the first call and after the second it
    accepts it. On a stored user whose document fails the validators the
    call answers 500 with a [ValidationError] and writes nothing. *)
Theorem toggle_status_round_trip (db : Db) (caller : User.t)
    (id : ObjectId) (user : User.t) (now later : Date) :
  DbOk db ->
  User.role caller = "admin" ->
  users db !! id = Some user ->
  let db1 := snd (usersRoutes.toggleStatus caller id now db) in
  let db2 := snd (usersRoutes.toggleStatus caller id later db1) in
  (User.validate user = true ->
   (User.isActive <$> users db1 !! id) = Some (negb (User.isActive user))
   /\ db2
      = set_users (<[id := User.set_updatedAt later user]> (users db)) db
   /\ (User.isActive user = true ->
       forall verify token,
         token <> "" -> verify token = Some id ->
         authMiddleware.authenticate verify (Some ("Bearer " +:+ token)) db
         = inr (User.withoutPassword user)
         /\ authMiddleware.authenticate verify (Some ("Bearer " +:+ token))
              db1
            = inl (failure 401 "Account has been deactivated.")
         /\ authMiddleware.authenticate verify (Some ("Bearer " +:+ token))
              db2
            = inr (User.withoutPassword (User.set_updatedAt later user))))
  /\ (User.validate user = false ->
      usersRoutes.toggleStatus caller id now db
      = (Refused (serverError "Failed to toggle user status" ValidationError),
         db)).
Proof.
  intros Hok Hadmin Hu db1 db2.
  pose proof (ok_users db Hok id user Hu) as Hid. simpl in Hid.
  split; [| now apply toggleStatus_refused].
  intros Hvalid.
  destruct (toggleStatus_eval db caller id now user Hadmin Hu Hid Hvalid)
    as [Hdb1 _].
  fold db1 in Hdb1.
  assert (Hu1 : users db1 !! id
                = Some (User.set_updatedAt now
                          (User.set_isActive (negb (User.isActive user))
                             user))).
  { rewrite Hdb1. simpl. apply lookup_insert_eq. }
  destruct (toggleStatus_eval db1 caller id later _ Hadmin Hu1 Hid Hvalid)
    as [Hdb2 _].
  fold db2 in Hdb2.
  assert (Heq : db2
                = set_users
                    (<[id := User.set_updatedAt later user]> (users db)) db).
  { rewrite Hdb2, Hdb1. rewrite toggled_twice. unfold set_users. simpl.
    now rewrite insert_insert_eq. }
  split; [now rewrite Hu1 |]. split; [exact Heq |].
  intros Hactive verify token Hne Hverify.
  rewrite Heq, !authenticate_bearer.
  rewrite (proj2 (String.eqb_neq _ _) Hne), Hverify, Hu, Hu1. simpl.
  rewrite lookup_insert_eq. simpl. rewrite Hactive. simpl. auto.
Qed.

Lemma toggle_status_round_trip_witness :
  ((User.isActive
      <$> users (snd (usersRoutes.toggleStatus admin "u1" t0 sampleDb))
          !! "u1")
   = Some false
   /\ snd (usersRoutes.toggleStatus admin "u1" (t0 + 1)
             (snd (usersRoutes.toggleStatus admin "u1" t0 sampleDb)))
      = set_users
          (<["u1" := User.set_updatedAt (t0 + 1) (donorAt None)]>
             (users sampleDb)) sampleDb)
  /\ usersRoutes.toggleStatus admin "u1" t0 incompleteDonorDb
     = (Refused (serverError "Failed to toggle user status" ValidationError),
        incompleteDonorDb).
Proof.
  split.
  - destruct (proj1 (toggle_status_round_trip sampleDb admin "u1"
                       (donorAt None) t0 (t0 + 1) DbOk_sampleDb eq_refl
                       eq_refl) eq_refl) as (Hoff & Hback & _).
    split; [exact Hoff | exact Hback].
  - apply (proj2 (toggle_status_round_trip incompleteDonorDb admin "u1"
                    incompleteDonor t0 (t0 + 1) DbOk_incompleteDonorDb
                    eq_refl eq_refl)).
    reflexivity.
Defined.

(** X17. [GET /requests/:id] of a stored request whose requester is a
    stored user never changes the database, and answers 200 with the
    request exactly when the caller is an admin or the requester; every
    other caller gets 403 "Access denied". *)
Theorem getById_access (db : Db) (user : User.t) (id : ObjectId)
    (r : BloodRequest.t) (owner : User.t) :
  DbOk db ->
  bloodrequests db !! id = Some r ->
  users db !! BloodRequest.requester r = Some owner ->
  let result := requestsRead.getById user id db in
  snd result = db
  /\ (code (fst result) = 200
      <-> User.role user = "admin"
          \/ BloodRequest.requester r = User._id user)
  /\ (code (fst result) = 200 ->
      fst result = jsonData (RequestData (BloodRequest.hydrate r)))
  /\ (code (fst result) <> 200 ->
      fst result = failure 403 "Access denied").
Proof.
  intros Hok Hr Howner result. subst result.
  pose proof (ok_users db Hok _ owner Howner) as Hid. simpl in Hid.
  unfold requestsRead.getById, tryCatch, bind, Query.BloodRequest_findById,
    Query.User_findById.
  rewrite Hr. simpl. rewrite Howner, Hid.
  destruct (String.eqb (User.role user) "admin") eqn:Erole; simpl.
  - apply String.eqb_eq in Erole.
    repeat split; auto; try tauto; try done.
  - apply String.eqb_neq in Erole.
    destruct (String.eqb (BloodRequest.requester r) (User._id user)) eqn:Eown;
      simpl.
    + apply String.eqb_eq in Eown. repeat split; auto; try tauto; try done.
    + apply String.eqb_neq in Eown. repeat split; auto; try done.
      * intros [H | H]; contradiction.
Qed.

Lemma getById_access_witness :
  requestsRead.getById (donorAt None) "req2" sampleDb
  = (failure 403 "Access denied", sampleDb)
  /\ code (fst (requestsRead.getById recipient "req2" sampleDb)) = 200.
Proof.
  split.
  - destruct (getById_access sampleDb (donorAt None) "req2"
                (requestFor 2 "pending") recipient DbOk_sampleDb eq_refl
                eq_refl) as (Hdb & Hiff & _ & Hrefused).
    rewrite (surjective_pairing (requestsRead.getById _ _ _)).
    rewrite Hdb, Hrefused; [reflexivity |].
    intros H. apply Hiff in H as [H | H]; discriminate H.
  - apply (proj1 (proj2 (getById_access sampleDb recipient "req2"
                           (requestFor 2 "pending") recipient DbOk_sampleDb
                           eq_refl eq_refl))).
    right. reflexivity.
Defined.

(** ** Alerts and totals *)

Lemma ceilDays_le (ms n : Z) :
  inventoryReports.ceilDays ms <= n <-> ms <= n * 86400000.
Proof.
  unfold inventoryReports.ceilDays, User.msPerDay.
  change (1000 * 60 * 60 * 24) with 86400000.
  pose proof (Z.mul_div_le (- ms) 86400000 ltac:(lia)).
  pose proof (Z.mul_succ_div_gt (- ms) 86400000 ltac:(lia)).
  split; intros Hle; lia.
Qed.

Lemma ceilDays_pos (ms : Z) : 0 < inventoryReports.ceilDays ms <-> 0 < ms.
Proof.
  pose proof (ceilDays_le ms 0). lia.
Qed.

Lemma expiresSoon_window now date units :
  inventoryReports.expiresSoon now (date, units) = true
  <-> now < date <= now + 7 * 86400000.
Proof.
  unfold inventoryReports.expiresSoon. simpl.
  rewrite andb_true_iff, Z.leb_le, Z.ltb_lt, ceilDays_le, ceilDays_pos. lia.
Qed.

Lemma stored_values (db : Db) (i : BloodInventory.t) :
  In i (map_to_list (bloodinventories db)).*2
  <-> exists bt, bloodinventories db !! bt = Some i.
Proof.
  rewrite <- list_elem_of_In, list_elem_of_fmap. split.
  - intros ([bt x] & -> & Hin). exists bt. now apply elem_of_map_to_list.
  - intros (bt & Hl). exists (bt, i). split; [reflexivity |].
    now apply elem_of_map_to_list.
Qed.

(** X18. For an admin, [GET /inventory/alerts] lists under [lowStock]
    exactly the stored records with [unitsAvailable <= minimumThreshold],
    and under [expiring] exactly the stored records with a batch whose
    expiry date lies after [now] and at most seven days (604 800 000 ms)
    later: the rounding up to whole days changes nothing at the bounds. *)
Theorem alerts_membership (db : Db) (user : User.t) (now : Date) :
  User.role user = "admin" ->
  exists a,
    inventoryReports.alerts user now db = (Sent a, db)
    /\ (forall i,
          In i (inventoryReports.lowStock a)
          <-> (exists bt, bloodinventories db !! bt = Some i)
              /\ BloodInventory.unitsAvailable i
                 <= BloodInventory.minimumThreshold i)
    /\ (forall i,
          In i (inventoryReports.expiring a)
          <-> (exists bt, bloodinventories db !! bt = Some i)
              /\ exists date units,
                   In (date, units) (BloodInventory.expiringUnits i)
                   /\ now < date <= now + 7 * 86400000).
Proof.
  intros Hadmin.
  unfold inventoryReports.alerts. eexists.
  rewrite (authorizeR_admin _ _ _ Hadmin).
  unfold tryCatchR, bind, inventoryReports.find, ret.
  split; [reflexivity |]. simpl. split.
  - intros i. rewrite filter_In, stored_values.
    unfold BloodInventory.isLowStock. now rewrite Z.leb_le.
  - intros i. rewrite filter_In, stored_values, existsb_exists.
    split.
    + intros [Hs ([date units] & Hin & Hsoon)]. split; [exact Hs |].
      exists date, units. split; [exact Hin |].
      exact (proj1 (expiresSoon_window now date units) Hsoon).
    + intros [Hs (date & units & Hin & Hw)]. split; [exact Hs |].
      exists (date, units). split; [exact Hin |].
      exact (proj2 (expiresSoon_window now date units) Hw).
Qed.

Lemma alerts_membership_witness :
  exists a,
    inventoryReports.alerts admin t0 sampleDb = (Sent a, sampleDb)
    /\ In stockOPlus (inventoryReports.lowStock a).
Proof.
  destruct (alerts_membership sampleDb admin t0 eq_refl)
    as (a & Heq & Hlow & _).
  exists a. split; [exact Heq |].
  apply Hlow. split; [exists "O+"; reflexivity | simpl; lia].
Defined.

Lemma sumUnits_from (l : list BloodInventory.t) (acc : Z) :
  fold_left (fun sum item => sum + BloodInventory.unitsAvailable item) l acc
  = acc + inventoryReports.sumUnits l.
Proof.
  unfold inventoryReports.sumUnits. revert acc.
  induction l as [| x l IH]; intros acc; simpl; [lia |].
  rewrite (IH (acc + _)), (IH (0 + _)). lia.
Qed.

Lemma sumUnits_cons x l :
  inventoryReports.sumUnits (x :: l)
  = BloodInventory.unitsAvailable x + inventoryReports.sumUnits l.
Proof.
  unfold inventoryReports.sumUnits at 1. simpl. now rewrite sumUnits_from.
Qed.

Lemma sumUnits_perm l l' :
  l ≡ₚ l' -> inventoryReports.sumUnits l = inventoryReports.sumUnits l'.
Proof.
  induction 1; rewrite ?sumUnits_cons; lia.
Qed.

Lemma stock_insert_new m k x :
  m !! k = None -> totalStock (<[k := x]> m) = BloodInventory.unitsAvailable x + totalStock m.
Proof.
  intros H. unfold totalStock.
  rewrite (sumUnits_perm _ _ (fmap_Permutation snd _ _ (map_to_list_insert m k x H))).
  simpl. apply sumUnits_cons.
Qed.

Lemma stock_insert m k x :
  totalStock (<[k := x]> m)
  = totalStock m
    - match m !! k with
      | Some old => BloodInventory.unitsAvailable old
      | None => 0
      end
    + BloodInventory.unitsAvailable x.
Proof.
  destruct (m !! k) as [old |] eqn:Hk.
  - rewrite <- (insert_delete_eq m k x).
    rewrite stock_insert_new by apply lookup_delete_eq.
    rewrite <- (insert_delete_id m k old Hk) at 2.
    rewrite stock_insert_new by apply lookup_delete_eq. lia.
  - rewrite stock_insert_new by exact Hk. lia.
Qed.

(** ** Statistics and the dashboard *)

Lemma reportedTotal_admin user db :
  User.role user = "admin" ->
  reportedTotal user db = Some (totalStock (bloodinventories db)).
Proof.
  intros Hadmin. unfold reportedTotal, inventoryReports.stats.
  now rewrite (authorizeR_admin _ _ _ Hadmin).
Qed.

Lemma addUnits_stock db user body now :
  DbOk db ->
  code (fst (inventory.addUnits user body now db)) = 200 ->
  totalStock (bloodinventories (snd (inventory.addUnits user body now db)))
  = totalStock (bloodinventories db) + inventory.units body.
Proof.
  intros Hok.
  unfold inventory.addUnits, authorize, tryCatch.
  run_task; try discriminate; intros _.
  all: match goal with
       | H : bloodinventories _ !! _ = Some ?i |- _ =>
           destruct (ok_inventory _ Hok _ _ H) as [Hkey _]; rewrite Hkey
       | _ => idtac
       end.
  all: rewrite stock_insert.
  all: match goal with H : bloodinventories _ !! _ = _ |- _ => rewrite H end.
  all: simpl; ring.
Qed.

Lemma sumUnits_nonneg l :
  Forall (fun i => 0 <= BloodInventory.unitsAvailable i) l ->
  0 <= inventoryReports.sumUnits l.
Proof.
  induction 1 as [| x l Hx Hl IH]; [reflexivity |].
  rewrite sumUnits_cons. lia.
Qed.

Lemma stock_nonneg db : DbOk db -> 0 <= totalStock (bloodinventories db).
Proof.
  intros Hok. apply sumUnits_nonneg. apply Forall_forall.
  intros i Hi. apply list_elem_of_In, stored_values in Hi as [bt Hbt].
  destruct (ok_inventory db Hok bt i Hbt) as [_ Hv].
  now apply validate_nonneg.
Qed.

(** X19. The [totalUnits] of [GET /inventory/stats] follows the
    ledger, as long as the totals are safe integers. On a valid database
    whose stock adds up to a safe integer an admin reads that total, which
    is not negative; a successful [add-units] raises it by the units of
    the body; fulfilling a request with enough stock lowers it by the
    request's [unitsNeeded]; completing a donation of a stored donor whose
    document passes the validators of the user schema, with a record of
    its blood type in stock, raises it by the units collected (1 or 2). *)
Theorem reported_total_follows_ledger (db : Db) (user : User.t) :
  DbOk db ->
  User.role user = "admin" ->
  totalStock (bloodinventories db) <= maxSafeInteger ->
  exists total,
    reportedTotal user db = Some total
    /\ 0 <= total <= maxSafeInteger
    /\ (forall body now,
          code (fst (inventory.addUnits user body now db)) = 200 ->
          total + inventory.units body <= maxSafeInteger ->
          reportedTotal user (snd (inventory.addUnits user body now db))
          = Some (total + inventory.units body))
    /\ (forall id notes now r record,
          bloodrequests db !! id = Some r ->
          bloodinventories db !! BloodRequest.bloodType r = Some record ->
          BloodRequest.unitsNeeded r <= BloodInventory.unitsAvailable record ->
          reportedTotal user
            (snd (requests.updateStatus user id
                    {| requests.status := Some "fulfilled";
                       requests.notes := notes |} now db))
          = Some (total - BloodRequest.unitsNeeded r))
    /\ (forall id body now d donor record,
          donations db !! id = Some d ->
          users db !! Donation.donor d = Some donor ->
          User.validate donor = true ->
          bloodinventories db !! Donation.bloodType d = Some record ->
          blood.status body = Some "completed" ->
          1 <= default (Donation.unitsCollected d)
                 (truthyNumber (blood.unitsCollected body)) <= 2 ->
          total
          + default (Donation.unitsCollected d)
              (truthyNumber (blood.unitsCollected body)) <= maxSafeInteger ->
          reportedTotal user (snd (blood.updateStatus user id body now db))
          = Some (total
                  + default (Donation.unitsCollected d)
                      (truthyNumber (blood.unitsCollected body)))).
Proof.
  intros Hok Hadmin Hsafe. exists (totalStock (bloodinventories db)).
  split; [now apply reportedTotal_admin |].
  split; [split; [now apply stock_nonneg | exact Hsafe] |].
  split; [| split].
  - intros body now Hcode _. rewrite (reportedTotal_admin _ _ Hadmin).
    now rewrite (addUnits_stock db user body now Hok Hcode).
  - intros id notes now r record Hr Hrec Hle.
    rewrite (reportedTotal_admin _ _ Hadmin).
    rewrite (fulfil_enough db user id notes now r record Hok Hadmin Hr Hrec
               Hle). simpl.
    rewrite stock_insert, Hrec. simpl. f_equal. ring.
  - intros id body now d donor record Hd Hdonor Hvalid Hrec Hs Hu _.
    rewrite (reportedTotal_admin _ _ Hadmin).
    assert (Hin : In "completed" Donation.statuses) by (simpl; tauto).
    rewrite (updateStatus_completed db user id body now d donor "completed"
               Hok Hadmin Hd Hdonor Hs Hin Hu eq_refl Hvalid). simpl.
    rewrite Hrec, stock_insert, Hrec. simpl. f_equal. ring.
Qed.

Lemma reported_total_follows_ledger_witness :
  reportedTotal admin sampleDb = Some 5
  /\ reportedTotal admin (snd (inventory.addUnits admin addTwenty t0 sampleDb))
     = Some 25
  /\ reportedTotal admin
       (snd (blood.updateStatus admin "don1"
               (donationStatus "completed" (Some 2)) t0 sampleDb))
     = Some 7.
Proof.
  assert (H5 : reportedTotal admin sampleDb = Some 5)
    by (vm_compute; reflexivity).
  assert (Hsafe : totalStock (bloodinventories sampleDb) <= maxSafeInteger)
    by (vm_compute; discriminate).
  split; [exact H5 |].
  destruct (reported_total_follows_ledger sampleDb admin DbOk_sampleDb
              eq_refl Hsafe) as (total & Ht & _ & Hadd & _ & Hdone).
  rewrite H5 in Ht. injection Ht as <-.
  split.
  - apply (Hadd addTwenty t0); [vm_compute; reflexivity |].
    unfold maxSafeInteger. simpl. lia.
  - apply (Hdone "don1" (donationStatus "completed" (Some 2)) t0
             (donationIn "scheduled") (donorAt None) stockOPlus eq_refl
             eq_refl eq_refl eq_refl eq_refl).
    + simpl. lia.
    + unfold maxSafeInteger. simpl. lia.
Defined.

Lemma filter_split_length {A} (p q r : A -> bool) (l : list A) :
  (forall x, q x = true -> p x = true) ->
  (forall x, r x = true -> p x = true) ->
  (forall x, q x = true -> r x = true -> False) ->
  (length (List.filter q l) + length (List.filter r l)
   <= length (List.filter p l))%nat.
Proof.
  intros Hq Hr Hqr. induction l as [| x l IH]; simpl; [lia |].
  specialize (Hq x). specialize (Hr x). specialize (Hqr x).
  destruct (q x), (r x), (p x); simpl; try lia;
    solve [ exfalso; auto
          | discriminate Hq; reflexivity
          | discriminate Hr; reflexivity ].
Qed.

(** X20. For an admin, [GET /admin/dashboard] changes nothing and its
    numbers are consistent: donors plus recipients are at most the active
    users, completed plus scheduled donations at most the stored
    donations, pending requests at most the stored requests, low-stock
    records at most the number of blood types, which is the number of
    stored records; and the inventory totals are those of
    [GET /inventory/stats] on the same database. *)
Theorem dashboard_consistent (db : Db) (user : User.t) :
  User.role user = "admin" ->
  exists d,
    adminRoutes.dashboard user db = (Sent d, db)
    /\ 0 <= adminRoutes.users_donors d
    /\ 0 <= adminRoutes.users_recipients d
    /\ adminRoutes.users_donors d + adminRoutes.users_recipients d
       <= adminRoutes.users_total d
    /\ adminRoutes.donations_completed d + adminRoutes.donations_scheduled d
       <= Z.of_nat (size (donations db))
    /\ adminRoutes.requests_pending d <= Z.of_nat (size (bloodrequests db))
    /\ 0 <= adminRoutes.inventory_lowStockCount d
       <= adminRoutes.inventory_bloodTypes d
    /\ adminRoutes.inventory_bloodTypes d
       = Z.of_nat (size (bloodinventories db))
    /\ exists s,
         inventoryReports.stats user db = (Sent s, db)
         /\ inventoryReports.totalUnits s = adminRoutes.inventory_totalUnits d
         /\ inventoryReports.lowStockCount s
            = adminRoutes.inventory_lowStockCount d.
Proof.
  intros Hadmin. unfold adminRoutes.dashboard, inventoryReports.stats.
  rewrite !(authorizeR_admin _ _ _ Hadmin).
  unfold tryCatchR, bind, inventoryReports.find, ret. simpl.
  eexists. split; [reflexivity |]. simpl.
  unfold adminRoutes.countDocuments, inventoryReports.countLowStock.
  repeat split; try lia.
  - pose proof (filter_split_length User.isActive
                  (fun u => String.eqb (User.role u) "donor" && User.isActive u)
                  (fun u => String.eqb (User.role u) "recipient"
                            && User.isActive u)
                  (map_to_list (users db)).*2) as H.
    assert (Hlen : (length
                      (List.filter
                         (fun u => String.eqb (User.role u) "donor"
                                   && User.isActive u)
                         (map_to_list (users db)).*2)
                    + length
                        (List.filter
                           (fun u => String.eqb (User.role u) "recipient"
                                     && User.isActive u)
                           (map_to_list (users db)).*2)
                    <= length (List.filter User.isActive
                                 (map_to_list (users db)).*2))%nat).
    { apply H.
      - intros x Hx. now apply andb_prop in Hx as [_ Hx].
      - intros x Hx. now apply andb_prop in Hx as [_ Hx].
      - intros x Hd Hrcp. apply andb_prop in Hd as [Hd _].
        apply andb_prop in Hrcp as [Hrcp _].
        apply String.eqb_eq in Hd, Hrcp. congruence. }
    lia.
  - pose proof (filter_split_length (fun _ => true)
                  (fun d => strictEq (Donation.status d) "completed")
                  (fun d => strictEq (Donation.status d) "scheduled")
                  (map_to_list (donations db)).*2) as H.
    assert (Hlen : (length
                      (List.filter
                         (fun d => strictEq (Donation.status d) "completed")
                         (map_to_list (donations db)).*2)
                    + length
                        (List.filter
                           (fun d => strictEq (Donation.status d) "scheduled")
                           (map_to_list (donations db)).*2)
                    <= length (List.filter (fun _ => true)
                                 (map_to_list (donations db)).*2))%nat).
    { apply H; auto.
      intros x Hc Hsch. apply strictEq_true in Hc, Hsch. congruence. }
    pose proof (filter_length (fun _ : Donation.t => true)
                  (map_to_list (donations db)).*2) as Hf.
    rewrite length_fmap, length_map_to_list in Hf. lia.
  - pose proof (filter_length
                  (fun r => strictEq (BloodRequest.status r) "pending")
                  (map_to_list (bloodrequests db)).*2) as Hf.
    rewrite length_fmap, length_map_to_list in Hf. lia.
  - pose proof (filter_length BloodInventory.isLowStock
                  (map_to_list (bloodinventories db)).*2) as Hf. lia.
  - now rewrite length_fmap, length_map_to_list.
  - eexists. split; [reflexivity |]. simpl. split; reflexivity.
Qed.

Lemma dashboard_consistent_witness :
  exists d,
    adminRoutes.dashboard admin sampleDb = (Sent d, sampleDb)
    /\ adminRoutes.users_donors d + adminRoutes.users_recipients d
       <= adminRoutes.users_total d
    /\ adminRoutes.inventory_bloodTypes d = 1.
Proof.
  destruct (dashboard_consistent sampleDb admin eq_refl)
    as (d & Heq & _ & _ & Husers & _ & _ & _ & Htypes & _).
  exists d. split; [exact Heq |]. split; [exact Husers |].
  rewrite Htypes. vm_compute; reflexivity.
Defined.

(** ** A donor's donations; the profile filter *)

Lemma insertByDate_perm x l : bloodRead.insertByDate x l ≡ₚ x :: l.
Proof.
  induction l as [| y l IH]; simpl; [reflexivity |].
  destruct (_ <=? _); [reflexivity |].
  rewrite IH. apply perm_swap.
Qed.

Lemma insertByDate_sorted x l :
  Sorted latestFirst l -> Sorted latestFirst (bloodRead.insertByDate x l).
Proof.
  induction l as [| y l IH]; intros Hs; simpl.
  - repeat constructor.
  - destruct (Donation.donationDate y <=? Donation.donationDate x) eqn:E.
    + constructor; [exact Hs | constructor; unfold latestFirst; lia].
    + assert (Hyx : latestFirst y x) by (unfold latestFirst; lia).
      apply Sorted_inv in Hs as [Hs Hhd].
      constructor; [now apply IH |].
      destruct l as [| z l]; simpl.
      * constructor. exact Hyx.
      * destruct (Donation.donationDate z <=? Donation.donationDate x);
          constructor; [exact Hyx | now apply HdRel_inv in Hhd].
Qed.

Lemma foldr_insertByDate l :
  Sorted latestFirst (foldr bloodRead.insertByDate [] l)
  /\ foldr bloodRead.insertByDate [] l ≡ₚ l.
Proof.
  induction l as [| x l [IHs IHp]]; simpl.
  - split; [constructor | reflexivity].
  - split; [now apply insertByDate_sorted |].
    rewrite insertByDate_perm. now constructor.
Qed.

Lemma hydrate_donor d : Donation.donor (Donation.hydrate d) = Donation.donor d.
Proof. reflexivity. Qed.

Lemma filter_hydrate_length donor (l : list Donation.t) :
  length (filter (fun d => Donation.donor d = donor) (Donation.hydrate <$> l))
  = length (filter (fun d => Donation.donor d = donor) l).
Proof.
  induction l as [| x l IH]; [reflexivity |].
  rewrite fmap_cons, !filter_cons, hydrate_donor.
  destruct (decide (Donation.donor x = donor));
    rewrite ?length_cons, IH; reflexivity.
Qed.

(** X21. [GET /blood/my-donations] never fails and changes nothing; it
    lists exactly the stored donations whose donor is the caller, each
    once, latest donation date first. *)
Theorem myDonations_own_latest_first (user : User.t) (db : Db) :
  exists l,
    bloodRead.myDonations user db = (Sent l, db)
    /\ (forall d,
          In d l <->
          exists id stored,
            donations db !! id = Some stored
            /\ Donation.donor stored = User._id user
            /\ d = Donation.hydrate stored)
    /\ Sorted latestFirst l
    /\ length l
       = length (filter (fun d => Donation.donor d = User._id user)
                   (map_to_list (donations db)).*2).
Proof.
  unfold bloodRead.myDonations, tryCatchR, bind, bloodRead.findByDonor, ret.
  simpl. eexists. split; [reflexivity |].
  set (own := filter (fun d => Donation.donor d = User._id user)
                (Donation.hydrate <$> (map_to_list (donations db)).*2)).
  destruct (foldr_insertByDate own) as [Hs Hp].
  split; [| split; [exact Hs |]].
  - intros d. rewrite <- list_elem_of_In, Hp. unfold own.
    rewrite list_elem_of_filter, list_elem_of_fmap. split.
    + intros [Hd (stored & -> & Hin)].
      apply list_elem_of_fmap in Hin as ([id s] & -> & Hin).
      apply elem_of_map_to_list in Hin. simpl in *.
      exists id, s. repeat split; assumption.
    + intros (id & stored & Hl & Hd & ->). split; [exact Hd |].
      exists stored. split; [reflexivity |].
      apply list_elem_of_fmap. exists (id, stored). split; [reflexivity |].
      now apply elem_of_map_to_list.
  - rewrite Hp. unfold own. apply filter_hydrate_length.
Qed.

Lemma myDonations_own_latest_first_witness :
  exists l,
    bloodRead.myDonations (donorAt None) sampleDb = (Sent l, sampleDb)
    /\ length l = 2%nat
    /\ In (donationIn "completed") l.
Proof.
  destruct (myDonations_own_latest_first (donorAt None) sampleDb)
    as (l & Heq & Hin & _ & Hlen).
  exists l. split; [exact Heq |]. split.
  - rewrite Hlen. vm_compute. reflexivity.
  - apply Hin. exists "don2", (donationIn "completed").
    split; [reflexivity |]. split; reflexivity.
Defined.

Lemma pickUpdates_from {V} (body acc : list (string * V)) :
  fold_left
    (fun acc kv => if includes usersRoutes.allowedUpdates (fst kv)
                   then acc ++ [kv] else acc)
    body acc
  = acc ++ List.filter
             (fun kv => includes usersRoutes.allowedUpdates (fst kv)) body.
Proof.
  revert acc. induction body as [| kv body IH]; intros acc; simpl.
  - now rewrite app_nil_r.
  - rewrite IH. destruct (includes _ _); [| reflexivity].
    now rewrite <- app_assoc.
Qed.

(** X22. The body filter of [PATCH /users/profile] keeps exactly the
    entries of the body whose key is one of [name], [phone], [address],
    [medicalHistory] and [profilePicture], with their values: [role],
    [email], [password], [bloodType], [isActive], [isEligible],
    [lastDonation], [donationCount] and [_id] never pass; distinct keys
    stay distinct; filtering twice is filtering once. *)
Theorem profile_update_whitelist {V} (body : list (string * V)) :
  (forall k v,
      In (k, v) (usersRoutes.pickUpdates body) <->
      In (k, v) body /\ In k usersRoutes.allowedUpdates)
  /\ (forall k v,
        In k ["role"; "email"; "password"; "bloodType"; "isActive";
              "isEligible"; "lastDonation"; "donationCount"; "_id"] ->
        ~ In (k, v) (usersRoutes.pickUpdates body))
  /\ (List.NoDup body.*1 -> List.NoDup (usersRoutes.pickUpdates body).*1)
  /\ usersRoutes.pickUpdates (usersRoutes.pickUpdates body)
     = usersRoutes.pickUpdates body.
Proof.
  unfold usersRoutes.pickUpdates. rewrite !pickUpdates_from. simpl.
  assert (Hin : forall k v,
             In (k, v)
               (List.filter
                  (fun kv => includes usersRoutes.allowedUpdates (fst kv))
                  body)
             <-> In (k, v) body /\ In k usersRoutes.allowedUpdates).
  { intros k v. rewrite filter_In. simpl. now rewrite includes_In. }
  split; [exact Hin |]. split; [| split].
  - intros k v Hk H. apply Hin in H as [_ H]. simpl in *.
    repeat (destruct Hk as [<- | Hk];
            [repeat (destruct H as [H | H]; [discriminate H |]); exact H |]).
    exact Hk.
  - clear Hin.
    induction body as [| [k v] body IH]; simpl; [intros; constructor |].
    intros Hnd. apply List.NoDup_cons_iff in Hnd as [Hk Hnd].
    destruct (includes _ _); [| now apply IH].
    simpl. constructor; [| now apply IH].
    intros H. apply Hk.
    apply in_map_iff in H as ([k' v'] & <- & H). simpl.
    apply filter_In in H as [H _].
    apply in_map_iff. now exists (k', v').
  - clear Hin.
    induction body as [| [k v] body IH]; simpl; [reflexivity |].
    destruct (includes usersRoutes.allowedUpdates k) eqn:E; simpl;
      [rewrite E; f_equal |]; exact IH.
Qed.

Lemma profile_update_whitelist_witness :
  In ("phone", 7)
    (usersRoutes.pickUpdates [("role", 1); ("phone", 7); ("isActive", 0)])
  /\ ~ In ("role", 1)
       (usersRoutes.pickUpdates [("role", 1); ("phone", 7); ("isActive", 0)]).
Proof.
  destruct (profile_update_whitelist
              [("role", 1); ("phone", 7); ("isActive", 0)])
    as (Hin & Hout & _).
  split.
  - apply Hin. simpl. tauto.
  - apply Hout. simpl. tauto.
Defined.

(** ** Writes on a stored inventory record *)

Lemma stored_record db bt record :
  DbOk db ->
  bloodinventories db !! bt = Some record ->
  BloodInventory.bloodType record = bt
  /\ includes bloodTypes bt = true
  /\ 0 <= BloodInventory.unitsAvailable record.
Proof.
  intros Hok Hl. destruct (ok_inventory db Hok bt record Hl) as [Hk Hv].
  split; [exact Hk |]. split; [| now apply validate_nonneg].
  unfold BloodInventory.validate in Hv.
  apply andb_prop in Hv as [Hin _]. now rewrite <- Hk.
Qed.

Lemma addUnits_stored_eval db user body now record :
  DbOk db ->
  User.role user = "admin" ->
  bloodinventories db !! inventory.bloodType body = Some record ->
  inventory.addUnits user body now db
  = if 0 <=? BloodInventory.unitsAvailable record + inventory.units body then
      (json 200
         ("Added " +:+ pretty (inventory.units body) +:+ " units of "
          +:+ inventory.bloodType body +:+ " blood")
         (InventoryData (restocked body now record)),
       set_bloodinventories
         (<[inventory.bloodType body := restocked body now record]>
            (bloodinventories db)) db)
    else (serverError "Failed to add blood units" ValidationError, db).
Proof.
  intros Hok Hadmin Hrec.
  destruct (stored_record db _ record Hok Hrec) as (Hk & Hin & _).
  unfold inventory.addUnits. rewrite (gate_open user db _ Hadmin).
  unfold tryCatch, bind, Query.BloodInventory_findOne. rewrite Hrec.
  unfold Query.BloodInventory_save, BloodInventory.validate, restocked, ret,
    BloodInventory.set_lastUpdated, BloodInventory.push_expiringUnits,
    BloodInventory.set_unitsAvailable.
  destruct (inventory.expiryDate body) as [d |]; simpl; rewrite Hk, Hin;
    simpl; destruct (0 <=? _); reflexivity.
Qed.

Lemma update_stored_eval db user bt body now record :
  DbOk db ->
  User.role user = "admin" ->
  bloodinventories db !! bt = Some record ->
  inventory.update user bt body now db
  = if 0 <=? default (BloodInventory.unitsAvailable record)
               (inventory.unitsAvailable body) then
      (json 200 "Inventory updated successfully"
         (InventoryData (revised body now record)),
       set_bloodinventories
         (<[bt := revised body now record]> (bloodinventories db)) db)
    else (serverError "Failed to update inventory" ValidationError, db).
Proof.
  intros Hok Hadmin Hrec.
  destruct (stored_record db _ record Hok Hrec) as (Hk & Hin & _).
  unfold inventory.update. rewrite (gate_open user db _ Hadmin).
  unfold tryCatch, bind, Query.BloodInventory_findOne. rewrite Hrec.
  unfold Query.BloodInventory_save, BloodInventory.validate, revised, ret,
    BloodInventory.set_lastUpdated, BloodInventory.set_maxCapacity,
    BloodInventory.set_minimumThreshold, BloodInventory.set_unitsAvailable.
  destruct body as [[ua |] [mt |] [mc |]]; simpl; rewrite Hk, Hin; simpl;
    destruct (0 <=? _); reflexivity.
Qed.

(** X23. [POST /inventory/add-units] by an admin on a stored record,
    the stored units, the units of the body and their sum being safe
    integers: the call succeeds exactly when the sum is not negative,
    whatever the sign of [units] and whatever [maxCapacity]; the record is
    then stored with the sum, the time of the call and, when the body has
    an expiry date, one more batch. When the sum is negative the call
    answers 500 with a [ValidationError] and changes nothing. *)
Theorem addUnits_on_record (db : Db) (user : User.t)
    (body : inventory.AddUnitsBody) (now : Date) (record : BloodInventory.t) :
  DbOk db ->
  User.role user = "admin" ->
  bloodinventories db !! inventory.bloodType body = Some record ->
  isSafeInteger (BloodInventory.unitsAvailable record) ->
  isSafeInteger (inventory.units body) ->
  isSafeInteger (BloodInventory.unitsAvailable record + inventory.units body) ->
  let result := inventory.addUnits user body now db in
  let total := BloodInventory.unitsAvailable record + inventory.units body in
  (code (fst result) = 200 <-> 0 <= total)
  /\ (0 <= total ->
      bloodinventories (snd result)
      = <[inventory.bloodType body := restocked body now record]>
          (bloodinventories db)
      /\ data (fst result) = InventoryData (restocked body now record)
      /\ BloodInventory.unitsAvailable (restocked body now record) = total
      /\ BloodInventory.maxCapacity (restocked body now record)
         = BloodInventory.maxCapacity record)
  /\ (total < 0 ->
      result = (serverError "Failed to add blood units" ValidationError, db)).
Proof.
  intros Hok Hadmin Hrec _ _ _ result total. subst result total.
  rewrite (addUnits_stored_eval db user body now record Hok Hadmin Hrec).
  destruct (0 <=? _) eqn:E; simpl.
  - apply Z.leb_le in E. repeat split; auto; lia.
  - apply Z.leb_gt in E. repeat split; auto; try lia; discriminate.
Qed.

Lemma addUnits_on_record_witness :
  code (fst (inventory.addUnits admin addTwenty t0 sampleDb)) = 200
  /\ inventory.addUnits admin takeTwenty t0 sampleDb
     = (serverError "Failed to add blood units" ValidationError, sampleDb).
Proof.
  assert (Hstored : isSafeInteger (BloodInventory.unitsAvailable stockOPlus))
    by (unfold isSafeInteger, maxSafeInteger; simpl; lia).
  split.
  - apply (proj1 (addUnits_on_record sampleDb admin addTwenty t0 stockOPlus
                    DbOk_sampleDb eq_refl eq_refl Hstored
                    ltac:(unfold isSafeInteger, maxSafeInteger; simpl; lia)
                    ltac:(unfold isSafeInteger, maxSafeInteger; simpl; lia))).
    simpl; lia.
  - apply (proj2 (proj2 (addUnits_on_record sampleDb admin takeTwenty t0
                           stockOPlus DbOk_sampleDb eq_refl eq_refl Hstored
                           ltac:(unfold isSafeInteger, maxSafeInteger;
                                 simpl; lia)
                           ltac:(unfold isSafeInteger, maxSafeInteger;
                                 simpl; lia)))).
    simpl; lia.
Defined.

(** X24. [PATCH /inventory/:bloodType] by an admin on a stored record
    overwrites the fields the body supplies and keeps the others, sets
    [lastUpdated] to the time of the call and keeps batches and reserved
    units. It succeeds exactly when the resulting [unitsAvailable] is not
    negative, so always when the body supplies none; otherwise it answers
    500 with a [ValidationError] and changes nothing. *)
Theorem update_on_record (db : Db) (user : User.t) (bt : string)
    (body : inventory.UpdateBody) (now : Date) (record : BloodInventory.t) :
  DbOk db ->
  User.role user = "admin" ->
  bloodinventories db !! bt = Some record ->
  let result := inventory.update user bt body now db in
  let units :=
    default (BloodInventory.unitsAvailable record)
      (inventory.unitsAvailable body) in
  (code (fst result) = 200 <-> 0 <= units)
  /\ (inventory.unitsAvailable body = None -> code (fst result) = 200)
  /\ (0 <= units ->
      exists record',
        bloodinventories (snd result)
        = <[bt := record']> (bloodinventories db)
        /\ data (fst result) = InventoryData record'
        /\ BloodInventory.bloodType record' = bt
        /\ BloodInventory.unitsAvailable record' = units
        /\ BloodInventory.minimumThreshold record'
           = default (BloodInventory.minimumThreshold record)
               (inventory.minimumThreshold body)
        /\ BloodInventory.maxCapacity record'
           = default (BloodInventory.maxCapacity record)
               (inventory.maxCapacity body)
        /\ BloodInventory.lastUpdated record' = now
        /\ BloodInventory.expiringUnits record'
           = BloodInventory.expiringUnits record
        /\ BloodInventory.reservedUnits record'
           = BloodInventory.reservedUnits record)
  /\ (units < 0 ->
      result = (serverError "Failed to update inventory" ValidationError, db)).
Proof.
  intros Hok Hadmin Hrec result units. subst result units.
  destruct (stored_record db _ record Hok Hrec) as (Hk & _ & Hnn).
  rewrite (update_stored_eval db user bt body now record Hok Hadmin Hrec).
  destruct (0 <=? _) eqn:E; simpl.
  - apply Z.leb_le in E. split; [tauto |]. split; [reflexivity |].
    split; [| lia]. intros _. eexists. split; [reflexivity |].
    simpl. repeat split; auto.
  - apply Z.leb_gt in E. split; [split; [discriminate | lia] |].
    split; [| split; [lia | reflexivity]].
    intros Hnone. rewrite Hnone in E. simpl in E. lia.
Qed.

Lemma update_on_record_witness :
  code (fst (inventory.update admin "O+" (setUnits 50) t0 sampleDb)) = 200
  /\ inventory.update admin "O+" (setUnits (-1)) t0 sampleDb
     = (serverError "Failed to update inventory" ValidationError, sampleDb).
Proof.
  split.
  - apply (proj1 (update_on_record sampleDb admin "O+" (setUnits 50) t0
                    stockOPlus DbOk_sampleDb eq_refl eq_refl)).
    simpl; lia.
  - apply (proj2 (proj2 (proj2 (update_on_record sampleDb admin "O+"
                                  (setUnits (-1)) t0 stockOPlus DbOk_sampleDb
                                  eq_refl eq_refl)))).
    simpl; lia.
Defined.

Lemma alerts_eval db user now :
  User.role user = "admin" ->
  inventoryReports.alerts user now db
  = (Sent
       {| inventoryReports.lowStock :=
            List.filter BloodInventory.isLowStock
              (map_to_list (bloodinventories db)).*2;
          inventoryReports.expiring :=
            List.filter
              (fun item =>
                 existsb (inventoryReports.expiresSoon now)
                   (BloodInventory.expiringUnits item))
              (map_to_list (bloodinventories db)).*2 |},
     db).
Proof.
  intros Hadmin. unfold inventoryReports.alerts.
  now rewrite (authorizeR_admin _ _ _ Hadmin).
Qed.

(** X25. After a successful [add-units] with an expiry date, the record
    of that blood type holds the batch, and [GET /inventory/alerts] at a
    later time lists the record under [expiring] exactly when one of its
    batches expires within the next seven days; so it does whenever the
    added batch does. *)
Theorem added_batch_alert (db : Db) (user : User.t)
    (body : inventory.AddUnitsBody) (now later date : Date) :
  DbOk db ->
  User.role user = "admin" ->
  inventory.expiryDate body = Some date ->
  code (fst (inventory.addUnits user body now db)) = 200 ->
  let db' := snd (inventory.addUnits user body now db) in
  exists a record,
    inventoryReports.alerts user later db' = (Sent a, db')
    /\ bloodinventories db' !! inventory.bloodType body = Some record
    /\ In (date, inventory.units body) (BloodInventory.expiringUnits record)
    /\ (In record (inventoryReports.expiring a)
        <-> exists d u, In (d, u) (BloodInventory.expiringUnits record)
                        /\ later < d <= later + 7 * 86400000)
    /\ (later < date <= later + 7 * 86400000 ->
        In record (inventoryReports.expiring a)).
Proof.
  intros Hok Hadmin Hdate Hcode db'.
  assert (Hrec : exists record,
             bloodinventories db' !! inventory.bloodType body = Some record
             /\ In (date, inventory.units body)
                  (BloodInventory.expiringUnits record)).
  { subst db'. revert Hcode.
    unfold inventory.addUnits. rewrite (gate_open user db _ Hadmin).
    unfold tryCatch, bind, Query.BloodInventory_findOne,
      Query.BloodInventory_save, ret. rewrite Hdate. simpl.
    destruct (bloodinventories db !! inventory.bloodType body) as [i |]
      eqn:Hi; simpl.
    - destruct (stored_record db _ i Hok Hi) as (Hk & _).
      destruct (BloodInventory.validate _) eqn:Hv; simpl; [| discriminate].
      intros _. eexists. rewrite Hk. split; [apply lookup_insert_eq |].
      simpl. apply in_or_app. right. simpl. auto.
    - destruct (BloodInventory.validate _) eqn:Hv; simpl; [| discriminate].
      intros _. eexists. split; [apply lookup_insert_eq |].
      simpl. auto. }
  destruct Hrec as (record & Hl & Hin).
  eexists. exists record.
  split; [apply (alerts_eval db' user later Hadmin) |].
  split; [exact Hl |]. split; [exact Hin |]. simpl.
  assert (Hiff : In record
                   (List.filter
                      (fun item =>
                         existsb (inventoryReports.expiresSoon later)
                           (BloodInventory.expiringUnits item))
                      (map_to_list (bloodinventories db')).*2)
                 <-> exists d u, In (d, u) (BloodInventory.expiringUnits record)
                                 /\ later < d <= later + 7 * 86400000).
  { rewrite filter_In, stored_values, existsb_exists. split.
    - intros [_ ([d u] & Hd & Hsoon)]. exists d, u. split; [exact Hd |].
      exact (proj1 (expiresSoon_window later d u) Hsoon).
    - intros (d & u & Hd & Hw). split; [now exists (inventory.bloodType body) |].
      exists (d, u). split; [exact Hd |].
      exact (proj2 (expiresSoon_window later d u) Hw). }
  split; [exact Hiff |].
  intros Hw. apply Hiff. now exists date, (inventory.units body).
Qed.

Lemma added_batch_alert_witness :
  exists a record,
    inventoryReports.alerts admin (t0 + 86400000)
      (snd (inventory.addUnits admin expiringBatch t0 sampleDb))
    = (Sent a, snd (inventory.addUnits admin expiringBatch t0 sampleDb))
    /\ BloodInventory.unitsAvailable record = 9
    /\ In record (inventoryReports.expiring a).
Proof.
  assert (Hcode : code (fst (inventory.addUnits admin expiringBatch t0
                               sampleDb)) = 200)
    by (vm_compute; reflexivity).
  destruct (added_batch_alert sampleDb admin expiringBatch t0
              (t0 + 86400000) (t0 + 3 * 86400000) DbOk_sampleDb eq_refl
              eq_refl Hcode) as (a & record & Heq & Hl & _ & _ & Hsoon).
  exists a, record. split; [exact Heq |]. split.
  - assert (Hstored : bloodinventories
                        (snd (inventory.addUnits admin expiringBatch t0
                                sampleDb)) !! "O+"
                      = Some (restocked expiringBatch t0 stockOPlus))
      by (vm_compute; reflexivity).
    simpl in Hl. rewrite Hstored in Hl. injection Hl as <-. reflexivity.
  - apply Hsoon. lia.
Defined.

(** ** Creation, then reading *)

Lemma myDonations_eval user db :
  bloodRead.myDonations user db
  = (Sent (foldr bloodRead.insertByDate []
             (filter (fun d => Donation.donor d = User._id user)
                (Donation.hydrate <$> (map_to_list (donations db)).*2))),
     db).
Proof. reflexivity. Qed.

Lemma myDonations_In user db d :
  In d (foldr bloodRead.insertByDate []
          (filter (fun d => Donation.donor d = User._id user)
             (Donation.hydrate <$> (map_to_list (donations db)).*2)))
  <-> exists id stored,
        donations db !! id = Some stored
        /\ Donation.donor stored = User._id user
        /\ d = Donation.hydrate stored.
Proof.
  destruct (foldr_insertByDate
              (filter (fun d => Donation.donor d = User._id user)
                 (Donation.hydrate <$> (map_to_list (donations db)).*2)))
    as [_ Hp].
  rewrite <- list_elem_of_In, Hp.
  rewrite list_elem_of_filter, list_elem_of_fmap. split.
  - intros [Hd (stored & -> & Hin)].
    apply list_elem_of_fmap in Hin as ([id s] & -> & Hin).
    apply elem_of_map_to_list in Hin. simpl in *.
    exists id, s. repeat split; assumption.
  - intros (id & stored & Hl & Hd & ->). split; [exact Hd |].
    exists stored. split; [reflexivity |].
    apply list_elem_of_fmap. exists (id, stored). split; [reflexivity |].
    now apply elem_of_map_to_list.
Qed.

Lemma Donation_create_fields input doc :
  Donation.create input = Some doc ->
  Some (Donation.donor doc) = Donation.f_donor input
  /\ Some (Donation.donationDate doc) = Donation.f_donationDate input
  /\ Donation.hydrate doc = doc.
Proof.
  unfold Donation.create. intros H.
  destruct (Donation.f_donor input) as [dn |]; [| discriminate H].
  destruct (Donation.f_donationDate input) as [dt |]; [| discriminate H].
  simpl in H.
  destruct (requiredString (Donation.f_bloodType input)) as [bt |];
    [| discriminate H].
  simpl in H. destruct (Donation.validate _); [| discriminate H].
  injection H as <-. auto.
Qed.

(** X26. A donation scheduled with 201 carries the caller's id as its
    donor and the body's donation date; [GET /blood/my-donations] of the
    caller then lists it, and the list of any other user is what it was
    before and holds only that user's donations. *)
Theorem scheduled_donation_listed (db : Db) (user donor other : User.t)
    (body : Donation.fields) (now : Date) (newId : ObjectId) :
  users db !! User._id user = Some donor ->
  code (fst (blood.donate user body now newId db)) = 201 ->
  User._id other <> User._id user ->
  let db' := snd (blood.donate user body now newId db) in
  exists doc mine theirs,
    data (fst (blood.donate user body now newId db)) = DonationData doc
    /\ Donation.donor doc = User._id user
    /\ Some (Donation.donationDate doc) = Donation.f_donationDate body
    /\ bloodRead.myDonations user db' = (Sent mine, db')
    /\ In doc mine
    /\ bloodRead.myDonations other db' = (Sent theirs, db')
    /\ (forall d, In d theirs -> Donation.donor d = User._id other)
    /\ (forall d before,
          fst (bloodRead.myDonations other db) = Sent before ->
          In d theirs <-> In d before).
Proof.
  intros Hdonor Hcode Hother db'. subst db'. revert Hcode.
  rewrite (donate_eval db user body now newId donor Hdonor).
  destruct (User.checkEligibility donor now); [| discriminate].
  destruct (Donation.create _) as [doc |] eqn:Hcreate; [| discriminate].
  destruct (donations db !! newId) eqn:Hfresh; [discriminate |].
  intros _. cbn [fst snd data json].
  destruct (Donation_create_fields _ doc Hcreate) as (Hdn & Hdt & Hhy).
  simpl in Hdn, Hdt. injection Hdn as Hdn.
  exists doc. eexists. eexists.
  split; [reflexivity |]. split; [exact Hdn |]. split; [exact Hdt |].
  split; [apply myDonations_eval |].
  split.
  { apply myDonations_In. exists newId, doc. simpl.
    rewrite lookup_insert_eq. auto. }
  split; [apply myDonations_eval |].
  split.
  { intros d Hd. apply myDonations_In in Hd as (id & s & _ & Hs & ->).
    exact Hs. }
  intros d before Hbefore. rewrite myDonations_eval in Hbefore.
  injection Hbefore as <-. rewrite !myDonations_In. simpl.
  split; intros (id & s & Hl & Hs & ->); exists id, s;
    (split; [| split; [exact Hs | reflexivity]]).
  - destruct (decide (id = newId)) as [-> | Hne].
    + rewrite lookup_insert_eq in Hl. injection Hl as <-. congruence.
    + now rewrite lookup_insert_ne in Hl.
  - destruct (decide (id = newId)) as [-> | Hne]; [congruence |].
    now rewrite lookup_insert_ne.
Qed.

Lemma scheduled_donation_listed_witness :
  exists mine,
    bloodRead.myDonations (donorAt None)
      (snd (blood.donate (donorAt None) (donateBody None) t0 "don9" sampleDb))
    = (Sent mine,
       snd (blood.donate (donorAt None) (donateBody None) t0 "don9" sampleDb))
    /\ In scheduledSample mine.
Proof.
  assert (Hcode : code (fst (blood.donate (donorAt None) (donateBody None) t0
                               "don9" sampleDb)) = 201)
    by (vm_compute; reflexivity).
  assert (Hother : User._id recipient <> User._id (donorAt None))
    by discriminate.
  destruct (scheduled_donation_listed sampleDb (donorAt None) (donorAt None)
              recipient (donateBody None) t0 "don9" eq_refl Hcode Hother)
    as (doc & mine & theirs & Hdata & _ & _ & Hmine & Hin & _).
  assert (Hsample : data (fst (blood.donate (donorAt None) (donateBody None)
                                 t0 "don9" sampleDb))
                    = DonationData scheduledSample)
    by (vm_compute; reflexivity).
  rewrite Hsample in Hdata. injection Hdata as <-.
  exists mine. split; [exact Hmine | exact Hin].
Defined.

Lemma BloodRequest_create_fields input doc :
  BloodRequest.create input = Some doc ->
  Some (BloodRequest.requester doc) = BloodRequest.f_requester input
  /\ BloodRequest.hydrate doc = doc.
Proof.
  unfold BloodRequest.create. intros H.
  destruct (BloodRequest.f_requester input) as [rq |]; [| discriminate H].
  simpl in H.
  destruct (requiredString (BloodRequest.f_patientName input));
    [| discriminate H]. simpl in H.
  destruct (requiredString (BloodRequest.f_bloodType input));
    [| discriminate H]. simpl in H.
  destruct (BloodRequest.f_unitsNeeded input); [| discriminate H].
  simpl in H.
  destruct (requiredString (BloodRequest.f_hospitalName input));
    [| discriminate H]. simpl in H.
  destruct (requiredString (BloodRequest.f_medicalReason input));
    [| discriminate H]. simpl in H.
  destruct (BloodRequest.f_requiredDate input); [| discriminate H].
  simpl in H. destruct (BloodRequest.validate _); [| discriminate H].
  injection H as <-. auto.
Qed.

(** X27. A request created with 201 by a stored user carries that
    user's id as its requester, whatever the body says;
    [GET /requests/:id] then answers the creator and every admin with the
    stored request, and answers any other caller with 403 "Access
    denied", as does the deletion. *)
Theorem created_request_access (db : Db) (user stored : User.t)
    (body : BloodRequest.fields) (newId : ObjectId) :
  DbOk db ->
  users db !! User._id user = Some stored ->
  code (fst (requests.create user body newId db)) = 201 ->
  let db' := snd (requests.create user body newId db) in
  exists doc,
    data (fst (requests.create user body newId db)) = RequestData doc
    /\ BloodRequest.requester doc = User._id user
    /\ requestsRead.getById user newId db'
       = (jsonData (RequestData doc), db')
    /\ (forall other,
          User.role other <> "admin" ->
          User._id other <> User._id user ->
          requestsRead.getById other newId db'
          = (failure 403 "Access denied", db')
          /\ requests.deleteRequest other newId db'
             = (failure 403 "Access denied", db'))
    /\ (forall other,
          User.role other = "admin" ->
          requestsRead.getById other newId db'
          = (jsonData (RequestData doc), db')).
Proof.
  intros Hok Hstored Hcode db'. subst db'. revert Hcode.
  rewrite create_eval.
  destruct (BloodRequest.create _) as [doc |] eqn:Hcreate; [| discriminate].
  destruct (bloodrequests db !! newId) eqn:Hfresh; [discriminate |].
  intros _. cbn [fst snd data json].
  destruct (BloodRequest_create_fields _ doc Hcreate) as (Hrq & Hhy).
  simpl in Hrq. injection Hrq as Hrq.
  pose proof (ok_users db Hok _ stored Hstored) as Hid. simpl in Hid.
  exists doc. split; [reflexivity |]. split; [exact Hrq |].
  assert (Hread : forall caller,
             requestsRead.getById caller newId
               (set_bloodrequests (<[newId := doc]> (bloodrequests db)) db)
             = (if negb (String.eqb (User.role caller) "admin") then
                  if negb (String.eqb (User._id user) (User._id caller))
                  then failure 403 "Access denied"
                  else jsonData (RequestData doc)
                else jsonData (RequestData doc),
                set_bloodrequests (<[newId := doc]> (bloodrequests db)) db)).
  { intros caller.
    unfold requestsRead.getById, tryCatch, bind, Query.BloodRequest_findById,
      Query.User_findById. simpl.
    rewrite lookup_insert_eq. simpl. rewrite Hhy, Hrq, Hstored, Hid.
    destruct (String.eqb (User.role caller) "admin"); simpl;
      [reflexivity |].
    destruct (String.eqb (User._id user) (User._id caller)); reflexivity. }
  split; [| split].
  - rewrite Hread, String.eqb_refl. simpl.
    now destruct (String.eqb (User.role user) "admin").
  - intros other Hrole Hne. split.
    + rewrite Hread.
      rewrite (proj2 (String.eqb_neq _ _) Hrole). simpl.
      rewrite (proj2 (String.eqb_neq (User._id user) (User._id other)));
        [reflexivity | congruence].
    + unfold requests.deleteRequest, tryCatch, bind,
        Query.BloodRequest_findById. simpl.
      rewrite lookup_insert_eq. simpl.
      rewrite (proj2 (String.eqb_neq _ _) Hrole). simpl.
      rewrite Hrq.
      rewrite (proj2 (String.eqb_neq (User._id user) (User._id other)));
        [reflexivity | congruence].
  - intros other Hrole. rewrite Hread, Hrole. reflexivity.
Qed.

Lemma created_request_access_witness :
  exists doc,
    requestsRead.getById recipient "req9"
      (snd (requests.create recipient (requestBody None) "req9" sampleDb))
    = (jsonData (RequestData doc),
       snd (requests.create recipient (requestBody None) "req9" sampleDb))
    /\ requestsRead.getById (donorAt None) "req9"
         (snd (requests.create recipient (requestBody None) "req9" sampleDb))
       = (failure 403 "Access denied",
          snd (requests.create recipient (requestBody None) "req9" sampleDb)).
Proof.
  assert (Hcode : code (fst (requests.create recipient (requestBody None)
                               "req9" sampleDb)) = 201)
    by (vm_compute; reflexivity).
  destruct (created_request_access sampleDb recipient recipient
              (requestBody None) "req9" DbOk_sampleDb eq_refl Hcode)
    as (doc & _ & _ & Hown & Hother & _).
  exists doc. split; [exact Hown |].
  apply (Hother (donorAt None)); discriminate.
Defined.
